(** * LTI 1.1 test platform and sample tool: OAuth signing, launch
      parameters, sourced ids and the Basic Outcomes exchange

    Shallow embedding of [app.py] (the platform: [generate_oauth_signature],
    [build_lti_launch_params], [receive_outcome]) and of [sample_tool.py]
    (the tool provider: [verify_oauth_signature], [send_grade]), with the
    library functions they call: [urllib.parse.quote], [hashlib.sha1],
    [hmac], [base64], [str.split], [re.search], [float].

    Conventions of the model:
    - a Python [str] is represented by the bytes of its UTF-8 encoding, as a
      [string]; ordering of [str] by code point is ordering of these bytes,
      and [.encode('utf-8')] / [.encode()] is the identity;
    - a Python [bytes] object is a [string] as well, and [.decode()] checks
      that it is well-formed UTF-8;
    - [upper] and [lower] are [str.upper] and [str.lower] on ASCII strings;
      the bytes of other characters are left as they are.  A statement that
      depends on the upper-case form of a method takes the method to be
      ASCII.  Whether the ASCII word [success] occurs in [lower text] is the
      same for the two, since the only characters outside ASCII with an
      ASCII letter in their lower-case form give [i] and [k];
    - [float] reads ASCII numerals; Python's [float] also reads the decimal
      digits and the spaces of other scripts, so [float] here rejects a text
      with such a character.  The statements use [float] on ASCII texts or
      on a text it accepts;
    - exceptions are values of [exn]; a function that may raise returns a
      [result], and a bare [except] is [try_except];
    - a dictionary is the list of its items in insertion order;
    - the wall clock, the UUID source, the network, the rendering of a
      binary64 score and the SQLite comparison of an INTEGER column with a
      bound text are inputs of the functions that use them. *)

From Stdlib Require Import ZArith List String Ascii Bool Lia.
From Stdlib Require Import DecimalString.
From Stdlib Require Import Sorting.Permutation Sorting.Sorted.
Import ListNotations.

Local Open Scope string_scope.
Local Open Scope Z_scope.

(* ================================================================== *)
(** * Python primitives *)

(** ** Bytes *)

Definition code (c : ascii) : Z := Z.of_N (N_of_ascii c).
Definition chr (z : Z) : ascii := ascii_of_N (Z.to_N z).

Definition bytes_of (s : string) : list Z := map code (list_ascii_of_string s).
Definition of_bytes (l : list Z) : string := string_of_list_ascii (map chr l).

(** ** Exceptions and results *)

Inductive exn : Type :=
| KeyError (key : string)
| IndexError
| AttributeError
| TypeError
| ValueError
| UnicodeDecodeError
| BinasciiError.

Definition result (A : Type) : Type := (exn + A)%type.

Definition ret {A : Type} (a : A) : result A := inr a.
Definition raise {A : Type} (e : exn) : result A := inl e.
Definition bind {A B : Type} (m : result A) (k : A -> result B) : result B :=
  match m with
  | inl e => inl e
  | inr a => k a
  end.

Notation "x <- m ;; k" := (bind m (fun x => k))
  (at level 61, m at next level, right associativity).

(** [try: body except: handler] with a bare [except]. *)
Definition try_except {A : Type} (body : result A) (handler : A) : A :=
  match body with
  | inl _ => handler
  | inr a => a
  end.

(** ** Values held by the dictionaries the platform passes around *)

Inductive value : Type :=
| VStr (s : string)
| VInt (z : Z)
| VNone.

Definition decimal (z : Z) : string := NilZero.string_of_int (Z.to_int z).

(** [str(v)], which is also what an f-string placeholder renders. *)
Definition str (v : value) : string :=
  match v with
  | VStr s => s
  | VInt z => decimal z
  | VNone => "None"
  end.

Definition value_eqb (a b : value) : bool :=
  match a, b with
  | VStr s, VStr t => String.eqb s t
  | VInt x, VInt y => Z.eqb x y
  | VNone, VNone => true
  | _, _ => false
  end.

(** ** Dictionaries: insertion-ordered association lists with distinct keys *)

Definition dict (V : Type) : Type := list (string * V).

Definition keys {V : Type} (d : dict V) : list string := map fst d.

Definition wf_dict {V : Type} (d : dict V) : Prop := NoDup (keys d).

Fixpoint dict_get {V : Type} (k : string) (d : dict V) : option V :=
  match d with
  | [] => None
  | (k', v) :: r => if String.eqb k' k then Some v else dict_get k r
  end.

(** [d[k] = v]: an existing key keeps its place, a new one goes last. *)
Fixpoint dict_set {V : Type} (k : string) (v : V) (d : dict V) : dict V :=
  match d with
  | [] => [(k, v)]
  | (k', v') :: r =>
      if String.eqb k' k then (k', v) :: r else (k', v') :: dict_set k v r
  end.

(** [d[k]], raising [KeyError]. *)
Definition getitem {V : Type} (k : string) (d : dict V) : result V :=
  match dict_get k d with
  | Some v => ret v
  | None => raise (KeyError k)
  end.

(** ** String helpers *)

Definition upper_char (c : ascii) : ascii :=
  if (97 <=? code c) && (code c <=? 122) then chr (code c - 32) else c.

Definition lower_char (c : ascii) : ascii :=
  if (65 <=? code c) && (code c <=? 90) then chr (code c + 32) else c.

Fixpoint map_string (f : ascii -> ascii) (s : string) : string :=
  match s with
  | EmptyString => EmptyString
  | String c r => String (f c) (map_string f r)
  end.

Definition upper (s : string) : string := map_string upper_char s.
Definition lower (s : string) : string := map_string lower_char s.

Fixpoint all_chars (p : ascii -> bool) (s : string) : bool :=
  match s with
  | EmptyString => true
  | String c r => p c && all_chars p r
  end.

Definition is_ascii (s : string) : bool := all_chars (fun c => code c <? 128) s.

(** [sep.join(l)] is [String.concat sep l]. *)
Definition join (sep : string) (l : list string) : string := String.concat sep l.

(** [s.startswith(p)]: the rest of [s] after [p], when [s] starts with [p]. *)
Fixpoint strip_prefix (p s : string) : option string :=
  match p with
  | EmptyString => Some s
  | String a p' =>
      match s with
      | EmptyString => None
      | String b s' => if Ascii.eqb a b then strip_prefix p' s' else None
      end
  end.

Definition startswith (s p : string) : bool :=
  match strip_prefix p s with Some _ => true | None => false end.

(** [needle in s]. *)
Fixpoint contains (needle s : string) : bool :=
  startswith s needle ||
  match s with
  | EmptyString => false
  | String _ r => contains needle r
  end.

(* ================================================================== *)
(** * [urllib.parse.quote(s, safe='')] *)

Definition always_safe (c : ascii) : bool :=
  let n := code c in
  ((65 <=? n) && (n <=? 90)) || ((97 <=? n) && (n <=? 122)) ||
  ((48 <=? n) && (n <=? 57)) ||
  (n =? 95) || (n =? 46) || (n =? 45) || (n =? 126).

Definition hex_digit (n : Z) : ascii :=
  if n <? 10 then chr (48 + n) else chr (55 + n).

Definition quote_byte (c : ascii) : string :=
  if always_safe c then String c EmptyString
  else String "%" (String (hex_digit (code c / 16))
                     (String (hex_digit (code c mod 16)) EmptyString)).

Fixpoint quote (s : string) : string :=
  match s with
  | EmptyString => EmptyString
  | String c r => quote_byte c ++ quote r
  end.

(* ================================================================== *)
(** * [hashlib.sha1] and [hmac.new(key, msg, hashlib.sha1).digest()] *)

Module SHA1.

Definition w32 (x : Z) : Z := Z.land x 4294967295.
Definition add32 (x y : Z) : Z := w32 (x + y).
Definition not32 (x : Z) : Z := Z.lxor x 4294967295.
Definition rotl (n x : Z) : Z :=
  w32 (Z.lor (Z.shiftl x n) (Z.shiftr x (32 - n))).

Definition be64 (n : Z) : list Z :=
  map (fun i => Z.land (Z.shiftr n (8 * i)) 255) [7; 6; 5; 4; 3; 2; 1; 0].

Definition pad (msg : list Z) : list Z :=
  let len := Z.of_nat (List.length msg) in
  (msg ++ [128] ++ repeat 0 (Z.to_nat ((55 - len) mod 64)) ++ be64 (8 * len))%list.

Fixpoint words (bs : list Z) : list Z :=
  match bs with
  | a :: b :: c :: d :: r =>
      Z.lor (Z.shiftl a 24) (Z.lor (Z.shiftl b 16) (Z.lor (Z.shiftl c 8) d))
      :: words r
  | _ => []
  end.

Fixpoint expand (n : nat) (w : list Z) : list Z :=
  match n with
  | O => w
  | S n' =>
      let i := List.length w in
      let x := Z.lxor (Z.lxor (nth (i - 3) w 0) (nth (i - 8) w 0))
                      (Z.lxor (nth (i - 14) w 0) (nth (i - 16) w 0)) in
      expand n' (w ++ [rotl 1 x])%list
  end.

Definition state : Type := (Z * Z * Z * Z * Z)%type.

Definition h_init : state :=
  (1732584193, 4023233417, 2562383102, 271733878, 3285377520).

Definition round (st : state) (iw : nat * Z) : state :=
  let '(a, b, c, d, e) := st in
  let '(i, w) := iw in
  let '(f, k) :=
    if (i <? 20)%nat then
      (Z.lor (Z.land b c) (Z.land (not32 b) d), 1518500249)
    else if (i <? 40)%nat then
      (Z.lxor (Z.lxor b c) d, 1859775393)
    else if (i <? 60)%nat then
      (Z.lor (Z.lor (Z.land b c) (Z.land b d)) (Z.land c d), 2400959708)
    else
      (Z.lxor (Z.lxor b c) d, 3395469782) in
  let temp := add32 (add32 (add32 (add32 (rotl 5 a) f) e) k) w in
  (temp, a, rotl 30 b, c, d).

Definition compress (h : state) (block : list Z) : state :=
  let w := expand 64 (words block) in
  let '(a, b, c, d, e) := fold_left round (combine (seq 0 80) w) h in
  let '(h0, h1, h2, h3, h4) := h in
  (add32 h0 a, add32 h1 b, add32 h2 c, add32 h3 d, add32 h4 e).

Fixpoint blocks (n : nat) (h : state) (bs : list Z) : state :=
  match n with
  | O => h
  | S n' => blocks n' (compress h (firstn 64 bs)) (skipn 64 bs)
  end.

Definition be32 (x : Z) : list Z :=
  map (fun i => Z.land (Z.shiftr x (8 * i)) 255) [3; 2; 1; 0].

Definition digest (msg : list Z) : list Z :=
  let p := pad msg in
  let '(h0, h1, h2, h3, h4) := blocks (List.length p / 64) h_init p in
  (be32 h0 ++ be32 h1 ++ be32 h2 ++ be32 h3 ++ be32 h4)%list.

End SHA1.

Definition sha1 (msg : string) : string := of_bytes (SHA1.digest (bytes_of msg)).

Definition hmac_block_key (key : list Z) : list Z :=
  let k := if (64 <? Z.of_nat (List.length key)) then SHA1.digest key else key in
  (k ++ repeat 0 (64 - List.length k))%list.

Definition hmac_sha1 (key msg : string) : string :=
  let k := hmac_block_key (bytes_of key) in
  let ipad := map (fun b => Z.lxor b 54) k in
  let opad := map (fun b => Z.lxor b 92) k in
  of_bytes (SHA1.digest (opad ++ SHA1.digest (ipad ++ bytes_of msg))%list).

(* ================================================================== *)
(** * [base64.b64encode] *)

Definition b64_alphabet : string :=
  "ABCDEFGHIJKLMNOPQRSTUVWXYZabcdefghijklmnopqrstuvwxyz0123456789+/".

Definition b64_char (i : Z) : ascii :=
  match String.get (Z.to_nat i) b64_alphabet with
  | Some c => c
  | None => "="%char
  end.

Fixpoint b64encode_bytes (bs : list Z) : string :=
  match bs with
  | [] => EmptyString
  | [a] =>
      String (b64_char (a / 4)) (String (b64_char (a mod 4 * 16)) "==")
  | [a; b] =>
      String (b64_char (a / 4))
        (String (b64_char (a mod 4 * 16 + b / 16))
           (String (b64_char (b mod 16 * 4)) "="))
  | a :: b :: c :: r =>
      String (b64_char (a / 4))
        (String (b64_char (a mod 4 * 16 + b / 16))
           (String (b64_char (b mod 16 * 4 + c / 64))
              (String (b64_char (c mod 64)) (b64encode_bytes r))))
  end.

Definition b64encode (s : string) : string := b64encode_bytes (bytes_of s).

(* ================================================================== *)
(** * OAuth 1.0a: [generate_oauth_signature] and [verify_oauth_signature] *)

(** [sorted(l)] for a comparison [leb]: a stable insertion sort. *)
Fixpoint insert_by {A : Type} (leb : A -> A -> bool) (x : A) (l : list A) : list A :=
  match l with
  | [] => [x]
  | y :: r => if leb x y then x :: l else y :: insert_by leb x r
  end.

Definition sort_by {A : Type} (leb : A -> A -> bool) (l : list A) : list A :=
  fold_right (insert_by leb) [] l.

(** [sorted(params.items())]: tuples compare on their first component
    first; the keys of a dictionary are pairwise distinct, so the order of
    the items is the order of their keys. *)
Definition item_leb {V : Type} (a b : string * V) : bool :=
  String.leb (fst a) (fst b).

Definition sorted_items {V : Type} (d : dict V) : list (string * V) :=
  sort_by item_leb d.

Definition encode_item (kv : string * value) : string :=
  quote (fst kv) ++ "=" ++ quote (str (snd kv)).

Definition param_string (params : dict value) : string :=
  join "&" (map encode_item (sorted_items params)).

Definition signature_base (method url : string) (params : dict value) : string :=
  join "&" [upper method; quote url; quote (param_string params)].

Definition signing_key (consumer_secret : string) : string :=
  quote consumer_secret ++ "&".

Definition generate_oauth_signature
  (method url : string) (params : dict value) (consumer_secret : string)
  : string :=
  b64encode (hmac_sha1 (signing_key consumer_secret)
                       (signature_base method url params)).

(** [hmac.compare_digest] on two [str]: both must be ASCII. *)
Definition compare_digest (a b : string) : result bool :=
  if is_ascii a && is_ascii b then ret (String.eqb a b) else raise TypeError.

(** [{k: v for k, v in params.items() if k != 'oauth_signature'}]. *)
Definition strip_signature (params : dict value) : dict value :=
  filter (fun kv => negb (String.eqb (fst kv) "oauth_signature")) params.

Definition verify_oauth_signature
  (method url : string) (params : dict value)
  (consumer_secret received_signature : string) : result bool :=
  let verify_params := strip_signature params in
  let expected_signature :=
    b64encode (hmac_sha1 (signing_key consumer_secret)
                         (signature_base method url verify_params)) in
  compare_digest expected_signature received_signature.

(* ================================================================== *)
(** * [base64.b64decode] and [bytes.decode] *)

Definition b64_index (c : ascii) : option Z :=
  let n := code c in
  if (65 <=? n) && (n <=? 90) then Some (n - 65)
  else if (97 <=? n) && (n <=? 122) then Some (n - 71)
  else if (48 <=? n) && (n <=? 57) then Some (n + 4)
  else if n =? 43 then Some 62
  else if n =? 47 then Some 63
  else None.

(** [binascii.a2b_base64] in its default, non-strict mode: characters
    outside the alphabet are skipped, a pad sequence that completes the
    current quad ends the input, and data left in an incomplete quad is an
    error.  [quad_pos], [leftchar] and [pads] are the variables of the
    decoding loop; [acc] is the output written so far. *)
Fixpoint a2b_base64 (s : string) (quad_pos : nat) (leftchar pads : Z)
  (acc : list Z) : result (list Z) :=
  match s with
  | EmptyString =>
      match quad_pos with
      | O => ret acc
      | _ => raise BinasciiError
      end
  | String c r =>
      if Ascii.eqb c "=" then
        if (2 <=? quad_pos)%nat then
          if 4 <=? Z.of_nat quad_pos + (pads + 1) then ret acc
          else a2b_base64 r quad_pos leftchar (pads + 1) acc
        else a2b_base64 r quad_pos leftchar pads acc
      else
        match b64_index c with
        | None => a2b_base64 r quad_pos leftchar pads acc
        | Some v =>
            match quad_pos with
            | 0%nat => a2b_base64 r 1 v 0 acc
            | 1%nat =>
                a2b_base64 r 2 (v mod 16) 0
                  (acc ++ [(leftchar * 4 + v / 16) mod 256])%list
            | 2%nat =>
                a2b_base64 r 3 (v mod 4) 0
                  (acc ++ [(leftchar * 16 + v / 4) mod 256])%list
            | _ =>
                a2b_base64 r 0 0 0
                  (acc ++ [(leftchar * 64 + v) mod 256])%list
            end
        end
  end.

(** [base64.b64decode(s)] for a [str] argument. *)
Definition b64decode (s : string) : result string :=
  if is_ascii s then
    bs <- a2b_base64 s 0 0 0 [] ;;
    ret (of_bytes bs)
  else raise ValueError.

Definition in_range (lo hi x : Z) : bool := (lo <=? x) && (x <=? hi).

(** Well-formed UTF-8 (shortest forms, no surrogates, at most U+10FFFF). *)
Fixpoint utf8_valid (s : string) : bool :=
  match s with
  | EmptyString => true
  | String a r =>
      let x := code a in
      if x <? 128 then utf8_valid r
      else
        match r with
        | EmptyString => false
        | String b r1 =>
            let y := code b in
            if in_range 194 223 x then in_range 128 191 y && utf8_valid r1
            else
              match r1 with
              | EmptyString => false
              | String c r2 =>
                  let z := code c in
                  if in_range 224 239 x then
                    (if x =? 224 then in_range 160 191 y
                     else if x =? 237 then in_range 128 159 y
                     else in_range 128 191 y)
                    && in_range 128 191 z && utf8_valid r2
                  else
                    match r2 with
                    | EmptyString => false
                    | String d r3 =>
                        in_range 240 244 x
                        && (if x =? 240 then in_range 144 191 y
                            else if x =? 244 then in_range 128 143 y
                            else in_range 128 191 y)
                        && in_range 128 191 z
                        && in_range 128 191 (code d)
                        && utf8_valid r3
                    end
              end
        end
  end.

(** [b.decode()]. *)
Definition decode_utf8 (b : string) : result string :=
  if utf8_valid b then ret b else raise UnicodeDecodeError.

(* ================================================================== *)
(** * [str.split] *)

(** [s.split(sep)] for a one-character separator. *)
Fixpoint split_on (sep : ascii) (s : string) : list string :=
  match s with
  | EmptyString => [EmptyString]
  | String c r =>
      if Ascii.eqb c sep then EmptyString :: split_on sep r
      else
        match split_on sep r with
        | h :: t => String c h :: t
        | [] => [String c EmptyString]
        end
  end.

(** The characters for which [str.isspace] holds, in UTF-8: U+0009..000D,
    U+001C..0020; U+0085, U+00A0; U+1680, U+2000..200A, U+2028, U+2029,
    U+202F, U+205F, U+3000. *)
Definition space1 (a : ascii) : bool :=
  in_range 9 13 (code a) || in_range 28 32 (code a).

Definition space2 (a b : ascii) : bool :=
  (code a =? 194) && ((code b =? 133) || (code b =? 160)).

Definition space3 (a b c : ascii) : bool :=
  let x := code a in
  let y := code b in
  let z := code c in
  ((x =? 225) && (y =? 154) && (z =? 128)) ||
  ((x =? 226) && (y =? 128) &&
     (in_range 128 138 z || (z =? 168) || (z =? 169) || (z =? 175))) ||
  ((x =? 226) && (y =? 129) && (z =? 159)) ||
  ((x =? 227) && (y =? 128) && (z =? 128)).

Definition flush (cur : string) (l : list string) : list string :=
  match cur with
  | EmptyString => l
  | _ => cur :: l
  end.

Definition snoc (s : string) (c : ascii) : string := s ++ String c EmptyString.

(** Splitting at runs of whitespace; [sp1] tells the one-byte whitespace
    characters and [cur] is the token being read. *)
Fixpoint split_ws (sp1 : ascii -> bool) (cur : string) (s : string) : list string :=
  match s with
  | EmptyString => flush cur []
  | String a r =>
      if sp1 a then flush cur (split_ws sp1 EmptyString r)
      else
        match r with
        | EmptyString => split_ws sp1 (snoc cur a) r
        | String b r1 =>
            if space2 a b then flush cur (split_ws sp1 EmptyString r1)
            else
              match r1 with
              | EmptyString => split_ws sp1 (snoc cur a) r
              | String c r2 =>
                  if space3 a b c then flush cur (split_ws sp1 EmptyString r2)
                  else split_ws sp1 (snoc cur a) r
              end
        end
  end.

(** [s.split()]. *)
Definition split (s : string) : list string := split_ws space1 EmptyString s.

(* ================================================================== *)
(** * [build_lti_launch_params] *)

Definition custom_key (key : string) : string :=
  if negb (startswith key "custom_") then "custom_" ++ key else key.

Definition add_custom (params : dict value) (kv : string * value) : dict value :=
  dict_set (custom_key (fst kv)) (snd kv) params.

(** [v.split()]: only a [str] has the method. *)
Definition split_value (v : value) : result (list string) :=
  match v with
  | VStr s => ret (split s)
  | _ => raise AttributeError
  end.

(** [l[0]]. *)
Definition first {A : Type} (l : list A) : result A :=
  match l with
  | x :: _ => ret x
  | [] => raise IndexError
  end.

(** [a or b] where [a] is a [str]. *)
Definition str_or (a : string) (b : value) : value :=
  match a with
  | EmptyString => b
  | _ => VStr a
  end.

(** [urllib.parse.quote] of the consumer secret: a [str] is required. *)
Definition secret_str (v : value) : result string :=
  match v with
  | VStr s => ret s
  | _ => raise TypeError
  end.

(** The values placed in the dictionary literal of the builder. *)
Record launch_fields : Type := {
  f_consumer_key : value;
  f_timestamp : string;
  f_nonce : string;
  f_resource_link_id : string;
  f_resource_link_title : string;
  f_context_id : value;
  f_context_label : value;
  f_context_title : value;
  f_user_id : value;
  f_given : string;
  f_family : value;
  f_full : value;
  f_email : value;
  f_lti_role : string;
  f_outcomes_url : string;
  f_sourced_id : string
}.

(** The dictionary literal [params = {...}]. *)
Definition fixed_params (f : launch_fields) : dict value :=
  [ ("lti_message_type", VStr "basic-lti-launch-request");
    ("lti_version", VStr "LTI-1p0");
    ("oauth_consumer_key", f_consumer_key f);
    ("oauth_signature_method", VStr "HMAC-SHA1");
    ("oauth_timestamp", VStr (f_timestamp f));
    ("oauth_nonce", VStr (f_nonce f));
    ("oauth_version", VStr "1.0");
    ("oauth_callback", VStr "about:blank");
    ("resource_link_id", VStr (f_resource_link_id f));
    ("resource_link_title", VStr (f_resource_link_title f));
    ("context_id", VStr (str (f_context_id f)));
    ("context_label", f_context_label f);
    ("context_title", f_context_title f);
    ("context_type", VStr "CourseSection");
    ("user_id", VStr (str (f_user_id f)));
    ("lis_person_name_given", VStr (f_given f));
    ("lis_person_name_family", f_family f);
    ("lis_person_name_full", f_full f);
    ("lis_person_contact_email_primary", f_email f);
    ("roles", VStr (f_lti_role f));
    ("lis_outcome_service_url", VStr (f_outcomes_url f));
    ("lis_result_sourcedid", VStr (f_sourced_id f));
    ("launch_presentation_locale", VStr "en-US");
    ("launch_presentation_document_target", VStr "iframe");
    ("tool_consumer_instance_guid", VStr "lti-test-platform.local");
    ("tool_consumer_instance_name", VStr "LTI Test Platform");
    ("tool_consumer_instance_description", VStr "Local LTI 1.1 Testing Environment");
    ("tool_consumer_info_product_family_code", VStr "lti-test-platform");
    ("tool_consumer_info_version", VStr "1.0") ].

(** The sourced id of a launch: base64 of the three ids joined by a colon. *)
Definition encode_sourced_id (course_id resource_link_id user_id : string) : string :=
  b64encode (course_id ++ ":" ++ resource_link_id ++ ":" ++ user_id).

(** The subscripts, method calls and conversions of the builder up to the end
    of the dictionary literal, in the order Python evaluates them.
    [now] is [int(time.time())] and [uuid] is [str(uuid.uuid4())]. *)
Definition eval_fields
  (tool course user : dict value)
  (resource_link_id resource_link_title outcomes_url : string)
  (now : Z) (uuid : string) : result launch_fields :=
  role <- getitem "role" user ;;
  let lti_role :=
    if value_eqb role (VStr "teacher") then "Instructor" else "Learner" in
  course_id <- getitem "id" course ;;
  user_id <- getitem "id" user ;;
  let sourced_id :=
    encode_sourced_id (str course_id) resource_link_id (str user_id) in
  let timestamp := decimal now in
  let nonce := uuid in
  _ <- getitem "consumer_key" tool ;;
  consumer_key <- getitem "consumer_key" tool ;;
  context_id <- getitem "id" course ;;
  context_label <- getitem "code" course ;;
  context_title <- getitem "name" course ;;
  uid <- getitem "id" user ;;
  name <- getitem "name" user ;;
  tokens <- split_value name ;;
  given <- first tokens ;;
  name' <- getitem "name" user ;;
  tokens' <- split_value name' ;;
  let family := str_or (join " " (tl tokens')) name' in
  full <- getitem "name" user ;;
  email <- getitem "email" user ;;
  ret {| f_consumer_key := consumer_key;
         f_timestamp := timestamp;
         f_nonce := nonce;
         f_resource_link_id := resource_link_id;
         f_resource_link_title := resource_link_title;
         f_context_id := context_id;
         f_context_label := context_label;
         f_context_title := context_title;
         f_user_id := uid;
         f_given := given;
         f_family := family;
         f_full := full;
         f_email := email;
         f_lti_role := lti_role;
         f_outcomes_url := outcomes_url;
         f_sourced_id := sourced_id |}.

(** The loop over [custom_params.items()], entered when the argument is
    neither [None] nor empty. *)
Definition merge_custom (custom_params : option (dict value)) (params : dict value)
  : dict value :=
  match custom_params with
  | Some (kv :: cs) => fold_left add_custom (kv :: cs) params
  | _ => params
  end.

Definition build_lti_launch_params
  (tool course user : dict value)
  (resource_link_id resource_link_title launch_url outcomes_url : string)
  (custom_params : option (dict value)) (now : Z) (uuid : string)
  : result (dict value) :=
  f <- eval_fields tool course user resource_link_id resource_link_title
         outcomes_url now uuid ;;
  let params := merge_custom custom_params (fixed_params f) in
  secret <- getitem "consumer_secret" tool ;;
  consumer_secret <- secret_str secret ;;
  let signature :=
    generate_oauth_signature "POST" launch_url params consumer_secret in
  ret (dict_set "oauth_signature" (VStr signature) params).

(* ================================================================== *)
(** * The outcomes endpoint of the platform: [receive_outcome] *)

(** [re.search(open + '([^<]+)' + close, s)] and its group 1.  The group is
    the longest run of characters other than [<] after [open]; it must be
    non-empty and followed by [close]. *)
Fixpoint take_run (s : string) : string * string :=
  match s with
  | EmptyString => (EmptyString, EmptyString)
  | String c r =>
      if Ascii.eqb c "<" then (EmptyString, s)
      else let (g, rest) := take_run r in (String c g, rest)
  end.

Definition match_at (open close s : string) : option string :=
  match strip_prefix open s with
  | None => None
  | Some r =>
      match take_run r with
      | (EmptyString, _) => None
      | (g, rest) => if startswith rest close then Some g else None
      end
  end.

Fixpoint re_search_group (open close s : string) : option string :=
  match match_at open close s with
  | Some g => Some g
  | None =>
      match s with
      | EmptyString => None
      | String _ r => re_search_group open close r
      end
  end.

(** [float(s)] on a [str]: which texts are accepted.  The value of an
    accepted text is kept as the text itself, stripped of the surrounding
    whitespace; its binary64 rounding is not computed.  Decimal digits are
    the ASCII ones. *)
Definition pyfloat : Type := string.

(** The whitespace [float] strips: of the one-byte characters, only
    U+0009..000D and the space. *)
Definition float_space1 (a : ascii) : bool :=
  in_range 9 13 (code a) || (code a =? 32).

Definition is_digit (c : ascii) : bool := in_range 48 57 (code c).

(** After a digit: more digits, each possibly preceded by one underscore. *)
Fixpoint eat_more (s : string) : string :=
  match s with
  | EmptyString => EmptyString
  | String c r =>
      if is_digit c then eat_more r
      else if Ascii.eqb c "_" then
        match r with
        | String d r' => if is_digit d then eat_more r' else s
        | EmptyString => s
        end
      else s
  end.

Definition eat_digits (s : string) : option string :=
  match s with
  | String c r => if is_digit c then Some (eat_more r) else None
  | EmptyString => None
  end.

Definition eat_sign (s : string) : string :=
  match s with
  | String c r => if Ascii.eqb c "+" || Ascii.eqb c "-" then r else s
  | EmptyString => s
  end.

Definition exponent_ok (s : string) : bool :=
  match s with
  | EmptyString => true
  | String c r =>
      (Ascii.eqb c "e" || Ascii.eqb c "E") &&
      match eat_digits (eat_sign r) with
      | Some EmptyString => true
      | _ => false
      end
  end.

Definition float_token (t : string) : bool :=
  let u := eat_sign t in
  let l := lower u in
  String.eqb l "inf" || String.eqb l "infinity" || String.eqb l "nan" ||
  match eat_digits u with
  | Some r =>
      match r with
      | String "." r' =>
          match eat_digits r' with
          | Some r'' => exponent_ok r''
          | None => exponent_ok r'
          end
      | _ => exponent_ok r
      end
  | None =>
      match u with
      | String "." r' =>
          match eat_digits r' with
          | Some r'' => exponent_ok r''
          | None => false
          end
      | _ => false
      end
  end.

Definition float (s : string) : result pyfloat :=
  match split_ws float_space1 EmptyString s with
  | [t] => if float_token t then ret t else raise ValueError
  | _ => raise ValueError
  end.

(** The tables of the platform that the endpoint reads and writes. *)
Record course_tool : Type := {
  ct_id : Z;
  ct_course_id : Z;
  ct_tool_id : Z;
  ct_resource_link_id : string
}.

Record grade_result : Type := {
  gr_course_tool_id : Z;
  gr_user_id : string;
  gr_sourced_id : string;
  gr_score : pyfloat;
  gr_raw_xml : string
}.

Record database : Type := {
  course_tools : list course_tool;
  grade_results : list grade_result
}.

Definition dq : string := String (chr 34) EmptyString.

(** The POX response, with both identifiers set to [msg_id]. *)
Definition response_xml (msg_id : string) : string :=
  "<?xml version=" ++ dq ++ "1.0" ++ dq ++ " encoding=" ++ dq ++ "UTF-8" ++ dq ++ "?>
<imsx_POXEnvelopeResponse xmlns=" ++ dq ++ "http://www.imsglobal.org/services/ltiv1p1/xsd/imsoms_v1p0" ++ dq ++ ">
  <imsx_POXHeader>
    <imsx_POXResponseHeaderInfo>
      <imsx_version>V1.0</imsx_version>
      <imsx_messageIdentifier>" ++ msg_id ++ "</imsx_messageIdentifier>
      <imsx_statusInfo>
        <imsx_codeMajor>success</imsx_codeMajor>
        <imsx_severity>status</imsx_severity>
        <imsx_description>Score received</imsx_description>
        <imsx_messageRefIdentifier>" ++ msg_id ++ "</imsx_messageRefIdentifier>
        <imsx_operationRefIdentifier>replaceResult</imsx_operationRefIdentifier>
      </imsx_statusInfo>
    </imsx_POXResponseHeaderInfo>
  </imsx_POXHeader>
  <imsx_POXBody>
    <replaceResultResponse/>
  </imsx_POXBody>
</imsx_POXEnvelopeResponse>".

(** The three extractions of the endpoint. *)
Definition sourced_id_of (body_text : string) : option string :=
  re_search_group "<sourcedId>" "</sourcedId>" body_text.

Definition score_text_of (body_text : string) : option string :=
  re_search_group "<textString>" "</textString>" body_text.

Definition message_id_of (body_text : string) : option string :=
  re_search_group "<imsx_messageIdentifier>" "</imsx_messageIdentifier>" body_text.

(** [base64.b64decode(sourced_id).decode().split(':')]. *)
Definition decode_sourced_id (sourced_id : string) : result (list string) :=
  raw <- b64decode sourced_id ;;
  decoded <- decode_utf8 raw ;;
  ret (split_on ":" decoded).

Section Outcomes.

(** SQLite's comparison [course_id = ?] of the INTEGER column with the
    bound text. *)
Variable int_column_eq : Z -> string -> bool.

(** [SELECT id FROM course_tools WHERE course_id = ? AND resource_link_id = ?]
    followed by [fetchone()]. *)
Definition select_course_tool (db : database) (course_id resource_link_id : string)
  : option course_tool :=
  find (fun ct => int_column_eq (ct_course_id ct) course_id
                  && String.eqb (ct_resource_link_id ct) resource_link_id)
       (course_tools db).

Definition insert_grade (db : database) (g : grade_result) : database :=
  {| course_tools := course_tools db;
     grade_results := (grade_results db ++ [g])%list |}.

(** The body of the [try] block. *)
Definition store_grade (db : database) (sourced_id : string) (score : pyfloat)
  (body_text : string) : result database :=
  parts <- decode_sourced_id sourced_id ;;
  match parts with
  | [course_id; resource_link_id; user_id] =>
      match select_course_tool db course_id resource_link_id with
      | Some ct =>
          ret (insert_grade db
                 {| gr_course_tool_id := ct_id ct;
                    gr_user_id := user_id;
                    gr_sourced_id := sourced_id;
                    gr_score := score;
                    gr_raw_xml := body_text |})
      | None => ret db
      end
  | _ => ret db
  end.

(** [uuid] is [str(uuid.uuid4())].  An exception that leaves the function
    is answered by the framework with status 500. *)
Definition receive_outcome (db : database) (uuid : string) (body : string)
  : result (database * string) :=
  body_text <- decode_utf8 body ;;
  let sourced_id := sourced_id_of body_text in
  score <-
    match score_text_of body_text with
    | Some t => x <- float t ;; ret (Some x)
    | None => ret None
    end ;;
  let msg_id :=
    match message_id_of body_text with
    | Some m => m
    | None => uuid
    end in
  let db' :=
    match sourced_id, score with
    | Some (String c r), Some x =>
        try_except (store_grade db (String c r) x body_text) db
    | _, _ => db
    end in
  ret (db', response_xml msg_id).

End Outcomes.

(* ================================================================== *)
(** * The grade push of the sample tool: [send_grade] *)

Inductive post_result : Type :=
| PostRaises (message : string)
| PostResponse (status_code : Z) (text : string).

Record request : Type := {
  req_url : string;
  req_content : string;
  req_content_type : string
}.

(** What the endpoint answers: an [HTTPException], or the rendered page,
    kept as the values that fill its placeholders. *)
Inductive http_result : Type :=
| HTTPException (status_code : Z) (detail : string)
| GradePage (success : bool) (score : string) (percent : Z)
            (outcomes_url : string) (response_text : string).

Definition xml_payload (message_id sourced_id score : string) : string :=
  "<?xml version=" ++ dq ++ "1.0" ++ dq ++ " encoding=" ++ dq ++ "UTF-8" ++ dq ++ "?>
<imsx_POXEnvelopeRequest xmlns=" ++ dq ++ "http://www.imsglobal.org/services/ltiv1p1/xsd/imsoms_v1p0" ++ dq ++ ">
  <imsx_POXHeader>
    <imsx_POXRequestHeaderInfo>
      <imsx_version>V1.0</imsx_version>
      <imsx_messageIdentifier>" ++ message_id ++ "</imsx_messageIdentifier>
    </imsx_POXRequestHeaderInfo>
  </imsx_POXHeader>
  <imsx_POXBody>
    <replaceResultRequest>
      <resultRecord>
        <sourcedGUID>
          <sourcedId>" ++ sourced_id ++ "</sourcedId>
        </sourcedGUID>
        <result>
          <resultScore>
            <language>en</language>
            <textString>" ++ score ++ "</textString>
          </resultScore>
        </result>
      </resultRecord>
    </replaceResultRequest>
  </imsx_POXBody>
</imsx_POXEnvelopeRequest>".

(** [not v] for a value read with [params.get]. *)
Definition falsy (v : option value) : bool :=
  match v with
  | None => true
  | Some VNone => true
  | Some (VStr EmptyString) => true
  | Some (VInt 0) => true
  | Some _ => false
  end.

Section SendGrade.

(** The score is a binary64 float: its rendering [f"{score}"] and
    [int(score * 100)], which raises on a NaN or an infinity with the
    message given, are taken from the floating-point library. *)
Variable score_t : Type.
Variable score_repr : score_t -> string.
Variable score_percent : score_t -> string + Z.

(** The network: what [client.post] does with a request. *)
Variable post : request -> post_result.

(** [launches] maps a launch id to the parameters of the launch;
    [message_id] is [str(uuid.uuid4())].  The result comes with the
    requests sent, in order. *)
Definition send_grade (launches : dict (dict value)) (launch_id : string)
  (score : score_t) (message_id : string) : http_result * list request :=
  match dict_get launch_id launches with
  | None => (HTTPException 404 "Launch not found", [])
  | Some params =>
      let outcomes_url := dict_get "lis_outcome_service_url" params in
      let sourced_id := dict_get "lis_result_sourcedid" params in
      match outcomes_url, sourced_id with
      | Some url, Some sid =>
          if falsy outcomes_url || falsy sourced_id then
            (HTTPException 400 "Outcomes not supported", [])
          else
            let req := {| req_url := str url;
                          req_content :=
                            xml_payload message_id (str sid) (score_repr score);
                          req_content_type := "application/xml" |} in
            match post req with
            | PostRaises e =>
                (HTTPException 500 ("Failed to send grade: " ++ e), [req])
            | PostResponse status text =>
                let success :=
                  (status =? 200) && contains "success" (lower text) in
                match score_percent score with
                | inl e =>
                    (HTTPException 500 ("Failed to send grade: " ++ e), [req])
                | inr pct =>
                    (GradePage success (score_repr score) pct (str url) text,
                     [req])
                end
            end
      | _, _ => (HTTPException 400 "Outcomes not supported", [])
      end
  end.

End SendGrade.

(* ================================================================== *)
(** * The launch endpoint of the sample tool: [lti_launch] *)

Definition EXPECTED_KEY : string := "test_key".
Definition EXPECTED_SECRET : string := "test_secret".

(** [params.get(k) == lit] for a [str] literal. *)
Definition get_is (k lit : string) (params : dict value) : bool :=
  match dict_get k params with
  | Some v => value_eqb v (VStr lit)
  | None => false
  end.

(** [params.get(k, default)]. *)
Definition get_or (k default : string) (params : dict value) : value :=
  match dict_get k params with
  | Some v => v
  | None => VStr default
  end.

(** The page of a launch, kept as the values that fill its placeholders:
    [page_grade_form] is the launch id of the hidden field when the grade
    form is shown, [page_params] the rows of the parameter table. *)
Record launch_page : Type := {
  page_user_name : value;
  page_user_role : value;
  page_course_name : value;
  page_resource_title : value;
  page_grade_form : option string;
  page_params : list (string * value)
}.

Inductive launch_result : Type :=
| LaunchException (status_code : Z) (detail : string)
| LaunchPage (page : launch_page).

(** [params.get('oauth_signature', '')] as the [str] handed to
    [hmac.compare_digest], which refuses anything else. *)
Definition received_signature_of (params : dict value) : result string :=
  match dict_get "oauth_signature" params with
  | None => ret EmptyString
  | Some (VStr s) => ret s
  | Some _ => raise TypeError
  end.

(** [request_url] is [str(request.url)], [params] is [dict(form_data)] and
    [launch_id] is [str(uuid.uuid4())].  The result is the answer, the
    [launches] store afterwards and the lines printed.  The store keeps the
    parameters of a launch; the time stored beside them is read nowhere. *)
Definition lti_launch (launches : dict (dict value)) (request_url : string)
  (params : dict value) (launch_id : string)
  : result (launch_result * dict (dict value) * list string) :=
  if negb (get_is "lti_message_type" "basic-lti-launch-request" params) then
    ret (LaunchException 400 "Invalid LTI message type", launches, [])
  else if negb (get_is "lti_version" "LTI-1p0" params) then
    ret (LaunchException 400 "Invalid LTI version", launches, [])
  else if negb (get_is "oauth_consumer_key" EXPECTED_KEY params) then
    ret (LaunchException 401 "Invalid consumer key", launches, [])
  else
    url <- first (split_on "?" request_url) ;;
    received_signature <- received_signature_of params ;;
    ok <- verify_oauth_signature "POST" url params EXPECTED_SECRET
            received_signature ;;
    let printed :=
      if ok then []
      else ["WARNING: OAuth signature mismatch. URL: " ++ url] in
    let launches' := dict_set launch_id params launches in
    let outcomes_url := dict_get "lis_outcome_service_url" params in
    let sourced_id := dict_get "lis_result_sourcedid" params in
    let can_send_grade := negb (falsy outcomes_url) && negb (falsy sourced_id) in
    ret (LaunchPage
           {| page_user_name := get_or "lis_person_name_full" "Unknown User" params;
              page_user_role := get_or "roles" "Unknown" params;
              page_course_name := get_or "context_title" "Unknown Course" params;
              page_resource_title := get_or "resource_link_title" "Activity" params;
              page_grade_form := if can_send_grade then Some launch_id else None;
              page_params := sorted_items params |},
         launches', printed).

(** The platform at the other end of the network: the content of the
    request is the body [receive_outcome] gets; its response is sent with
    status 200, and an exception is answered with status 500. *)
Definition platform_post (int_column_eq : Z -> string -> bool) (db : database)
  (uuid : string) (req : request) : post_result :=
  match receive_outcome int_column_eq db uuid (req_content req) with
  | inr (_, response) => PostResponse 200 response
  | inl _ => PostResponse 500 "Internal Server Error"
  end.

(* ================================================================== *)
(** * The demo data of the platform: [seed_demo_data] *)

Record user_row : Type := {
  u_id : Z; u_name : string; u_email : string; u_role : string
}.

Record course_row : Type := {
  c_id : Z; c_name : string; c_code : string; c_description : string
}.

Record enrollment_row : Type := {
  e_id : Z; e_course_id : Z; e_user_id : Z
}.

(** A table with an AUTOINCREMENT key: its rows and the largest key it has
    ever given out. *)
Record table (A : Type) : Type := {
  rows : list A;
  last_id : Z
}.
Arguments rows {A} _.
Arguments last_id {A} _.

Record school : Type := {
  users : table user_row;
  courses : table course_row;
  enrollments : table enrollment_row
}.

(** [sqlite3.IntegrityError], naming the constraint that failed. *)
Inductive db_error : Type :=
| IntegrityError (constraint : string).

Definition db_result (A : Type) : Type := (db_error + A)%type.

Definition db_bind {A B : Type} (m : db_result A) (k : A -> db_result B)
  : db_result B :=
  match m with
  | inl e => inl e
  | inr a => k a
  end.

(** [for x in l: body], stopping at the first error. *)
Fixpoint for_each {A S : Type} (body : S -> A -> db_result S) (l : list A) (st : S)
  : db_result S :=
  match l with
  | [] => inr st
  | x :: r => db_bind (body st x) (for_each body r)
  end.

(** [INSERT INTO users (name, email, role)]: the email is UNIQUE and the
    role is checked. *)
Definition insert_user (t : table user_row) (nre : string * string * string)
  : db_result (table user_row) :=
  let '(name, email, role) := nre in
  if negb (String.eqb role "student" || String.eqb role "teacher") then
    inl (IntegrityError "CHECK constraint failed: role")
  else if existsb (fun u => String.eqb (u_email u) email) (rows t) then
    inl (IntegrityError "UNIQUE constraint failed: users.email")
  else
    inr {| rows := (rows t ++ [{| u_id := last_id t + 1; u_name := name;
                                  u_email := email; u_role := role |}])%list;
           last_id := last_id t + 1 |}.

(** [INSERT INTO courses (name, code, description)]: the code is UNIQUE. *)
Definition insert_course (t : table course_row) (ncd : string * string * string)
  : db_result (table course_row) :=
  let '(name, code, description) := ncd in
  if existsb (fun c => String.eqb (c_code c) code) (rows t) then
    inl (IntegrityError "UNIQUE constraint failed: courses.code")
  else
    inr {| rows := (rows t ++ [{| c_id := last_id t + 1; c_name := name;
                                  c_code := code;
                                  c_description := description |}])%list;
           last_id := last_id t + 1 |}.

(** [INSERT INTO enrollments (course_id, user_id)]: the pair is UNIQUE. *)
Definition insert_enrollment (course_id : Z) (t : table enrollment_row) (user_id : Z)
  : db_result (table enrollment_row) :=
  if existsb (fun e => (e_course_id e =? course_id) && (e_user_id e =? user_id))
       (rows t) then
    inl (IntegrityError "UNIQUE constraint failed: enrollments.course_id, enrollments.user_id")
  else
    inr {| rows := (rows t ++ [{| e_id := last_id t + 1;
                                  e_course_id := course_id;
                                  e_user_id := user_id |}])%list;
           last_id := last_id t + 1 |}.

Definition demo_teachers : list (string * string * string) :=
  [("Dr. Alice Smith", "alice.smith@example.edu", "teacher");
   ("Prof. Bob Johnson", "bob.johnson@example.edu", "teacher")].

Definition demo_students : list (string * string * string) :=
  [("Charlie Brown", "charlie.brown@example.edu", "student");
   ("Diana Prince", "diana.prince@example.edu", "student");
   ("Edward Norton", "edward.norton@example.edu", "student");
   ("Fiona Green", "fiona.green@example.edu", "student")].

Definition demo_courses : list (string * string * string) :=
  [("Introduction to Python", "CS101", "Learn the basics of Python programming");
   ("Web Development", "WEB201", "Build modern web applications");
   ("Data Science Fundamentals", "DS301",
    "Introduction to data analysis and machine learning")].

(** The two nested loops that enroll every user in every course. *)
Definition enroll_all (course_ids user_ids : list Z) (t : table enrollment_row)
  : db_result (table enrollment_row) :=
  for_each (fun t course_id => for_each (insert_enrollment course_id) user_ids t)
           course_ids t.

Section SeedDemoData.

(** [SELECT id FROM users] and [SELECT id FROM courses] have no ORDER BY:
    the order in which [fetchall] gives the ids is left to the database. *)
Variable user_id_order : list Z -> list Z.
Variable course_id_order : list Z -> list Z.

(** An error leaves the function before [commit]; the tables then stay as
    they were. *)
Definition seed_demo_data (db : school) : db_result school :=
  match rows (courses db) with
  | _ :: _ => inr db
  | [] =>
      db_bind (for_each insert_user (demo_teachers ++ demo_students)%list (users db))
        (fun us =>
      db_bind (for_each insert_course demo_courses (courses db))
        (fun cs =>
      let user_ids := user_id_order (map u_id (rows us)) in
      let course_ids := course_id_order (map c_id (rows cs)) in
      db_bind (enroll_all course_ids user_ids (enrollments db))
        (fun es =>
      inr {| users := us; courses := cs; enrollments := es |})))
  end.

End SeedDemoData.

(* ================================================================== *)
(** * Auxiliary predicates used in the statements and proofs *)

(** The parameter string and the base string as the specification words
    them: every key and value is percent-encoded, the encoded pairs are
    sorted by encoded key and then encoded value in ascending byte order,
    and joined as [key=value] with [&]. *)
Definition encoded_pair_leb (a b : string * string) : bool :=
  match String.compare (fst a) (fst b) with
  | Lt => true
  | Eq => String.leb (snd a) (snd b)
  | Gt => false
  end.

Definition spec_param_string (params : dict value) : string :=
  join "&"
    (map (fun kv => fst kv ++ "=" ++ snd kv)
       (sort_by encoded_pair_leb
          (map (fun kv => (quote (fst kv), quote (str (snd kv)))) params))).

Definition spec_base_string (method url : string) (params : dict value) : string :=
  join "&" [upper method; quote url; quote (spec_param_string params)].

(** A request changed after signing: its method, its URL, or the value of
    one parameter other than the signature. *)
Inductive tampered (method url : string) (params : dict value)
  : string -> string -> dict value -> Prop :=
| tamper_method (method' : string) :
    upper method' <> upper method ->
    tampered method url params method' url params
| tamper_url (url' : string) :
    url' <> url ->
    tampered method url params method url' params
| tamper_value (k : string) (v v' : value) :
    k <> "oauth_signature" ->
    dict_get k params = Some v ->
    str v' <> str v ->
    tampered method url params method url (dict_set k v' params).

(** The characters [quote] produces: unreserved ones and the percent sign. *)
Definition quoted_char (c : ascii) : bool := always_safe c || (code c =? 37).

Definition nonempty (s : string) : bool :=
  match s with
  | EmptyString => false
  | _ => true
  end.

Definition no_char (x : ascii) (s : string) : bool :=
  all_chars (fun c => negb (Ascii.eqb c x)) s.

(** [o] and [q] differ at a position that both have. *)
Fixpoint mismatch (o q : string) : bool :=
  match o, q with
  | String a o', String b q' => if Ascii.eqb a b then mismatch o' q' else true
  | _, _ => false
  end.

(** No occurrence of [o] starts inside [p], whatever follows [p]. *)
Fixpoint no_match_inside (o p : string) : bool :=
  match p with
  | EmptyString => true
  | String _ r => mismatch o p && no_match_inside o r
  end.

(** The text of the POX response around its placeholders and around the
    status code. *)
Definition response_part1 : string :=
  "<?xml version=" ++ dq ++ "1.0" ++ dq ++ " encoding=" ++ dq ++ "UTF-8" ++ dq ++ "?>
<imsx_POXEnvelopeResponse xmlns=" ++ dq ++ "http://www.imsglobal.org/services/ltiv1p1/xsd/imsoms_v1p0" ++ dq ++ ">
  <imsx_POXHeader>
    <imsx_POXResponseHeaderInfo>
      <imsx_version>V1.0</imsx_version>
      <imsx_messageIdentifier>".

Definition response_part2 : string :=
  "</imsx_messageIdentifier>
      <imsx_statusInfo>
        ".

Definition response_part3 : string :=
  "
        <imsx_severity>status</imsx_severity>
        <imsx_description>Score received</imsx_description>
        ".

Definition response_part4 : string :=
  "
        <imsx_operationRefIdentifier>replaceResult</imsx_operationRefIdentifier>
      </imsx_statusInfo>
    </imsx_POXResponseHeaderInfo>
  </imsx_POXHeader>
  <imsx_POXBody>
    <replaceResultResponse/>
  </imsx_POXBody>
</imsx_POXEnvelopeResponse>".

(** Reading the response back, the way the endpoint reads a request. *)
Definition message_ref_of (response : string) : option string :=
  re_search_group "<imsx_messageRefIdentifier>" "</imsx_messageRefIdentifier>"
    response.

Definition code_major_of (response : string) : option string :=
  re_search_group "<imsx_codeMajor>" "</imsx_codeMajor>" response.


(** Records as the platform reads them from its tables. *)
Definition demo_tool : dict value :=
  [("id", VInt 1); ("name", VStr "Sample tool");
   ("consumer_key", VStr "test_key"); ("consumer_secret", VStr "test_secret")].

Definition demo_course : dict value :=
  [("id", VInt 7); ("name", VStr "Web Development"); ("code", VStr "WEB201")].

Definition demo_user (name email : string) : dict value :=
  [("id", VInt 42); ("name", VStr name); ("email", VStr email);
   ("role", VStr "student")].

(** Distinct keys, as a test. *)
Fixpoint distinct (l : list string) : bool :=
  match l with
  | [] => true
  | k :: r => negb (existsb (String.eqb k) r) && distinct r
  end.

(** A field that can be joined with separator [x] and cut out again. *)
Definition field_ok (x : ascii) (s : string) : bool := nonempty s && no_char x s.

(** The base64 alphabet and its index function are inverse of each other,
    and no letter of the alphabet is the pad character. *)
Definition b64_table_ok (i : Z) : bool :=
  match b64_index (b64_char i) with
  | Some j => j =? i
  | None => false
  end && negb (Ascii.eqb (b64_char i) "=").

(** An item as the signature sees it: the key and [str] of the value. *)
Definition norm_item (kv : string * value) : string * string :=
  (fst kv, str (snd kv)).

(** The characters of a decimal numeral. *)
Definition decimal_char (c : ascii) : bool := is_digit c || Ascii.eqb c "-".

(** The text of the POX request around its placeholders. *)
Definition payload_part1 : string :=
  "<?xml version=" ++ dq ++ "1.0" ++ dq ++ " encoding=" ++ dq ++ "UTF-8" ++ dq ++ "?>
<imsx_POXEnvelopeRequest xmlns=" ++ dq ++ "http://www.imsglobal.org/services/ltiv1p1/xsd/imsoms_v1p0" ++ dq ++ ">
  <imsx_POXHeader>
    <imsx_POXRequestHeaderInfo>
      <imsx_version>V1.0</imsx_version>
      ".

Definition payload_part2 : string :=
  "
    </imsx_POXRequestHeaderInfo>
  </imsx_POXHeader>
  <imsx_POXBody>
    <replaceResultRequest>
      <resultRecord>
        <sourcedGUID>
          ".

Definition payload_part3 : string :=
  "
        </sourcedGUID>
        <result>
          <resultScore>
            <language>en</language>
            ".

Definition payload_part4 : string :=
  "
          </resultScore>
        </result>
      </resultRecord>
    </replaceResultRequest>
  </imsx_POXBody>
</imsx_POXEnvelopeRequest>".

(** A text that can stand between two tags and be read back. *)
Definition element_text (s : string) : bool := nonempty s && no_char "<" s.

(** An enrollment of the user in the course. *)
Definition enrolled (es : list enrollment_row) (course_id user_id : Z) : Prop :=
  exists e, In e es /\ e_course_id e = course_id /\ e_user_id e = user_id.

(** A platform database without users, courses or enrollments. *)
Definition empty_school : school :=
  {| users := {| rows := []; last_id := 0 |};
     courses := {| rows := []; last_id := 0 |};
     enrollments := {| rows := []; last_id := 0 |} |}.

(** The database gives the rows in the order of their keys. *)
Definition by_key (ids : list Z) : list Z := ids.

(** The emails of the demo users. *)
Definition demo_emails : list string :=
  map (fun nre => snd (fst nre)) (demo_teachers ++ demo_students)%list.

(** The bytes, and all strings of [n] bytes. *)
Definition all_bytes : list ascii := map ascii_of_nat (seq 0 256).

Fixpoint all_strings (n : nat) : list string :=
  match n with
  | O => [EmptyString]
  | S n' => map (fun cs => String (fst cs) (snd cs))
                (list_prod all_bytes (all_strings n'))
  end.

(** The words of [n] letters over [a] and [b]. *)
Fixpoint ab_words (n : nat) : list string :=
  match n with
  | O => [EmptyString]
  | S n' => (map (String "a") (ab_words n') ++ map (String "b") (ab_words n'))%list
  end.

(** A score as the form field delivers it: a finite float, given by its
    rendering and by [int(score * 100)], a NaN or an infinity. *)
Inductive form_score : Type :=
| Finite (repr : string) (percent : Z)
| NaN
| Infinite.

Definition form_score_repr (x : form_score) : string :=
  match x with
  | Finite repr _ => repr
  | NaN => "nan"
  | Infinite => "inf"
  end.

Definition form_score_percent (x : form_score) : string + Z :=
  match x with
  | Finite _ percent => inr percent
  | NaN => inl "cannot convert float NaN to integer"
  | Infinite => inl "cannot convert float infinity to integer"
  end.

(** A platform database with a user and an enrollment but no course. *)
Definition school_without_courses : school :=
  {| users := {| rows := [{| u_id := 1; u_name := "Zoe Young";
                             u_email := "zoe.young@example.edu";
                             u_role := "teacher" |}];
                 last_id := 1 |};
     courses := {| rows := []; last_id := 4 |};
     enrollments := {| rows := [{| e_id := 1; e_course_id := 4; e_user_id := 1 |}];
                       last_id := 1 |} |}.

(** A launch of the demo course by one of its students. *)
Definition demo_launch (custom_params : option (dict value)) : result (dict value) :=
  build_lti_launch_params demo_tool demo_course
    (demo_user "Diana Prince" "diana.prince@example.edu")
    "rl-1" "Quiz" "http://localhost:8080/lti/launch"
    "http://localhost:8000/outcomes" custom_params 1700000000
    "0b0e6f5c-7d0a-4c36-9a55-3f0f3c1d2e4a".

(** The names of the dictionary literal of the builder. *)
Definition fixed_names : list string :=
  ["lti_message_type"; "lti_version"; "oauth_consumer_key";
   "oauth_signature_method"; "oauth_timestamp"; "oauth_nonce"; "oauth_version";
   "oauth_callback"; "resource_link_id"; "resource_link_title"; "context_id";
   "context_label"; "context_title"; "context_type"; "user_id";
   "lis_person_name_given"; "lis_person_name_family"; "lis_person_name_full";
   "lis_person_contact_email_primary"; "roles"; "lis_outcome_service_url";
   "lis_result_sourcedid"; "launch_presentation_locale";
   "launch_presentation_document_target"; "tool_consumer_instance_guid";
   "tool_consumer_instance_name"; "tool_consumer_instance_description";
   "tool_consumer_info_product_family_code"; "tool_consumer_info_version"].

(** A platform with one tool placed in the demo course, the comparison of
    the course id column taken to be equality with the decimal numeral, and a
    grade request for the sourced id of [7:rl-1:42]. *)
Definition decimal_column_eq (z : Z) (s : string) : bool := String.eqb (decimal z) s.

Definition demo_db : database :=
  {| course_tools := [{| ct_id := 5; ct_course_id := 7; ct_tool_id := 1;
                         ct_resource_link_id := "rl-1" |}];
     grade_results := [] |}.

Definition demo_body : string :=
  "<imsx_messageIdentifier>m1</imsx_messageIdentifier><sourcedId>NzpybC0xOjQy</sourcedId><textString>0.85</textString>".

Definition demo_grade : grade_result :=
  {| gr_course_tool_id := 5; gr_user_id := "42"; gr_sourced_id := "NzpybC0xOjQy";
     gr_score := "0.85"; gr_raw_xml := demo_body |}.

(* ================================================================== *)
(** * Test vectors *)

Definition hex (s : string) : string :=
  of_bytes (flat_map (fun b => [code (hex_digit (b / 16)); code (hex_digit (b mod 16))])
                     (bytes_of s)).

Example sha1_abc : hex (sha1 "abc") = "A9993E364706816ABA3E25717850C26C9CD0D89D".
Proof. vm_compute. reflexivity. Qed.

Example sha1_two_blocks :
  hex (sha1 "aaaaaaaaaaaaaaaaaaaaaaaaaaaaaaaaaaaaaaaaaaaaaaaaaaaaaaaaaaaaaaaaaaaaaa")
  = "ED6C69D9E8B4373AF86303DFAA3528DFBC129902".
Proof. vm_compute. reflexivity. Qed.

Example hmac_fox :
  hex (hmac_sha1 "key" "The quick brown fox jumps over the lazy dog")
  = "DE7C9B85B8B78AA6BC8A7A36F70A90701C9DB4D9".
Proof. vm_compute. reflexivity. Qed.

Example hmac_long_key :
  hex (hmac_sha1 "kkkkkkkkkkkkkkkkkkkkkkkkkkkkkkkkkkkkkkkkkkkkkkkkkkkkkkkkkkkkkkkkkkkkkk" "msg")
  = "7471C6A72E1C7251F0281C1813DA42F6ECF806FB".
Proof. vm_compute. reflexivity. Qed.

Definition sample_params : dict value :=
  [("b", VStr "2"); ("a", VStr "x y"); ("{", VStr "1"); ("A:", VStr "~/")].

Example sample_base_string :
  signature_base "post" "http://localhost:8080/lti/launch" sample_params
  = "POST&http%3A%2F%2Flocalhost%3A8080%2Flti%2Flaunch&A%253A%3D~%252F%26a%3Dx%2520y%26b%3D2%26%257B%3D1".
Proof. vm_compute. reflexivity. Qed.

(** The examples of the specification for the sourced id. *)
Example sourced_id_7_abc_42 :
  encode_sourced_id (str (VInt 7)) "abc-123" (str (VInt 42)) = "NzphYmMtMTIzOjQy".
Proof. vm_compute. reflexivity. Qed.

Example not_valid_base64 :
  decode_sourced_id "not-valid-base64!!" = inl BinasciiError.
Proof. vm_compute. reflexivity. Qed.

Example sample_signature :
  generate_oauth_signature "post" "http://localhost:8080/lti/launch"
    sample_params "s3cr&t" = "/wYCDSQBbCzHQpIB61U23NFU61Q=".
Proof. vm_compute. reflexivity. Qed.

(* ================================================================== *)
(** * Bytes, strings and dictionaries: basic facts *)

Lemma code_range (c : ascii) : 0 <= code c < 256.
Proof.
  unfold code. pose proof (N_ascii_bounded c). lia.
Qed.

Lemma chr_code (c : ascii) : chr (code c) = c.
Proof.
  unfold chr, code. rewrite N2Z.id. apply ascii_N_embedding.
Qed.

Lemma code_chr (z : Z) : 0 <= z < 256 -> code (chr z) = z.
Proof.
  intros Hz. unfold chr, code.
  rewrite N_ascii_embedding by lia. lia.
Qed.

Lemma code_inj (a b : ascii) : code a = code b -> a = b.
Proof.
  intros H. rewrite <- (chr_code a), <- (chr_code b). now rewrite H.
Qed.

Lemma of_bytes_bytes_of (s : string) : of_bytes (bytes_of s) = s.
Proof.
  unfold of_bytes, bytes_of. rewrite map_map.
  rewrite (map_ext _ (fun c => c)) by apply chr_code.
  rewrite map_id. apply string_of_list_ascii_of_string.
Qed.

Lemma bytes_of_range (s : string) : Forall (fun b => 0 <= b < 256) (bytes_of s).
Proof.
  unfold bytes_of. apply Forall_forall. intros b Hb.
  apply in_map_iff in Hb. destruct Hb as [c [<- _]]. apply code_range.
Qed.

Lemma all_chars_app (p : ascii -> bool) (s t : string) :
  all_chars p (s ++ t) = all_chars p s && all_chars p t.
Proof.
  induction s as [|c s IH]; simpl; [reflexivity|].
  now rewrite IH, andb_assoc.
Qed.

Lemma all_chars_impl (p q : ascii -> bool) (s : string) :
  (forall c, p c = true -> q c = true) ->
  all_chars p s = true -> all_chars q s = true.
Proof.
  intros Hpq. induction s as [|c s IH]; simpl; [reflexivity|].
  intros H. apply andb_true_iff in H. destruct H as [Hc Hs].
  apply andb_true_iff. split; auto.
Qed.

Lemma all_chars_get (p : ascii -> bool) (s : string) (n : nat) (c : ascii) :
  all_chars p s = true -> String.get n s = Some c -> p c = true.
Proof.
  revert n. induction s as [|a s IH]; simpl; intros n Hs Hg; [discriminate|].
  apply andb_true_iff in Hs. destruct Hs as [Ha Hs].
  destruct n as [|n].
  - now inversion Hg; subst.
  - eauto.
Qed.

Lemma dict_get_set_same {V : Type} (k : string) (v : V) (d : dict V) :
  dict_get k (dict_set k v d) = Some v.
Proof.
  induction d as [|[k' v'] d IH]; simpl.
  - now rewrite String.eqb_refl.
  - destruct (String.eqb k' k) eqn:E; simpl; rewrite E; auto.
Qed.

Lemma dict_get_set_other {V : Type} (k k0 : string) (v : V) (d : dict V) :
  k0 <> k -> dict_get k0 (dict_set k v d) = dict_get k0 d.
Proof.
  intros Hne. induction d as [|[k' v'] d IH]; simpl.
  - destruct (String.eqb k k0) eqn:E; [|reflexivity].
    apply String.eqb_eq in E. congruence.
  - destruct (String.eqb k' k) eqn:E; simpl.
    + apply String.eqb_eq in E. subst k'.
      destruct (String.eqb k k0) eqn:E2; [|reflexivity].
      apply String.eqb_eq in E2. congruence.
    + now rewrite IH.
Qed.

Lemma dict_get_in {V : Type} (k : string) (v : V) (d : dict V) :
  dict_get k d = Some v -> In (k, v) d.
Proof.
  induction d as [|[k' v'] d IH]; simpl; [discriminate|].
  destruct (String.eqb k' k) eqn:E.
  - apply String.eqb_eq in E. intros H. inversion H. subst. now left.
  - auto.
Qed.

Lemma in_dict_get {V : Type} (k : string) (v : V) (d : dict V) :
  wf_dict d -> In (k, v) d -> dict_get k d = Some v.
Proof.
  unfold wf_dict, keys.
  induction d as [|[k' v'] d IH]; simpl; intros Hwf Hin; [contradiction|].
  inversion Hwf as [|? ? Hnotin Hwf']; subst.
  destruct Hin as [Heq | Hin].
  - inversion Heq; subst. now rewrite String.eqb_refl.
  - destruct (String.eqb k' k) eqn:E.
    + apply String.eqb_eq in E. subst k'. exfalso. apply Hnotin.
      apply in_map_iff. now exists (k, v).
    + auto.
Qed.

Lemma keys_dict_set_absent {V : Type} (k : string) (v : V) (d : dict V) :
  dict_get k d = None -> dict_set k v d = (d ++ [(k, v)])%list.
Proof.
  induction d as [|[k' v'] d IH]; simpl; [reflexivity|].
  destruct (String.eqb k' k); [discriminate|].
  intros H. now rewrite IH.
Qed.

Lemma strip_signature_absent (params : dict value) :
  dict_get "oauth_signature" params = None -> strip_signature params = params.
Proof.
  unfold strip_signature.
  induction params as [|[k v] d IH]; simpl; [reflexivity|].
  destruct (String.eqb k "oauth_signature") eqn:E; [discriminate|].
  intros H. simpl. now rewrite IH.
Qed.

Lemma strip_signature_app (a b : dict value) :
  strip_signature (a ++ b)%list = (strip_signature a ++ strip_signature b)%list.
Proof. apply filter_app. Qed.

Lemma strip_signature_set (params : dict value) (v : value) :
  dict_get "oauth_signature" params = None ->
  strip_signature (dict_set "oauth_signature" v params) = params.
Proof.
  intros H. rewrite keys_dict_set_absent by assumption.
  rewrite strip_signature_app, strip_signature_absent by assumption.
  simpl. apply app_nil_r.
Qed.

Lemma strip_signature_reset (params : dict value) (v : value) :
  strip_signature (dict_set "oauth_signature" v params) = strip_signature params.
Proof.
  unfold strip_signature.
  induction params as [|[k w] d IH]; [reflexivity|].
  cbn [dict_set]. destruct (String.eqb k "oauth_signature") eqn:E.
  - cbn [filter fst]. now rewrite E.
  - cbn [filter fst]. now rewrite E, IH.
Qed.

(* ================================================================== *)
(** * Base64 output is ASCII *)

Lemma b64_char_ascii (i : Z) : (code (b64_char i) <? 128) = true.
Proof.
  unfold b64_char.
  destruct (String.get (Z.to_nat i) b64_alphabet) as [c|] eqn:E.
  - apply (all_chars_get (fun c => code c <? 128) b64_alphabet (Z.to_nat i) c);
      [vm_compute; reflexivity | exact E].
  - vm_compute. reflexivity.
Qed.

Lemma b64encode_bytes_ascii (bs : list Z) : is_ascii (b64encode_bytes bs) = true.
Proof.
  unfold is_ascii.
  assert (H : forall n bs, (List.length bs <= n)%nat ->
                all_chars (fun c => code c <? 128) (b64encode_bytes bs) = true).
  { clear bs. induction n as [|n IH]; intros bs Hlen.
    - destruct bs; [reflexivity | simpl in Hlen; lia].
    - destruct bs as [|a [|b [|c r]]]; simpl;
        rewrite ?b64_char_ascii; simpl; try reflexivity.
      apply IH. simpl in Hlen. lia. }
  apply (H (List.length bs)). lia.
Qed.

Lemma b64encode_ascii (s : string) : is_ascii (b64encode s) = true.
Proof. apply b64encode_bytes_ascii. Qed.

Lemma verify_unfold (method url : string) (params : dict value)
  (secret received : string) :
  verify_oauth_signature method url params secret received
  = compare_digest
      (generate_oauth_signature method url (strip_signature params) secret)
      received.
Proof. reflexivity. Qed.

(* ================================================================== *)
(** * C1: a signed request verifies *)

(** C1.  For every method, URL, consumer secret and parameter dictionary
    without an [oauth_signature] entry, adding the signature generated by
    [generate_oauth_signature] under that key and verifying the result with
    the same method, URL and secret against that signature returns [True]. *)
Theorem sign_then_verify
  (method url : string) (params : dict value) (consumer_secret : string) :
  dict_get "oauth_signature" params = None ->
  let signature := generate_oauth_signature method url params consumer_secret in
  verify_oauth_signature method url
    (dict_set "oauth_signature" (VStr signature) params)
    consumer_secret signature = inr true.
Proof.
  intros Habsent signature.
  rewrite verify_unfold, strip_signature_set by assumption.
  fold signature. unfold compare_digest.
  assert (Ha : is_ascii signature = true) by apply b64encode_ascii.
  rewrite Ha. simpl. now rewrite String.eqb_refl.
Qed.

Lemma sign_then_verify_witness :
  dict_get "oauth_signature" sample_params = None /\
  verify_oauth_signature "post" "http://localhost:8080/lti/launch"
    (dict_set "oauth_signature"
       (VStr (generate_oauth_signature "post" "http://localhost:8080/lti/launch"
                sample_params "s3cr&t")) sample_params)
    "s3cr&t"
    (generate_oauth_signature "post" "http://localhost:8080/lti/launch"
       sample_params "s3cr&t") = inr true.
Proof.
  split.
  - reflexivity.
  - apply (sign_then_verify "post" "http://localhost:8080/lti/launch"
             sample_params "s3cr&t").
    reflexivity.
Defined.

(* ================================================================== *)
(** * Base64: decoding what was encoded *)

Lemma b64_table_check : forallb b64_table_ok (map Z.of_nat (seq 0 64)) = true.
Proof. vm_compute. reflexivity. Qed.

Lemma b64_table (i : Z) :
  0 <= i < 64 ->
  b64_index (b64_char i) = Some i /\ Ascii.eqb (b64_char i) "=" = false.
Proof.
  intros Hi.
  assert (Hin : In i (map Z.of_nat (seq 0 64))).
  { apply in_map_iff. exists (Z.to_nat i). split; [lia|].
    apply in_seq. lia. }
  pose proof (proj1 (forallb_forall _ _) b64_table_check i Hin) as H.
  unfold b64_table_ok in H. apply andb_true_iff in H. destruct H as [H1 H2].
  split.
  - destruct (b64_index (b64_char i)) as [j|]; [|discriminate].
    apply Z.eqb_eq in H1. now subst.
  - now apply negb_true_iff.
Qed.

Lemma a2b_letter (i : Z) (r : string) (quad_pos : nat) (leftchar pads : Z)
  (acc : list Z) :
  0 <= i < 64 ->
  a2b_base64 (String (b64_char i) r) quad_pos leftchar pads acc =
  match quad_pos with
  | 0%nat => a2b_base64 r 1 i 0 acc
  | 1%nat => a2b_base64 r 2 (i mod 16) 0 (acc ++ [(leftchar * 4 + i / 16) mod 256])%list
  | 2%nat => a2b_base64 r 3 (i mod 4) 0 (acc ++ [(leftchar * 16 + i / 4) mod 256])%list
  | _ => a2b_base64 r 0 0 0 (acc ++ [(leftchar * 64 + i) mod 256])%list
  end.
Proof.
  intros Hi. destruct (b64_table i Hi) as [Hidx Hpad].
  cbn [a2b_base64]. now rewrite Hpad, Hidx.
Qed.

Ltac byte_arith := Z.div_mod_to_equations; lia.

Lemma a2b_encoded (n : nat) :
  forall (bs acc : list Z),
    (List.length bs <= n)%nat ->
    Forall (fun b => 0 <= b < 256) bs ->
    a2b_base64 (b64encode_bytes bs) 0 0 0 acc = inr (acc ++ bs)%list.
Proof.
  induction n as [|n IH]; intros bs acc Hlen Hrange.
  - destruct bs; [|simpl in Hlen; lia]. simpl. now rewrite app_nil_r.
  - destruct bs as [|a [|b [|c r]]].
    + simpl. now rewrite app_nil_r.
    + inversion Hrange as [|? ? Ha _]; subst.
      cbn [b64encode_bytes].
      rewrite !a2b_letter by byte_arith.
      cbn. unfold ret.
      replace ((a / 4 * 4 + a mod 4 * 16 / 16) mod 256) with a by byte_arith.
      reflexivity.
    + inversion Hrange as [|? ? Ha Hr]; subst.
      inversion Hr as [|? ? Hb _]; subst.
      cbn [b64encode_bytes].
      rewrite !a2b_letter by byte_arith.
      cbn. unfold ret. rewrite <- app_assoc. cbn.
      replace ((a / 4 * 4 + (a mod 4 * 16 + b / 16) / 16) mod 256)
        with a by byte_arith.
      replace (((a mod 4 * 16 + b / 16) mod 16 * 16 + b mod 16 * 4 / 4) mod 256)
        with b by byte_arith.
      reflexivity.
    + inversion Hrange as [|? ? Ha Hr]; subst.
      inversion Hr as [|? ? Hb Hr']; subst.
      inversion Hr' as [|? ? Hc Hr'']; subst.
      cbn [b64encode_bytes].
      rewrite !a2b_letter by byte_arith.
      rewrite IH; [| simpl in Hlen; lia | assumption].
      rewrite <- !app_assoc. cbn.
      replace ((a / 4 * 4 + (a mod 4 * 16 + b / 16) / 16) mod 256)
        with a by byte_arith.
      replace (((a mod 4 * 16 + b / 16) mod 16 * 16
                + (b mod 16 * 4 + c / 64) / 4) mod 256)
        with b by byte_arith.
      replace (((b mod 16 * 4 + c / 64) mod 4 * 64 + c mod 64) mod 256)
        with c by byte_arith.
      reflexivity.
Qed.

Lemma b64decode_b64encode (s : string) : b64decode (b64encode s) = inr s.
Proof.
  unfold b64decode. rewrite b64encode_ascii. unfold b64encode.
  rewrite (a2b_encoded (List.length (bytes_of s)))
    by (auto using bytes_of_range).
  cbn [bind ret app]. now rewrite of_bytes_bytes_of.
Qed.

Lemma b64encode_inj (s t : string) : b64encode s = b64encode t -> s = t.
Proof.
  intros H. apply (f_equal b64decode) in H.
  rewrite !b64decode_b64encode in H. now inversion H.
Qed.

Lemma utf8_valid_ascii (s : string) : is_ascii s = true -> utf8_valid s = true.
Proof.
  unfold is_ascii. induction s as [|c s IH]; [reflexivity|].
  cbn [all_chars utf8_valid]. intros H.
  apply andb_true_iff in H. destruct H as [Hc Hs].
  rewrite Hc. auto.
Qed.

Lemma split_on_whole (sep : ascii) (s : string) :
  no_char sep s = true -> split_on sep s = [s].
Proof.
  unfold no_char. induction s as [|c s IH]; [reflexivity|].
  cbn [all_chars split_on]. intros H.
  apply andb_true_iff in H. destruct H as [Hc Hs].
  apply negb_true_iff in Hc. rewrite Hc, IH by assumption. reflexivity.
Qed.

Lemma split_on_field (sep : ascii) (s t : string) :
  no_char sep s = true ->
  split_on sep (s ++ String sep t) = s :: split_on sep t.
Proof.
  unfold no_char. induction s as [|c s IH].
  - intros _. cbn. now rewrite Ascii.eqb_refl.
  - cbn [all_chars]. intros H.
    apply andb_true_iff in H. destruct H as [Hc Hs].
    apply negb_true_iff in Hc.
    change (String c s ++ String sep t) with (String c (s ++ String sep t)).
    cbn [split_on]. rewrite Hc, IH by assumption. reflexivity.
Qed.

(* ================================================================== *)
(** * C2: the sourced id decodes to the triple it encodes *)

(** C2.  For ASCII strings [course_id], [resource_link_id] and [user_id]
    that contain no colon, base64-decoding the sourced id the builder
    produces, decoding the bytes as UTF-8 and splitting at the colons gives
    exactly the three fields [course_id], [resource_link_id], [user_id]. *)
Theorem sourced_id_roundtrip (course_id resource_link_id user_id : string) :
  is_ascii course_id = true ->
  is_ascii resource_link_id = true ->
  is_ascii user_id = true ->
  no_char ":" course_id = true ->
  no_char ":" resource_link_id = true ->
  no_char ":" user_id = true ->
  decode_sourced_id (encode_sourced_id course_id resource_link_id user_id)
  = inr [course_id; resource_link_id; user_id].
Proof.
  intros Ac Ar Au Nc Nr Nu.
  unfold decode_sourced_id, encode_sourced_id.
  rewrite b64decode_b64encode. cbn [bind].
  unfold decode_utf8. rewrite utf8_valid_ascii.
  - cbn [bind ret]. f_equal.
    change (":" ++ resource_link_id ++ ":" ++ user_id)
      with (String ":" (resource_link_id ++ String ":" user_id)).
    rewrite split_on_field by assumption.
    rewrite split_on_field by assumption.
    now rewrite split_on_whole by assumption.
  - unfold is_ascii in *. rewrite !all_chars_app, Ac, Ar, Au. reflexivity.
Qed.

Lemma sourced_id_roundtrip_witness :
  decode_sourced_id (encode_sourced_id "7" "abc-123" "42")
  = inr ["7"; "abc-123"; "42"].
Proof.
  apply (sourced_id_roundtrip "7" "abc-123" "42"); reflexivity.
Defined.

(* ================================================================== *)
(** * The outcomes endpoint *)

Section OutcomesFacts.

Variable int_column_eq : Z -> string -> bool.

(** A score text that [float] rejects makes the endpoint raise: the
    conversion is made before the [try] block is entered. *)
Lemma receive_outcome_bad_score
  (db : database) (uuid body t : string) (e : exn) :
  utf8_valid body = true ->
  score_text_of body = Some t ->
  float t = inl e ->
  receive_outcome int_column_eq db uuid body = inl e.
Proof.
  intros Hu Ht Hf. unfold receive_outcome, decode_utf8.
  rewrite Hu. cbn [bind ret]. rewrite Ht, Hf. reflexivity.
Qed.

(** Without a [sourcedId] element, and with a score text that is absent
    or accepted by [float], nothing is stored and the response is sent. *)
Lemma receive_outcome_no_sourced_id (db : database) (uuid body : string) :
  utf8_valid body = true ->
  sourced_id_of body = None ->
  (forall t, score_text_of body = Some t -> exists x, float t = inr x) ->
  receive_outcome int_column_eq db uuid body
  = inr (db, response_xml (match message_id_of body with
                           | Some m => m
                           | None => uuid
                           end)).
Proof.
  intros Hu Hs Hf. unfold receive_outcome, decode_utf8.
  rewrite Hu. cbn [bind ret]. rewrite Hs.
  destruct (score_text_of body) as [t|].
  - destruct (Hf t eq_refl) as [x Hx]. rewrite Hx. reflexivity.
  - reflexivity.
Qed.

(** A sourced id that does not decode to three fields, or whose course and
    resource link match no row of [course_tools], leaves the tables as
    they are. *)
Lemma store_grade_dropped
  (db : database) (sourced_id : string) (score : pyfloat) (body : string) :
  (forall c r u, decode_sourced_id sourced_id = inr [c; r; u] ->
                 select_course_tool int_column_eq db c r = None) ->
  try_except (store_grade int_column_eq db sourced_id score body) db = db.
Proof.
  intros H. unfold store_grade.
  destruct (decode_sourced_id sourced_id) as [e|parts]; [reflexivity|].
  cbn [bind].
  destruct parts as [|c [|r [|u [|x parts]]]]; try reflexivity.
  now rewrite (H c r u eq_refl).
Qed.

Lemma receive_outcome_dropped (db : database) (uuid body : string) :
  utf8_valid body = true ->
  (forall t, score_text_of body = Some t -> exists x, float t = inr x) ->
  (forall sid c r u,
      sourced_id_of body = Some sid ->
      decode_sourced_id sid = inr [c; r; u] ->
      select_course_tool int_column_eq db c r = None) ->
  receive_outcome int_column_eq db uuid body
  = inr (db, response_xml (match message_id_of body with
                           | Some m => m
                           | None => uuid
                           end)).
Proof.
  intros Hu Hf Hd. unfold receive_outcome, decode_utf8.
  rewrite Hu. cbn [bind ret].
  assert (Hdb : forall x,
    match sourced_id_of body with
    | Some (String c r) =>
        try_except (store_grade int_column_eq db (String c r) x body) db
    | _ => db
    end = db).
  { intros x. destruct (sourced_id_of body) as [[|c r]|]; try reflexivity.
    apply store_grade_dropped. intros c0 r0 u0. now apply Hd. }
  destruct (score_text_of body) as [t|].
  - destruct (Hf t eq_refl) as [x Hx]. rewrite Hx. cbn [bind ret].
    rewrite Hdb. reflexivity.
  - cbn [bind ret]. destruct (sourced_id_of body) as [[|c r]|]; reflexivity.
Qed.

(** C3.  The endpoint on a body whose [textString] holds [abc]: the claim
    asks for the success response and no record; [float] raises
    [ValueError] outside the [try] block and the exception leaves the
    function. *)
Theorem unparsable_score_escapes (db : database) (uuid : string) :
  receive_outcome int_column_eq db uuid
    "<imsx_messageIdentifier>m1</imsx_messageIdentifier><sourcedId>x</sourcedId><textString>abc</textString>"
  = inl ValueError.
Proof. reflexivity. Qed.

(** C4.  The endpoint on a body whose sourced id [BAD] does not decode and
    whose [textString] holds [n/a]: the claim asks for the success response
    echoing [m1]; the endpoint raises [ValueError] before it looks at the
    sourced id. *)
Theorem undecodable_id_with_bad_score_escapes (db : database) (uuid : string) :
  decode_sourced_id "BAD" = inl BinasciiError /\
  receive_outcome int_column_eq db uuid
    "<imsx_messageIdentifier>m1</imsx_messageIdentifier><sourcedId>BAD</sourcedId><textString>n/a</textString>"
  = inl ValueError.
Proof. split; reflexivity. Qed.

End OutcomesFacts.

(* ================================================================== *)
(** * Reading an element out of a text *)

Lemma strip_prefix_self (o x : string) : strip_prefix o (o ++ x) = Some x.
Proof.
  induction o as [|a o IH]; cbn [append strip_prefix]; [reflexivity|].
  now rewrite Ascii.eqb_refl.
Qed.

Lemma mismatch_strip (o q x : string) :
  mismatch o q = true -> strip_prefix o (q ++ x) = None.
Proof.
  revert q. induction o as [|a o IH]; intros [|b q] H; cbn in H; try discriminate.
  cbn [append strip_prefix]. destruct (Ascii.eqb a b); auto.
Qed.

Lemma re_search_group_cons (o c : string) (a : ascii) (r : string) :
  match_at o c (String a r) = None ->
  re_search_group o c (String a r) = re_search_group o c r.
Proof. intros H. cbn [re_search_group]. now rewrite H. Qed.

Lemma re_search_group_hit (o c s g : string) :
  match_at o c s = Some g -> re_search_group o c s = Some g.
Proof. intros H. destruct s; cbn [re_search_group]; now rewrite H. Qed.

(** A stretch of text in which the opening tag cannot start is passed
    over. *)
Lemma search_skip (o c p x : string) :
  no_match_inside o p = true ->
  re_search_group o c (p ++ x) = re_search_group o c x.
Proof.
  induction p as [|a p IH]; cbn [no_match_inside append]; [reflexivity|].
  intros H. apply andb_true_iff in H. destruct H as [Hm Hp].
  rewrite re_search_group_cons; [auto|].
  unfold match_at.
  change (String a (p ++ x)) with (String a p ++ x).
  now rewrite mismatch_strip.
Qed.

(** So is a text without [<], when the opening tag starts with [<]. *)
Lemma search_skip_run (o c m x : string) :
  no_char "<" m = true ->
  re_search_group (String "<" o) c (m ++ x) = re_search_group (String "<" o) c x.
Proof.
  unfold no_char.
  induction m as [|a m IH]; cbn [all_chars append]; [reflexivity|].
  intros H. apply andb_true_iff in H. destruct H as [Ha Hm].
  rewrite re_search_group_cons; [auto|].
  unfold match_at. cbn [strip_prefix].
  apply negb_true_iff in Ha. rewrite Ascii.eqb_sym in Ha. now rewrite Ha.
Qed.

Lemma take_run_stop (m x : string) :
  no_char "<" m = true -> take_run (m ++ String "<" x) = (m, String "<" x).
Proof.
  unfold no_char.
  induction m as [|a m IH]; cbn [all_chars append take_run]; [reflexivity|].
  intros H. apply andb_true_iff in H. destruct H as [Ha Hm].
  apply negb_true_iff in Ha. rewrite Ha, IH by assumption. reflexivity.
Qed.

Lemma search_hit (o c m x : string) :
  nonempty m = true ->
  no_char "<" m = true ->
  re_search_group o (String "<" c) (o ++ m ++ String "<" c ++ x) = Some m.
Proof.
  intros Hne Hm. apply re_search_group_hit. unfold match_at.
  rewrite strip_prefix_self.
  change (String "<" c ++ x) with (String "<" (c ++ x)).
  rewrite take_run_stop by assumption.
  destruct m as [|a m]; [discriminate|].
  unfold startswith.
  change (String "<" (c ++ x)) with (String "<" c ++ x).
  now rewrite strip_prefix_self.
Qed.

Lemma take_run_spec (s g rest : string) :
  take_run s = (g, rest) -> no_char "<" g = true.
Proof.
  revert g rest. induction s as [|a s IH]; intros g rest H; cbn [take_run] in H.
  - now inversion H.
  - destruct (Ascii.eqb a "<") eqn:E.
    + now inversion H.
    + destruct (take_run s) as [g' rest'] eqn:Et.
      assert (Hg : no_char "<" g' = true)
        by (apply (IH g' rest'); (exact Et || reflexivity)).
      inversion H; subst.
      unfold no_char. cbn [all_chars]. rewrite E. cbn [negb andb].
      exact Hg.
Qed.

Lemma match_at_spec (o c s g : string) :
  match_at o c s = Some g -> nonempty g = true /\ no_char "<" g = true.
Proof.
  unfold match_at. destruct (strip_prefix o s) as [r|]; [|discriminate].
  destruct (take_run r) as [g' rest] eqn:Et.
  destruct g' as [|a g']; [discriminate|].
  destruct (startswith rest c); [|discriminate].
  intros H. inversion H; subst. split; [reflexivity|].
  now apply (take_run_spec r _ rest).
Qed.

(** The group of a match is non-empty and has no [<]. *)
Lemma re_search_group_spec (o c s g : string) :
  re_search_group o c s = Some g -> nonempty g = true /\ no_char "<" g = true.
Proof.
  induction s as [|a s IH]; cbn [re_search_group].
  - destruct (match_at o c EmptyString) eqn:E; [|discriminate].
    intros H. inversion H; subst. now apply (match_at_spec o c EmptyString).
  - destruct (match_at o c (String a s)) eqn:E.
    + intros H. inversion H; subst. now apply (match_at_spec o c (String a s)).
    + exact IH.
Qed.

Lemma response_xml_parts (msg_id : string) :
  response_xml msg_id
  = response_part1 ++ msg_id ++ response_part2
    ++ "<imsx_codeMajor>" ++ "success" ++ "</imsx_codeMajor>" ++ response_part3
    ++ "<imsx_messageRefIdentifier>" ++ msg_id ++ "</imsx_messageRefIdentifier>"
    ++ response_part4.
Proof. reflexivity. Qed.

(** The response carries [msg_id] as [imsx_messageRefIdentifier] and
    [success] as [imsx_codeMajor]. *)
Lemma response_xml_reads_back (msg_id : string) :
  nonempty msg_id = true ->
  no_char "<" msg_id = true ->
  message_ref_of (response_xml msg_id) = Some msg_id /\
  code_major_of (response_xml msg_id) = Some "success".
Proof.
  intros Hne Hm. rewrite response_xml_parts.
  unfold message_ref_of, code_major_of. split.
  - rewrite search_skip by (vm_compute; reflexivity).
    rewrite search_skip_run by assumption.
    rewrite search_skip by (vm_compute; reflexivity).
    rewrite search_skip by (vm_compute; reflexivity).
    rewrite search_skip by (vm_compute; reflexivity).
    rewrite search_skip by (vm_compute; reflexivity).
    rewrite search_skip by (vm_compute; reflexivity).
    now apply search_hit.
  - rewrite search_skip by (vm_compute; reflexivity).
    rewrite search_skip_run by assumption.
    rewrite search_skip by (vm_compute; reflexivity).
    now apply (search_hit "<imsx_codeMajor>" "/imsx_codeMajor>" "success").
Qed.

Section OutcomesAnswer.

Variable int_column_eq : Z -> string -> bool.

(** What the claims C3 and C4 ask for holds whenever the score text is
    absent or accepted by [float]: a request whose sourced id is absent,
    does not decode to three fields or matches no row of [course_tools]
    stores nothing and is answered with the response that echoes the
    message identifier of the request and reports [success]. *)
Lemma dropped_event_is_answered (db : database) (uuid body m : string) :
  utf8_valid body = true ->
  (forall t, score_text_of body = Some t -> exists x, float t = inr x) ->
  (forall sid c r u,
      sourced_id_of body = Some sid ->
      decode_sourced_id sid = inr [c; r; u] ->
      select_course_tool int_column_eq db c r = None) ->
  message_id_of body = Some m ->
  receive_outcome int_column_eq db uuid body = inr (db, response_xml m) /\
  message_ref_of (response_xml m) = Some m /\
  code_major_of (response_xml m) = Some "success".
Proof.
  intros Hu Hf Hd Hm. split.
  - rewrite (receive_outcome_dropped int_column_eq db uuid body Hu Hf Hd).
    now rewrite Hm.
  - apply re_search_group_spec in Hm. destruct Hm as [Hne Hlt].
    now apply response_xml_reads_back.
Qed.

(** The example of the specification: [BAD] does not decode, the score
    text is [0.9]. *)
Example bad_sourced_id_is_dropped (db : database) (uuid : string) :
  receive_outcome int_column_eq db uuid
    "<imsx_messageIdentifier>m1</imsx_messageIdentifier><sourcedId>BAD</sourcedId><textString>0.9</textString>"
  = inr (db, response_xml "m1").
Proof. reflexivity. Qed.

End OutcomesAnswer.

(* ================================================================== *)
(** * Percent-encoding *)

Lemma code_hex_digit (n : Z) :
  0 <= n < 16 ->
  code (hex_digit n) = if n <? 10 then 48 + n else 55 + n.
Proof.
  intros Hn. unfold hex_digit.
  destruct (n <? 10) eqn:E; apply code_chr.
  - apply Z.ltb_lt in E. lia.
  - apply Z.ltb_ge in E. lia.
Qed.

Lemma hex_digit_inj (m n : Z) :
  0 <= m < 16 -> 0 <= n < 16 -> hex_digit m = hex_digit n -> m = n.
Proof.
  intros Hm Hn H. apply (f_equal code) in H.
  rewrite !code_hex_digit in H by assumption.
  destruct (m <? 10) eqn:Em; destruct (n <? 10) eqn:En;
    rewrite ?Z.ltb_lt, ?Z.ltb_ge in *; lia.
Qed.

Ltac bool_arith :=
  repeat rewrite ?orb_true_iff, ?andb_true_iff, ?orb_false_iff, ?andb_false_iff,
    ?Z.leb_le, ?Z.eqb_eq, ?Z.ltb_lt, ?Z.leb_gt, ?Z.eqb_neq, ?Z.ltb_ge in *;
  lia.

Lemma always_safe_hex (n : Z) : 0 <= n < 16 -> always_safe (hex_digit n) = true.
Proof.
  intros Hn. unfold always_safe. rewrite code_hex_digit by assumption.
  destruct (n <? 10) eqn:E; cbv zeta; bool_arith.
Qed.

Lemma always_safe_not_percent (c : ascii) :
  always_safe c = true -> c <> "%"%char.
Proof.
  intros H Heq. subst c. vm_compute in H. discriminate.
Qed.

Lemma code_nibbles (c : ascii) :
  0 <= code c / 16 < 16 /\ 0 <= code c mod 16 < 16.
Proof. pose proof (code_range c). split; byte_arith. Qed.

Lemma quote_byte_inj (a b : ascii) (x y : string) :
  quote_byte a ++ x = quote_byte b ++ y -> a = b /\ x = y.
Proof.
  unfold quote_byte.
  destruct (code_nibbles a) as [Ha1 Ha2]. destruct (code_nibbles b) as [Hb1 Hb2].
  destruct (always_safe a) eqn:Sa; destruct (always_safe b) eqn:Sb;
    cbn [append]; intros H; inversion H; subst.
  - auto.
  - now apply always_safe_not_percent in Sa.
  - now apply always_safe_not_percent in Sb.
  - split; [|reflexivity].
    apply code_inj.
    assert (code a / 16 = code b / 16) by (apply hex_digit_inj; assumption).
    assert (code a mod 16 = code b mod 16) by (apply hex_digit_inj; assumption).
    rewrite (Z.div_mod (code a) 16), (Z.div_mod (code b) 16) by lia.
    congruence.
Qed.

Lemma quote_byte_nonempty (c : ascii) (x : string) : quote_byte c ++ x <> EmptyString.
Proof.
  unfold quote_byte. destruct (always_safe c); cbn [append]; discriminate.
Qed.

Lemma quote_inj (s t : string) : quote s = quote t -> s = t.
Proof.
  revert t. induction s as [|a s IH]; intros [|b t] H; cbn [quote] in H.
  - reflexivity.
  - symmetry in H. now apply quote_byte_nonempty in H.
  - now apply quote_byte_nonempty in H.
  - apply quote_byte_inj in H. destruct H as [-> H]. f_equal. auto.
Qed.

Lemma quote_chars (s : string) : all_chars quoted_char (quote s) = true.
Proof.
  induction s as [|c s IH]; [reflexivity|].
  cbn [quote]. rewrite all_chars_app, IH, andb_true_r.
  unfold quote_byte. destruct (code_nibbles c) as [H1 H2].
  destruct (always_safe c) eqn:Sc; cbn [all_chars]; unfold quoted_char.
  - now rewrite Sc.
  - rewrite !always_safe_hex by assumption. reflexivity.
Qed.

Lemma quoted_char_not (x c : ascii) :
  quoted_char x = false -> quoted_char c = true -> negb (Ascii.eqb c x) = true.
Proof.
  intros Hx Hc. apply negb_true_iff. apply Ascii.eqb_neq.
  intros ->. congruence.
Qed.

Lemma quote_no_char (x : ascii) (s : string) :
  quoted_char x = false -> no_char x (quote s) = true.
Proof.
  intros Hx. unfold no_char.
  apply (all_chars_impl quoted_char); [|apply quote_chars].
  intros c. now apply quoted_char_not.
Qed.

(* ================================================================== *)
(** * Joining with a separator *)

Lemma no_char_app (x : ascii) (s t : string) :
  no_char x (s ++ t) = no_char x s && no_char x t.
Proof. apply all_chars_app. Qed.

Lemma no_char_sep (x : ascii) (s t : string) : no_char x (s ++ String x t) = false.
Proof.
  rewrite no_char_app. cbn. rewrite Ascii.eqb_refl. cbn. apply andb_false_r.
Qed.

(** Cutting at the first separator. *)
Lemma cut_first (x : ascii) (a b s t : string) :
  no_char x a = true -> no_char x b = true ->
  a ++ String x s = b ++ String x t -> a = b /\ s = t.
Proof.
  revert b. induction a as [|c a IH]; intros [|d b] Ha Hb H; cbn [append] in H.
  - inversion H. auto.
  - inversion H; subst. cbn in Hb. rewrite Ascii.eqb_refl in Hb. discriminate.
  - inversion H; subst. cbn in Ha. rewrite Ascii.eqb_refl in Ha. discriminate.
  - inversion H; subst.
    cbn in Ha, Hb. apply andb_true_iff in Ha, Hb.
    destruct (IH b (proj2 Ha) (proj2 Hb) H2) as [-> ->]. auto.
Qed.

(** Cutting at the last separator. *)
Lemma cut_last (x : ascii) (a b s t : string) :
  no_char x s = true -> no_char x t = true ->
  a ++ String x s = b ++ String x t -> a = b /\ s = t.
Proof.
  intros Hs Ht. revert b.
  induction a as [|c a IH]; intros [|d b] H; cbn [append] in H.
  - inversion H. auto.
  - inversion H; subst. now rewrite no_char_sep in Hs.
  - inversion H; subst. now rewrite no_char_sep in Ht.
  - inversion H; subst. destruct (IH b H2) as [-> ->]. auto.
Qed.

Lemma join_cons (sep x y : string) (l : list string) :
  join sep (x :: y :: l) = x ++ sep ++ join sep (y :: l).
Proof. reflexivity. Qed.

Lemma join_inj (x : ascii) (l1 l2 : list string) :
  forallb (field_ok x) l1 = true ->
  forallb (field_ok x) l2 = true ->
  join (String x EmptyString) l1 = join (String x EmptyString) l2 ->
  l1 = l2.
Proof.
  revert l2. induction l1 as [|a l1 IH]; intros [|b l2] H1 H2 H.
  - reflexivity.
  - exfalso. cbn [forallb] in H2. apply andb_true_iff in H2.
    destruct H2 as [Hb _]. unfold field_ok in Hb. apply andb_true_iff in Hb.
    destruct b as [|c b]; [destruct Hb; discriminate|].
    destruct l2; cbn in H; discriminate.
  - exfalso. cbn [forallb] in H1. apply andb_true_iff in H1.
    destruct H1 as [Ha _]. unfold field_ok in Ha. apply andb_true_iff in Ha.
    destruct a as [|c a]; [destruct Ha; discriminate|].
    destruct l1; cbn in H; discriminate.
  - cbn [forallb] in H1, H2. apply andb_true_iff in H1, H2.
    destruct H1 as [Ha H1], H2 as [Hb H2].
    unfold field_ok in Ha, Hb. apply andb_true_iff in Ha, Hb.
    destruct Ha as [_ Ha], Hb as [_ Hb].
    destruct l1 as [|a' l1]; destruct l2 as [|b' l2].
    + cbn in H. now subst.
    + exfalso. rewrite join_cons in H. cbn [join String.concat] in H. subst a.
      change (b ++ String x EmptyString ++ ?r) with (b ++ String x r) in Ha.
      now rewrite no_char_sep in Ha.
    + exfalso. rewrite join_cons in H. cbn [join String.concat] in H. subst b.
      change (a ++ String x EmptyString ++ ?r) with (a ++ String x r) in Hb.
      now rewrite no_char_sep in Hb.
    + rewrite !join_cons in H.
      change (a ++ String x EmptyString ++ ?r) with (a ++ String x r) in H.
      change (b ++ String x EmptyString ++ ?r) with (b ++ String x r) in H.
      apply cut_first in H; try assumption.
      destruct H as [-> H]. f_equal. now apply IH.
Qed.

(* ================================================================== *)
(** * Sorting the items *)

Section Sorting.

Context {A : Type}.
Variable leb : A -> A -> bool.

Lemma insert_by_perm (x : A) (l : list A) :
  Permutation (insert_by leb x l) (x :: l).
Proof.
  induction l as [|y l IH]; cbn [insert_by]; [reflexivity|].
  destruct (leb x y); [reflexivity|].
  rewrite IH. apply perm_swap.
Qed.

Lemma sort_by_perm (l : list A) : Permutation (sort_by leb l) l.
Proof.
  unfold sort_by. induction l as [|x l IH]; cbn [fold_right]; [reflexivity|].
  rewrite insert_by_perm. now constructor.
Qed.

Hypothesis leb_total : forall a b, leb a b = true \/ leb b a = true.

Lemma insert_by_sorted (x : A) (l : list A) :
  Sorted (fun a b => leb a b = true) l ->
  Sorted (fun a b => leb a b = true) (insert_by leb x l).
Proof.
  induction l as [|y l IH]; cbn [insert_by]; intros Hs.
  - repeat constructor.
  - destruct (leb x y) eqn:E.
    + constructor; [assumption|]. now constructor.
    + inversion Hs as [|? ? Hs' Hhd]; subst.
      constructor; [auto|].
      destruct l as [|z l]; cbn [insert_by].
      * constructor. destruct (leb_total x y); congruence.
      * destruct (leb x z); constructor.
        -- destruct (leb_total x y); congruence.
        -- now inversion Hhd.
Qed.

Lemma sort_by_sorted (l : list A) :
  Sorted (fun a b => leb a b = true) (sort_by leb l).
Proof.
  unfold sort_by. induction l as [|x l IH]; cbn [fold_right].
  - constructor.
  - now apply insert_by_sorted.
Qed.

End Sorting.

Lemma sorted_items_perm (d : dict value) : Permutation (sorted_items d) d.
Proof. apply sort_by_perm. Qed.

(** The items are joined in ascending order of their keys as they are,
    before any percent-encoding. *)
Lemma sorted_items_sorted (d : dict value) :
  Sorted (fun a b => String.leb (fst a) (fst b) = true) (sorted_items d).
Proof.
  apply (sort_by_sorted (@item_leb value)).
  intros a b. apply String.leb_total.
Qed.

(* ================================================================== *)
(** * The signature base string determines what was signed *)

Lemma amp_not_quoted : quoted_char "&" = false.
Proof. reflexivity. Qed.

Lemma eq_not_quoted : quoted_char "=" = false.
Proof. reflexivity. Qed.

Lemma encode_item_inj (a b : string * value) :
  encode_item a = encode_item b -> fst a = fst b /\ str (snd a) = str (snd b).
Proof.
  unfold encode_item. intros H.
  change (quote (fst a) ++ "=" ++ ?r) with (quote (fst a) ++ String "=" r) in H.
  change (quote (fst b) ++ "=" ++ ?r) with (quote (fst b) ++ String "=" r) in H.
  apply cut_first in H; try (apply quote_no_char, eq_not_quoted).
  destruct H as [H1 H2]. split; now apply quote_inj.
Qed.

Lemma encode_item_field (a : string * value) : field_ok "&" (encode_item a) = true.
Proof.
  unfold field_ok, encode_item. apply andb_true_iff. split.
  - destruct (quote (fst a)); reflexivity.
  - rewrite !no_char_app, !quote_no_char by apply amp_not_quoted. reflexivity.
Qed.

Lemma encode_items_fields (l : list (string * value)) :
  forallb (field_ok "&") (map encode_item l) = true.
Proof.
  induction l as [|a l IH]; [reflexivity|].
  cbn [map forallb]. now rewrite encode_item_field, IH.
Qed.

Lemma param_string_inj (p q : dict value) :
  param_string p = param_string q ->
  map encode_item (sorted_items p) = map encode_item (sorted_items q).
Proof.
  unfold param_string. apply join_inj; apply encode_items_fields.
Qed.

Lemma string_app_assoc (a b c : string) : (a ++ b) ++ c = a ++ b ++ c.
Proof.
  induction a as [|x a IH]; cbn [append]; [reflexivity|]. now rewrite IH.
Qed.

Lemma signature_base_eq (method url : string) (params : dict value) :
  signature_base method url params
  = (upper method ++ String "&" (quote url)) ++ String "&" (quote (param_string params)).
Proof.
  unfold signature_base, join. cbn [String.concat].
  now rewrite string_app_assoc.
Qed.

Lemma signature_base_inj (m m' u u' : string) (p p' : dict value) :
  signature_base m' u' p' = signature_base m u p ->
  upper m' = upper m /\ u' = u /\ param_string p' = param_string p.
Proof.
  rewrite !signature_base_eq. intros H.
  apply cut_last in H; try (apply quote_no_char, amp_not_quoted).
  destruct H as [H1 H2].
  apply cut_last in H1; try (apply quote_no_char, amp_not_quoted).
  destruct H1 as [Hm Hu].
  repeat split; auto using quote_inj.
Qed.

(** Equal parameter strings: every item of one dictionary is an item of the
    other, up to [str] of the value. *)
Lemma param_string_items (p q : dict value) (k : string) (v : value) :
  param_string p = param_string q ->
  In (k, v) p -> exists w, In (k, w) q /\ str w = str v.
Proof.
  intros H Hin. apply param_string_inj in H.
  assert (Hs : In (encode_item (k, v)) (map encode_item (sorted_items p))).
  { apply in_map. apply (Permutation_in _ (Permutation_sym (sorted_items_perm p))).
    exact Hin. }
  rewrite H in Hs. apply in_map_iff in Hs. destruct Hs as [[k' w] [He Hw]].
  apply encode_item_inj in He. cbn [fst snd] in He. destruct He as [-> Hstr].
  exists w. split; [|assumption].
  apply (Permutation_in _ (sorted_items_perm q)). exact Hw.
Qed.

Lemma strip_signature_in (k : string) (v : value) (p : dict value) :
  In (k, v) (strip_signature p) <-> In (k, v) p /\ k <> "oauth_signature".
Proof.
  unfold strip_signature. rewrite filter_In. cbn [fst].
  rewrite negb_true_iff, String.eqb_neq. tauto.
Qed.

Lemma tampered_base
  (method url : string) (params : dict value)
  (method' url' : string) (params' : dict value) :
  wf_dict params ->
  tampered method url params method' url' params' ->
  signature_base method' url' (strip_signature params')
  <> signature_base method url (strip_signature params).
Proof.
  intros Hwf Ht Heq. apply signature_base_inj in Heq.
  destruct Heq as [Hm [Hu Hp]].
  destruct Ht as [m' Hne | u' Hne | k v v' Hk Hget Hstr].
  - contradiction.
  - contradiction.
  - assert (Hin : In (k, v') (strip_signature (dict_set k v' params))).
    { apply strip_signature_in. split; [|assumption].
      apply dict_get_in. apply dict_get_set_same. }
    destruct (param_string_items _ _ _ _ Hp Hin) as [w [Hw Hs]].
    apply strip_signature_in in Hw. destruct Hw as [Hw _].
    apply in_dict_get in Hw; [|assumption].
    rewrite Hget in Hw. inversion Hw; subst. congruence.
Qed.

(* ================================================================== *)
(** * Verification *)

Lemma verify_result (method url : string) (params : dict value)
  (secret received : string) :
  is_ascii received = true ->
  verify_oauth_signature method url params secret received
  = inr (String.eqb
           (generate_oauth_signature method url (strip_signature params) secret)
           received).
Proof.
  intros Ha. rewrite verify_unfold. unfold compare_digest.
  unfold generate_oauth_signature at 1. now rewrite b64encode_ascii, Ha.
Qed.

Lemma verify_own_signature (method url : string) (params : dict value)
  (secret : string) :
  verify_oauth_signature method url params secret
    (generate_oauth_signature method url (strip_signature params) secret)
  = inr true.
Proof.
  rewrite verify_result by apply b64encode_ascii.
  now rewrite String.eqb_refl.
Qed.

Lemma generate_eqb (m u m' u' : string) (p p' : dict value) (secret : string) :
  String.eqb (generate_oauth_signature m' u' p' secret)
             (generate_oauth_signature m u p secret)
  = String.eqb (hmac_sha1 (signing_key secret) (signature_base m' u' p'))
               (hmac_sha1 (signing_key secret) (signature_base m u p)).
Proof.
  unfold generate_oauth_signature.
  destruct (String.eqb (hmac_sha1 _ (signature_base m' u' p'))
                       (hmac_sha1 _ (signature_base m u p))) eqn:E.
  - apply String.eqb_eq in E. rewrite E. apply String.eqb_refl.
  - apply String.eqb_neq. intros H. apply b64encode_inj in H.
    apply String.eqb_neq in E. contradiction.
Qed.

Lemma distinct_NoDup (l : list string) : distinct l = true -> NoDup l.
Proof.
  induction l as [|k l IH]; cbn [distinct]; intros H; constructor.
  - apply andb_true_iff in H. destruct H as [H _].
    apply negb_true_iff in H. intros Hin.
    assert (existsb (String.eqb k) l = true); [|congruence].
    apply existsb_exists. exists k. split; [assumption|apply String.eqb_refl].
  - apply andb_true_iff in H. tauto.
Qed.

Lemma distinct_wf {V : Type} (d : dict V) : distinct (keys d) = true -> wf_dict d.
Proof. apply distinct_NoDup. Qed.

(* ================================================================== *)
(** * Signatures are 20 bytes long *)

Lemma in_all_bytes (c : ascii) : In c all_bytes.
Proof.
  unfold all_bytes. apply in_map_iff. exists (nat_of_ascii c).
  split; [apply ascii_nat_embedding|].
  apply in_seq. pose proof (nat_ascii_bounded c). lia.
Qed.

Lemma in_all_strings (s : string) : In s (all_strings (String.length s)).
Proof.
  induction s as [|c s IH]; cbn [String.length all_strings]; [now left|].
  apply in_map_iff. exists (c, s). split; [reflexivity|].
  apply in_prod; [apply in_all_bytes | exact IH].
Qed.

Lemma length_all_strings (n : nat) :
  List.length (all_strings n) = (256 ^ n)%nat.
Proof.
  induction n as [|n IH]; [reflexivity|].
  cbn [all_strings]. rewrite length_map, length_prod, IH, Nat.pow_succ_r'.
  unfold all_bytes. now rewrite length_map, length_seq.
Qed.

Lemma length_ab_words (n : nat) : List.length (ab_words n) = (2 ^ n)%nat.
Proof.
  induction n as [|n IH]; [reflexivity|].
  cbn [ab_words]. rewrite length_app, !length_map, IH, Nat.pow_succ_r'. lia.
Qed.

Lemma NoDup_map_inj {A B : Type} (f : A -> B) (l : list A) :
  (forall x y, f x = f y -> x = y) -> NoDup l -> NoDup (map f l).
Proof.
  intros Hinj. induction 1 as [|a l Ha Hl IH]; cbn [map]; constructor; [|exact IH].
  intros Hin. apply in_map_iff in Hin. destruct Hin as [y [Hy Hin]].
  apply Hinj in Hy. subst y. contradiction.
Qed.

Lemma NoDup_ab_words (n : nat) : NoDup (ab_words n).
Proof.
  induction n as [|n IH]; cbn [ab_words].
  - constructor; [intros []|constructor].
  - apply NoDup_app.
    + apply NoDup_map_inj; [|exact IH]. intros x y H. now injection H.
    + apply NoDup_map_inj; [|exact IH]. intros x y H. now injection H.
    + intros w Hin Hin'. apply in_map_iff in Hin, Hin'.
      destruct Hin as [x [<- _]], Hin' as [y [Hy _]]. discriminate.
Qed.

(** Pigeonhole: a map from a list without repetition either keeps it without
    repetition or sends two different items to one value. *)
Lemma map_collision {A B : Type} (eq_dec : forall x y : B, {x = y} + {x <> y})
  (f : A -> B) (l : list A) :
  NoDup l ->
  NoDup (map f l) \/
  exists x y, In x l /\ In y l /\ x <> y /\ f x = f y.
Proof.
  induction 1 as [|a l Ha Hl IH]; [left; constructor|].
  destruct IH as [IH | [x [y [Hx [Hy [Hne He]]]]]].
  - destruct (in_dec eq_dec (f a) (map f l)) as [Hin | Hout].
    + right. apply in_map_iff in Hin. destruct Hin as [y [Hy Hin]].
      exists a, y. split; [now left|]. split; [now right|].
      split; [|now symmetry]. intros ->. contradiction.
    + left. cbn [map]. now constructor.
  - right. exists x, y. split; [now right|]. split; [now right|]. now split.
Qed.

Lemma pow_256_lt (n m : nat) : (8 * n < m)%nat -> (256 ^ n < 2 ^ m)%nat.
Proof.
  intros H. change 256%nat with (2 ^ 8)%nat. rewrite <- Nat.pow_mul_r.
  apply Nat.pow_lt_mono_r; [lia | exact H].
Qed.

(** More words than values: two different words have the same value. *)
Lemma words_collide (f : string -> string) (n m : nat) :
  (forall w, String.length (f w) = n) ->
  (8 * n < m)%nat ->
  exists x y : string, x <> y /\ f x = f y.
Proof.
  intros Hlen Hnm.
  destruct (map_collision string_dec f (ab_words m) (NoDup_ab_words m))
    as [Hnd | [x [y [_ [_ [Hne He]]]]]]; [|now exists x, y].
  exfalso.
  assert (Hincl : incl (map f (ab_words m)) (all_strings n)).
  { intros v Hv. apply in_map_iff in Hv. destruct Hv as [w [<- _]].
    rewrite <- (Hlen w). apply in_all_strings. }
  pose proof (NoDup_incl_length Hnd Hincl) as Hle.
  rewrite length_map, length_ab_words, length_all_strings in Hle.
  pose proof (pow_256_lt n m Hnm). lia.
Qed.

Lemma length_of_bytes (l : list Z) : String.length (of_bytes l) = List.length l.
Proof.
  unfold of_bytes. induction l as [|b l IH]; [reflexivity|].
  cbn [map string_of_list_ascii String.length]. now rewrite IH.
Qed.

Lemma digest_length (msg : list Z) : List.length (SHA1.digest msg) = 20%nat.
Proof.
  unfold SHA1.digest.
  destruct (SHA1.blocks _ SHA1.h_init (SHA1.pad msg)) as [[[[h0 h1] h2] h3] h4].
  reflexivity.
Qed.

Lemma hmac_sha1_length (key msg : string) :
  String.length (hmac_sha1 key msg) = 20%nat.
Proof. unfold hmac_sha1. now rewrite length_of_bytes, digest_length. Qed.

Lemma string_app_inv_head (p x y : string) : p ++ x = p ++ y -> x = y.
Proof.
  induction p as [|c p IH]; cbn [append]; [auto|].
  intros H. injection H as H. auto.
Qed.

(** A digest has 20 bytes, so among the URLs that extend a given one by a
    word of 161 letters, two have base strings with the same digest: the
    request signed for one of them verifies at the other. *)
Lemma some_url_change_still_verifies
  (method prefix : string) (params : dict value) (consumer_secret : string) :
  exists url url' : string,
    url' <> url /\
    verify_oauth_signature method url' params consumer_secret
      (generate_oauth_signature method url (strip_signature params)
         consumer_secret)
    = inr true.
Proof.
  destruct (words_collide
              (fun w => hmac_sha1 (signing_key consumer_secret)
                          (signature_base method (prefix ++ w)
                             (strip_signature params)))
              20 161) as [x [y [Hne He]]].
  - intros w. apply hmac_sha1_length.
  - lia.
  - exists (prefix ++ x), (prefix ++ y). split.
    + intros H. apply string_app_inv_head in H. congruence.
    + rewrite verify_result by apply b64encode_ascii.
      rewrite generate_eqb. cbv beta in He. rewrite He.
      now rewrite String.eqb_refl.
Qed.

(* ================================================================== *)
(** * C5: a request changed after signing *)

(** C5, as the code has it.  Take a request with pairwise distinct
    parameter names and an ASCII method (on ASCII strings [upper] is
    [str.upper]), signed over its parameters other than [oauth_signature].

    Change its URL, or its method to an ASCII one with another upper-case
    form, or the value of one parameter other than [oauth_signature] to one
    with another [str].  The signature base string the verifier computes
    differs from the signed one, and the verifier returns [False], unless
    HMAC-SHA1 under the signing key gives the two different base strings the
    same digest; in that case it returns [True].

    Change only the letter case of the method, or only the
    [oauth_signature] entry of the parameters: the verifier returns
    [True]. *)
Theorem tampering_detected_unless_digests_collide
  (method url : string) (params : dict value) (consumer_secret : string) :
  wf_dict params ->
  is_ascii method = true ->
  let key := signing_key consumer_secret in
  let old_base := signature_base method url (strip_signature params) in
  let signature :=
    generate_oauth_signature method url (strip_signature params) consumer_secret in
  (forall (method' url' : string) (params' : dict value),
      is_ascii method' = true ->
      tampered method url params method' url' params' ->
      let new_base := signature_base method' url' (strip_signature params') in
      new_base <> old_base /\
      (verify_oauth_signature method' url' params' consumer_secret signature
       = inr false \/
       hmac_sha1 key new_base = hmac_sha1 key old_base /\
       verify_oauth_signature method' url' params' consumer_secret signature
       = inr true)) /\
  (forall method' : string,
      is_ascii method' = true ->
      upper method' = upper method ->
      verify_oauth_signature method' url params consumer_secret signature
      = inr true) /\
  (forall v : value,
      verify_oauth_signature method url (dict_set "oauth_signature" v params)
        consumer_secret signature
      = inr true).
Proof.
  intros Hwf Ha key old_base signature. split; [|split].
  - intros method' url' params' Ha' Ht new_base.
    split; [now apply tampered_base|].
    unfold signature. rewrite verify_result by apply b64encode_ascii.
    rewrite generate_eqb. fold key. fold old_base. fold new_base.
    destruct (String.eqb (hmac_sha1 key new_base) (hmac_sha1 key old_base)) eqn:E.
    + right. apply String.eqb_eq in E. now split.
    + now left.
  - intros method' Ha' Hup. unfold signature.
    rewrite verify_result by apply b64encode_ascii. rewrite generate_eqb.
    unfold signature_base. rewrite Hup. now rewrite String.eqb_refl.
  - intros v. unfold signature.
    rewrite verify_result by apply b64encode_ascii.
    rewrite strip_signature_reset. now rewrite String.eqb_refl.
Qed.

Lemma tampering_detected_unless_digests_collide_witness :
  let url := "http://localhost:8080/lti/launch" in
  let signature :=
    generate_oauth_signature "POST" url (strip_signature sample_params) "s3cr&t" in
  verify_oauth_signature "POST" "http://localhost:8080/lti/launch?x=1"
    sample_params "s3cr&t" signature = inr false /\
  verify_oauth_signature "GET" url sample_params "s3cr&t" signature = inr false /\
  verify_oauth_signature "POST" url (dict_set "b" (VStr "3") sample_params)
    "s3cr&t" signature = inr false /\
  verify_oauth_signature "post" url sample_params "s3cr&t" signature = inr true /\
  verify_oauth_signature "POST" url
    (dict_set "oauth_signature" (VStr "forged") sample_params) "s3cr&t" signature
  = inr true.
Proof.
  intros url signature.
  assert (Hwf : wf_dict sample_params) by (apply distinct_wf; reflexivity).
  assert (Ha : is_ascii "POST" = true) by reflexivity.
  destruct (tampering_detected_unless_digests_collide
              "POST" url sample_params "s3cr&t" Hwf Ha)
    as [Hdet [Hcase Hentry]].
  split; [|split; [|split; [|split]]].
  - assert (Ht : tampered "POST" url sample_params
                   "POST" "http://localhost:8080/lti/launch?x=1" sample_params)
      by (apply tamper_url; discriminate).
    destruct (Hdet _ _ _ Ha Ht) as [_ [H | [Hc _]]]; [exact H|].
    vm_compute in Hc. discriminate Hc.
  - assert (Ha' : is_ascii "GET" = true) by reflexivity.
    assert (Ht : tampered "POST" url sample_params "GET" url sample_params)
      by (apply tamper_method; discriminate).
    destruct (Hdet _ _ _ Ha' Ht) as [_ [H | [Hc _]]]; [exact H|].
    vm_compute in Hc. discriminate Hc.
  - assert (Ht : tampered "POST" url sample_params
                   "POST" url (dict_set "b" (VStr "3") sample_params)).
    { apply (tamper_value "POST" url sample_params "b" (VStr "2") (VStr "3"));
        [discriminate | reflexivity | discriminate]. }
    destruct (Hdet _ _ _ Ha Ht) as [_ [H | [Hc _]]]; [exact H|].
    vm_compute in Hc. discriminate Hc.
  - apply Hcase; reflexivity.
  - apply Hentry.
Defined.

(** The claim as worded fails: after signing with method [POST], the
    method is changed to [post] and the signature still verifies; the
    [oauth_signature] entry of the parameters can be changed at will; and,
    a signature being 20 bytes long, there are two different URLs such that
    the request signed for the first verifies at the second. *)
Lemma method_case_change_still_verifies :
  let url := "http://localhost:8080/lti/launch" in
  let signature := generate_oauth_signature "POST" url sample_params "s3cr&t" in
  let request := dict_set "oauth_signature" (VStr signature) sample_params in
  verify_oauth_signature "POST" url request "s3cr&t" signature = inr true /\
  "post" <> "POST" /\
  verify_oauth_signature "post" url request "s3cr&t" signature = inr true /\
  verify_oauth_signature "POST" url
    (dict_set "oauth_signature" (VStr "forged") request) "s3cr&t" signature
  = inr true /\
  exists url1 url2 : string,
    url2 <> url1 /\
    verify_oauth_signature "POST" url2 request "s3cr&t"
      (generate_oauth_signature "POST" url1 (strip_signature request) "s3cr&t")
    = inr true.
Proof.
  intros url signature request.
  assert (Hstrip : strip_signature request = sample_params)
    by (apply strip_signature_set; reflexivity).
  assert (Hascii : is_ascii signature = true) by apply b64encode_ascii.
  split; [|split; [|split; [|split]]].
  - rewrite verify_result, Hstrip by assumption.
    fold signature. now rewrite String.eqb_refl.
  - discriminate.
  - rewrite verify_result, Hstrip by assumption.
    unfold signature. rewrite generate_eqb.
    change (signature_base "post" url sample_params)
      with (signature_base "POST" url sample_params).
    now rewrite String.eqb_refl.
  - rewrite verify_result, strip_signature_reset, Hstrip by assumption.
    fold signature. now rewrite String.eqb_refl.
  - apply (some_url_change_still_verifies "POST" url request "s3cr&t").
Qed.

(* ================================================================== *)
(** * C6: the order of the parameters in the base string *)

(** The base string is the upper-cased method, the encoded URL and the
    encoded parameter string, joined with [&]. *)
Lemma signature_base_shape (method url : string) (params : dict value) :
  signature_base method url params
  = upper method ++ "&" ++ quote url ++ "&" ++ quote (param_string params).
Proof. reflexivity. Qed.

(** C6.  The parameters [custom_1 = a] and [custom_: = b]: the claim asks
    for the order of the encoded keys, [custom_%3A] before [custom_1]; the
    code sorts the keys as they are, before encoding them, and puts
    [custom_1] first. *)
Theorem raw_key_order_differs_from_encoded_order :
  let params := [("custom_1", VStr "a"); ("custom_:", VStr "b")] in
  let url := "http://localhost:8080/lti/launch" in
  String.ltb (quote "custom_:") (quote "custom_1") = true /\
  param_string params = "custom_1=a&custom_%3A=b" /\
  spec_param_string params = "custom_%3A=b&custom_1=a" /\
  signature_base "POST" url params <> spec_base_string "POST" url params.
Proof.
  cbv zeta. repeat split; try (vm_compute; reflexivity).
  vm_compute. discriminate.
Qed.

(* ================================================================== *)
(** * Where the order of the raw keys is the order of the encoded keys *)

Lemma quote_unreserved (s : string) : all_chars always_safe s = true -> quote s = s.
Proof.
  induction s as [|c s IH]; [reflexivity|].
  cbn [all_chars quote]. intros H. apply andb_true_iff in H. destruct H as [Hc Hs].
  unfold quote_byte. rewrite Hc, IH by assumption. reflexivity.
Qed.

Lemma insert_by_map {A B : Type} (f : A -> B)
  (leb : A -> A -> bool) (leb' : B -> B -> bool) (x : A) (l : list A) :
  (forall y, In y l -> leb' (f x) (f y) = leb x y) ->
  insert_by leb' (f x) (map f l) = map f (insert_by leb x l).
Proof.
  induction l as [|y l IH]; intros H; cbn [map insert_by]; [reflexivity|].
  rewrite (H y) by now left.
  destruct (leb x y); [reflexivity|].
  cbn [map]. f_equal. apply IH. intros z Hz. apply H. now right.
Qed.

Lemma sort_by_map {A B : Type} (f : A -> B)
  (leb : A -> A -> bool) (leb' : B -> B -> bool) (l : list A) :
  (forall x y, In x l -> In y l -> leb' (f x) (f y) = leb x y) ->
  sort_by leb' (map f l) = map f (sort_by leb l).
Proof.
  unfold sort_by.
  induction l as [|x l IH]; intros H; cbn [map fold_right]; [reflexivity|].
  rewrite IH by (intros; apply H; now right).
  apply insert_by_map. intros y Hy. apply H; [now left|].
  right. apply (Permutation_in _ (sort_by_perm leb l)). exact Hy.
Qed.

(** For a dictionary whose keys are made of unreserved characters, as the
    names of the launch parameters are, the parameter string of the code is
    the one of the specification. *)
Lemma param_string_spec_on_unreserved_keys (params : dict value) :
  wf_dict params ->
  Forall (fun kv => all_chars always_safe (fst kv) = true) params ->
  param_string params = spec_param_string params.
Proof.
  intros Hwf Hsafe. unfold param_string, spec_param_string, sorted_items.
  rewrite (sort_by_map (fun kv => (quote (fst kv), quote (str (snd kv))))
             item_leb encoded_pair_leb).
  - now rewrite map_map.
  - intros [k v] [k' v'] Hin Hin'. rewrite Forall_forall in Hsafe.
    unfold encoded_pair_leb, item_leb, String.leb. cbn [fst snd].
    rewrite (quote_unreserved k) by apply (Hsafe (k, v) Hin).
    rewrite (quote_unreserved k') by apply (Hsafe (k', v') Hin').
    destruct (String.compare k k') eqn:E; try reflexivity.
    apply String.compare_eq_iff in E. subst k'.
    apply (in_dict_get _ _ _ Hwf) in Hin.
    apply (in_dict_get _ _ _ Hwf) in Hin'.
    rewrite Hin in Hin'. inversion Hin'; subst.
    unfold String.leb.
    destruct (String.compare (quote (str v')) (quote (str v'))) eqn:E2;
      try reflexivity.
    pose proof (String.compare_antisym (quote (str v')) (quote (str v'))) as Ha.
    rewrite E2 in Ha. discriminate.
Qed.

(* ================================================================== *)
(** * The launch parameter builder *)

Lemma flush_nonempty (cur : string) (l : list string) :
  Forall (fun t => nonempty t = true) l ->
  Forall (fun t => nonempty t = true) (flush cur l).
Proof.
  intros H. destruct cur; cbn [flush]; [assumption|].
  constructor; [reflexivity|assumption].
Qed.

Lemma split_ws_cons (sp1 : ascii -> bool) (cur : string) (a : ascii) (r : string) :
  split_ws sp1 cur (String a r) =
  if sp1 a then flush cur (split_ws sp1 EmptyString r)
  else
    match r with
    | EmptyString => split_ws sp1 (snoc cur a) r
    | String b r1 =>
        if space2 a b then flush cur (split_ws sp1 EmptyString r1)
        else
          match r1 with
          | EmptyString => split_ws sp1 (snoc cur a) r
          | String c r2 =>
              if space3 a b c then flush cur (split_ws sp1 EmptyString r2)
              else split_ws sp1 (snoc cur a) r
          end
    end.
Proof. reflexivity. Qed.

(** The tokens of a split are never empty. *)
Lemma split_ws_nonempty (sp1 : ascii -> bool) (n : nat) :
  forall (s cur : string),
    (String.length s <= n)%nat ->
    Forall (fun t => nonempty t = true) (split_ws sp1 cur s).
Proof.
  induction n as [|n IH]; intros s cur Hlen.
  - destruct s; [|cbn in Hlen; lia].
    cbn [split_ws]. apply flush_nonempty. constructor.
  - destruct s as [|a r].
    + cbn [split_ws]. apply flush_nonempty. constructor.
    + rewrite split_ws_cons. cbn [String.length] in Hlen.
      destruct (sp1 a).
      { apply flush_nonempty, IH. lia. }
      destruct r as [|b r1].
      { apply IH. cbn. lia. }
      cbn [String.length] in Hlen.
      destruct (space2 a b).
      { apply flush_nonempty, IH. lia. }
      destruct r1 as [|c r2].
      { apply IH. cbn. lia. }
      cbn [String.length] in Hlen.
      destruct (space3 a b c).
      { apply flush_nonempty, IH. lia. }
      apply IH. cbn. lia.
Qed.

Lemma split_nonempty (s : string) : Forall (fun t => nonempty t = true) (split s).
Proof. apply (split_ws_nonempty space1 (String.length s)). lia. Qed.

Lemma join_nonempty (sep t : string) (l : list string) :
  nonempty t = true -> nonempty (join sep (t :: l)) = true.
Proof.
  destruct t as [|c t]; [discriminate|]. intros _.
  destruct l; reflexivity.
Qed.

(** The family name: the tokens after the first joined by a space, or the
    whole name when there is none. *)
Lemma family_name (name t : string) (rest : list string) :
  split name = t :: rest ->
  str_or (join " " rest) (VStr name)
  = VStr (match rest with [] => name | _ => join " " rest end).
Proof.
  intros Hs. destruct rest as [|r rest]; [reflexivity|].
  pose proof (split_nonempty name) as Hne. rewrite Hs in Hne.
  inversion Hne as [|? ? _ Hrest]; subst.
  inversion Hrest as [|? ? Hr _]; subst.
  pose proof (join_nonempty " " r rest Hr) as Hj.
  unfold str_or. destruct (join " " (r :: rest)); [discriminate|reflexivity].
Qed.

Lemma custom_key_prefix (key : string) : startswith (custom_key key) "custom_" = true.
Proof.
  unfold custom_key. destruct (startswith key "custom_") eqn:E; cbn [negb].
  - exact E.
  - unfold startswith. cbn. repeat rewrite Ascii.eqb_refl. reflexivity.
Qed.

Lemma add_custom_get (params : dict value) (kv : string * value) (k : string) :
  startswith k "custom_" = false ->
  dict_get k (add_custom params kv) = dict_get k params.
Proof.
  intros Hk. unfold add_custom. apply dict_get_set_other.
  intros ->. rewrite custom_key_prefix in Hk. discriminate.
Qed.

Lemma fold_custom_get (cs : list (string * value)) (params : dict value) (k : string) :
  startswith k "custom_" = false ->
  dict_get k (fold_left add_custom cs params) = dict_get k params.
Proof.
  intros Hk. revert params.
  induction cs as [|kv cs IH]; intros params; cbn [fold_left]; [reflexivity|].
  rewrite IH. now apply add_custom_get.
Qed.

Lemma merge_custom_get (cp : option (dict value)) (params : dict value) (k : string) :
  startswith k "custom_" = false ->
  dict_get k (merge_custom cp params) = dict_get k params.
Proof.
  intros Hk. unfold merge_custom.
  destruct cp as [[|kv cs]|]; try reflexivity.
  now apply fold_custom_get.
Qed.

Lemma fixed_keys_not_custom (f : launch_fields) (k : string) :
  In k (keys (fixed_params f)) -> startswith k "custom_" = false.
Proof.
  intros Hin. cbn in Hin.
  repeat (destruct Hin as [<- | Hin]; [reflexivity|]).
  contradiction.
Qed.

Lemma fixed_keys_not_signature (f : launch_fields) (k : string) :
  In k (keys (fixed_params f)) -> k <> "oauth_signature".
Proof.
  intros Hin. cbn in Hin.
  repeat (destruct Hin as [<- | Hin]; [discriminate|]).
  contradiction.
Qed.

Section Builder.

Variables tool course user : dict value.
Variables resource_link_id resource_link_title launch_url outcomes_url : string.
Variable custom_params : option (dict value).
Variable now : Z.
Variable uuid : string.

Let fields := eval_fields tool course user resource_link_id resource_link_title
                outcomes_url now uuid.
Let built := build_lti_launch_params tool course user resource_link_id
               resource_link_title launch_url outcomes_url custom_params now uuid.

(** What the builder read when it got to the end of the literal. *)
Lemma eval_fields_inv (f : launch_fields) :
  fields = inr f ->
  exists (n t : string) (rest : list string),
    dict_get "role" user <> None /\
    dict_get "id" course = Some (f_context_id f) /\
    dict_get "id" user = Some (f_user_id f) /\
    dict_get "consumer_key" tool = Some (f_consumer_key f) /\
    dict_get "code" course = Some (f_context_label f) /\
    dict_get "name" course = Some (f_context_title f) /\
    dict_get "name" user = Some (VStr n) /\
    dict_get "email" user = Some (f_email f) /\
    split n = t :: rest /\
    f_given f = t /\
    f_family f = str_or (join " " rest) (VStr n) /\
    f_full f = VStr n.
Proof.
  unfold fields, eval_fields, getitem. intros H.
  destruct (dict_get "role" user) as [role|] eqn:Hrole; [|discriminate].
  destruct (dict_get "id" course) as [cid|] eqn:Hcid; [|discriminate].
  destruct (dict_get "id" user) as [uid|] eqn:Huid; [|discriminate].
  destruct (dict_get "consumer_key" tool) as [ck|] eqn:Hck; [|discriminate].
  destruct (dict_get "code" course) as [cc|] eqn:Hcc; [|discriminate].
  destruct (dict_get "name" course) as [cn|] eqn:Hcn; [|discriminate].
  destruct (dict_get "name" user) as [[n| |]|] eqn:Hn; try discriminate.
  cbn [bind ret raise split_value] in H.
  destruct (split n) as [|t rest] eqn:Hsplit; [discriminate|].
  cbn [bind ret raise first tl] in H.
  destruct (dict_get "email" user) as [em|] eqn:Hem;
    cbn [bind ret raise] in H; [|discriminate].
  inversion H; subst f; clear H. cbn.
  exists n, t, rest.
  repeat split; congruence.
Qed.

Lemma build_inv (params : dict value) :
  built = inr params ->
  exists (f : launch_fields) (secret : string),
    fields = inr f /\
    dict_get "consumer_secret" tool = Some (VStr secret) /\
    params = dict_set "oauth_signature"
               (VStr (generate_oauth_signature "POST" launch_url
                        (merge_custom custom_params (fixed_params f)) secret))
               (merge_custom custom_params (fixed_params f)).
Proof.
  unfold built, build_lti_launch_params. fold fields. intros H.
  destruct fields as [e|f]; [discriminate|].
  cbn [bind] in H. unfold getitem in H.
  destruct (dict_get "consumer_secret" tool) as [[secret| |]|]; try discriminate.
  cbn [bind ret secret_str] in H. inversion H; subst.
  exists f, secret. auto.
Qed.

(** A fixed parameter of the result is the one of the literal. *)
Lemma build_fixed_get (params : dict value) (f : launch_fields) (k : string) :
  fields = inr f ->
  built = inr params ->
  In k (keys (fixed_params f)) ->
  dict_get k params = dict_get k (fixed_params f).
Proof.
  intros Hf Hb Hin. apply build_inv in Hb.
  destruct Hb as [f' [secret [Hf' [_ ->]]]].
  rewrite Hf in Hf'. inversion Hf'; subst f'.
  rewrite dict_get_set_other.
  - apply merge_custom_get. now apply (fixed_keys_not_custom f).
  - now apply (fixed_keys_not_signature f).
Qed.

(** With every field present and a name that has a token, the builder
    returns. *)
Lemma build_returns (role cid uid ck cc cn em : value) (n secret t : string)
  (rest : list string) :
  dict_get "role" user = Some role ->
  dict_get "id" course = Some cid ->
  dict_get "id" user = Some uid ->
  dict_get "consumer_key" tool = Some ck ->
  dict_get "code" course = Some cc ->
  dict_get "name" course = Some cn ->
  dict_get "name" user = Some (VStr n) ->
  dict_get "email" user = Some em ->
  dict_get "consumer_secret" tool = Some (VStr secret) ->
  split n = t :: rest ->
  exists (f : launch_fields) (params : dict value),
    fields = inr f /\ built = inr params.
Proof.
  intros Hrole Hcid Huid Hck Hcc Hcn Hn Hem Hsec Hsplit.
  unfold built, build_lti_launch_params. fold fields.
  unfold fields, eval_fields, getitem.
  rewrite Hrole, Hcid, Huid, Hck, Hcc, Hcn, Hn, Hem, Hsec.
  cbn [bind ret split_value]. rewrite Hsplit.
  cbn [bind ret first secret_str]. eauto.
Qed.

End Builder.

Lemma fixed_given (f : launch_fields) :
  In "lis_person_name_given" (keys (fixed_params f)) /\
  dict_get "lis_person_name_given" (fixed_params f) = Some (VStr (f_given f)).
Proof. split; [cbn; tauto | reflexivity]. Qed.

Lemma fixed_family (f : launch_fields) :
  In "lis_person_name_family" (keys (fixed_params f)) /\
  dict_get "lis_person_name_family" (fixed_params f) = Some (f_family f).
Proof. split; [cbn; tauto | reflexivity]. Qed.



Lemma fixed_consumer_key (f : launch_fields) :
  In "oauth_consumer_key" (keys (fixed_params f)) /\
  dict_get "oauth_consumer_key" (fixed_params f) = Some (f_consumer_key f).
Proof. split; [cbn; tauto | reflexivity]. Qed.



(* ================================================================== *)
(** * C7: given and family name *)

(** C7.  When the dictionaries hold every field the builder reads and the
    name of the user splits at whitespace into a first token [t] and the
    tokens [rest], the builder returns parameters in which
    [lis_person_name_given] is [t] and [lis_person_name_family] is [rest]
    joined by one space, or the whole name when [rest] is empty. *)
Theorem given_and_family_names
  (tool course user : dict value)
  (resource_link_id resource_link_title launch_url outcomes_url : string)
  (custom_params : option (dict value)) (now : Z) (uuid : string)
  (role cid uid ck cc cn em : value) (name secret t : string)
  (rest : list string) :
  dict_get "role" user = Some role ->
  dict_get "id" course = Some cid ->
  dict_get "id" user = Some uid ->
  dict_get "consumer_key" tool = Some ck ->
  dict_get "code" course = Some cc ->
  dict_get "name" course = Some cn ->
  dict_get "name" user = Some (VStr name) ->
  dict_get "email" user = Some em ->
  dict_get "consumer_secret" tool = Some (VStr secret) ->
  split name = t :: rest ->
  exists params : dict value,
    build_lti_launch_params tool course user resource_link_id
      resource_link_title launch_url outcomes_url custom_params now uuid
    = inr params /\
    dict_get "lis_person_name_given" params = Some (VStr t) /\
    dict_get "lis_person_name_family" params
    = Some (VStr (match rest with
                  | [] => name
                  | _ => join " " rest
                  end)).
Proof.
  intros Hrole Hcid Huid Hck Hcc Hcn Hn Hem Hsec Hsplit.
  destruct (build_returns tool course user resource_link_id resource_link_title
              launch_url outcomes_url custom_params now uuid
              role cid uid ck cc cn em name secret t rest)
    as [f [params [Hf Hb]]]; try assumption.
  exists params. split; [exact Hb|].
  destruct (eval_fields_inv _ _ _ _ _ _ _ _ f Hf)
    as [n [t' [rest' [_ [_ [_ [_ [_ [_ [Hn' [_ [Hs [Hg [Hfam _]]]]]]]]]]]]]].
  rewrite Hn in Hn'. injection Hn' as Hname.
  rewrite <- Hname in Hs, Hfam.
  rewrite Hsplit in Hs. injection Hs as Ht Hr.
  rewrite <- Ht in Hg. rewrite <- Hr in Hfam.
  split.
  - rewrite (build_fixed_get _ _ _ _ _ _ _ _ _ _ params f _ Hf Hb
               (proj1 (fixed_given f))).
    rewrite (proj2 (fixed_given f)). now rewrite Hg.
  - rewrite (build_fixed_get _ _ _ _ _ _ _ _ _ _ params f _ Hf Hb
               (proj1 (fixed_family f))).
    rewrite (proj2 (fixed_family f)), Hfam.
    f_equal. now apply (family_name name t).
Qed.

Lemma given_and_family_names_witness :
  (exists params : dict value,
      build_lti_launch_params demo_tool demo_course
        (demo_user "Madonna" "madonna@example.edu")
        "rl-1" "Quiz" "http://localhost:8080/lti/launch"
        "http://localhost:8000/outcomes" None 1700000000
        "0b0e6f5c-7d0a-4c36-9a55-3f0f3c1d2e4a"
      = inr params /\
      dict_get "lis_person_name_given" params = Some (VStr "Madonna") /\
      dict_get "lis_person_name_family" params = Some (VStr "Madonna")) /\
  (exists params : dict value,
      build_lti_launch_params demo_tool demo_course
        (demo_user "Diana Prince" "diana.prince@example.edu")
        "rl-1" "Quiz" "http://localhost:8080/lti/launch"
        "http://localhost:8000/outcomes" None 1700000000
        "0b0e6f5c-7d0a-4c36-9a55-3f0f3c1d2e4a"
      = inr params /\
      dict_get "lis_person_name_given" params = Some (VStr "Diana") /\
      dict_get "lis_person_name_family" params = Some (VStr "Prince")).
Proof.
  split.
  - apply (given_and_family_names demo_tool demo_course
             (demo_user "Madonna" "madonna@example.edu")
             "rl-1" "Quiz" "http://localhost:8080/lti/launch"
             "http://localhost:8000/outcomes" None 1700000000
             "0b0e6f5c-7d0a-4c36-9a55-3f0f3c1d2e4a"
             (VStr "student") (VInt 7) (VInt 42) (VStr "test_key")
             (VStr "WEB201") (VStr "Web Development")
             (VStr "madonna@example.edu") "Madonna" "test_secret" "Madonna" []);
      reflexivity.
  - apply (given_and_family_names demo_tool demo_course
             (demo_user "Diana Prince" "diana.prince@example.edu")
             "rl-1" "Quiz" "http://localhost:8080/lti/launch"
             "http://localhost:8000/outcomes" None 1700000000
             "0b0e6f5c-7d0a-4c36-9a55-3f0f3c1d2e4a"
             (VStr "student") (VInt 7) (VInt 42) (VStr "test_key")
             (VStr "WEB201") (VStr "Web Development")
             (VStr "diana.prince@example.edu") "Diana Prince" "test_secret"
             "Diana" ["Prince"]);
      reflexivity.
Defined.

(* ================================================================== *)
(** * C8: missing and empty fields *)





(* ================================================================== *)
(** * C10: custom parameters leave the fixed parameters alone *)

(** C10.  Every custom entry is stored under a key that begins with
    [custom_]; no name of the dictionary literal begins with [custom_]; and
    in the parameters the builder returns, each name of the literal has the
    value the literal gave it from the tool, course and user data. *)
Theorem custom_params_keep_fixed_params
  (tool course user : dict value)
  (resource_link_id resource_link_title launch_url outcomes_url : string)
  (custom_params : option (dict value)) (now : Z) (uuid : string)
  (f : launch_fields) (params : dict value) :
  eval_fields tool course user resource_link_id resource_link_title
    outcomes_url now uuid = inr f ->
  build_lti_launch_params tool course user resource_link_id
    resource_link_title launch_url outcomes_url custom_params now uuid
  = inr params ->
  (forall key : string, startswith (custom_key key) "custom_" = true) /\
  (forall k : string,
      In k (keys (fixed_params f)) -> startswith k "custom_" = false) /\
  (forall k : string,
      In k (keys (fixed_params f)) ->
      dict_get k params = dict_get k (fixed_params f)).
Proof.
  intros Hf Hb. split; [|split].
  - apply custom_key_prefix.
  - apply fixed_keys_not_custom.
  - intros k Hin.
    now apply (build_fixed_get tool course user resource_link_id
                 resource_link_title launch_url outcomes_url custom_params
                 now uuid params f k).
Qed.

Lemma custom_params_keep_fixed_params_witness :
  exists (f : launch_fields) (params : dict value),
    eval_fields demo_tool demo_course
      (demo_user "Diana Prince" "diana.prince@example.edu")
      "rl-1" "Quiz" "http://localhost:8000/outcomes" 1700000000
      "0b0e6f5c-7d0a-4c36-9a55-3f0f3c1d2e4a" = inr f /\
    build_lti_launch_params demo_tool demo_course
      (demo_user "Diana Prince" "diana.prince@example.edu")
      "rl-1" "Quiz" "http://localhost:8080/lti/launch"
      "http://localhost:8000/outcomes"
      (Some [("roles", VStr "Administrator"); ("custom_level", VStr "3")])
      1700000000 "0b0e6f5c-7d0a-4c36-9a55-3f0f3c1d2e4a" = inr params /\
    dict_get "roles" params = dict_get "roles" (fixed_params f).
Proof.
  destruct (build_returns demo_tool demo_course
              (demo_user "Diana Prince" "diana.prince@example.edu")
              "rl-1" "Quiz" "http://localhost:8080/lti/launch"
              "http://localhost:8000/outcomes"
              (Some [("roles", VStr "Administrator"); ("custom_level", VStr "3")])
              1700000000 "0b0e6f5c-7d0a-4c36-9a55-3f0f3c1d2e4a"
              (VStr "student") (VInt 7) (VInt 42) (VStr "test_key")
              (VStr "WEB201") (VStr "Web Development")
              (VStr "diana.prince@example.edu") "Diana Prince" "test_secret"
              "Diana" ["Prince"])
    as [f [params [Hf Hb]]]; try reflexivity.
  exists f, params. split; [exact Hf|]. split; [exact Hb|].
  apply (custom_params_keep_fixed_params _ _ _ _ _ _ _ _ _ _ f params Hf Hb).
  cbn. tauto.
Defined.

(* ================================================================== *)
(** * C9: the grade push when the outcomes URL cannot be reached *)

(** The part of the claim that holds.  For a stored launch with an outcomes
    URL and a sourced id, the tool sends one request.  When the request
    raises (connection failure, timeout), the endpoint answers with an
    [HTTPException] of status 500 whose detail carries the text of the
    exception; when a response with a status other than 200 comes back, it
    answers with the failure page, which carries the text of the response
    as it is, provided [int(score * 100)] can be rendered.  In each case
    exactly one request has been sent. *)
Lemma grade_push_failure
  (score_t : Type) (score_repr : score_t -> string)
  (score_percent : score_t -> string + Z) (post : request -> post_result)
  (launches : dict (dict value)) (launch_id : string) (score : score_t)
  (message_id : string) (params : dict value) (url sid : value) :
  dict_get launch_id launches = Some params ->
  dict_get "lis_outcome_service_url" params = Some url ->
  dict_get "lis_result_sourcedid" params = Some sid ->
  falsy (Some url) = false ->
  falsy (Some sid) = false ->
  let req := {| req_url := str url;
                req_content := xml_payload message_id (str sid) (score_repr score);
                req_content_type := "application/xml" |} in
  let answer :=
    send_grade score_t score_repr score_percent post launches launch_id score
      message_id in
  (forall e : string,
      post req = PostRaises e ->
      answer = (HTTPException 500 ("Failed to send grade: " ++ e), [req])) /\
  (forall (status : Z) (text : string),
      post req = PostResponse status text ->
      status <> 200 ->
      answer =
      (match score_percent score with
       | inr pct => GradePage false (score_repr score) pct (str url) text
       | inl e => HTTPException 500 ("Failed to send grade: " ++ e)
       end, [req])).
Proof.
  intros Hl Hu Hs Fu Fs req answer.
  unfold answer, send_grade. rewrite Hl, Hu, Hs, Fu, Fs. cbn [orb].
  fold req. split.
  - intros e He. now rewrite He.
  - intros status text Hp Hne. rewrite Hp.
    apply Z.eqb_neq in Hne. rewrite Hne. cbn [andb].
    destruct (score_percent score); reflexivity.
Qed.

Lemma grade_push_failure_witness :
  send_grade Z decimal (fun z => inr z)
    (fun _ => PostRaises "All connection attempts failed")
    [("launch-1",
      [("lis_outcome_service_url", VStr "http://localhost:9/outcomes");
       ("lis_result_sourcedid", VStr "NzpybC0xOjQy")])]
    "launch-1" 85 "msg-1"
  = (HTTPException 500 "Failed to send grade: All connection attempts failed",
     [{| req_url := "http://localhost:9/outcomes";
         req_content := xml_payload "msg-1" "NzpybC0xOjQy" (decimal 85);
         req_content_type := "application/xml" |}]).
Proof.
  assert (Hl : dict_get "launch-1"
                 [("launch-1",
                   [("lis_outcome_service_url", VStr "http://localhost:9/outcomes");
                    ("lis_result_sourcedid", VStr "NzpybC0xOjQy")])]
               = Some [("lis_outcome_service_url", VStr "http://localhost:9/outcomes");
                       ("lis_result_sourcedid", VStr "NzpybC0xOjQy")])
    by reflexivity.
  assert (Hu : dict_get "lis_outcome_service_url"
                 [("lis_outcome_service_url", VStr "http://localhost:9/outcomes");
                  ("lis_result_sourcedid", VStr "NzpybC0xOjQy")]
               = Some (VStr "http://localhost:9/outcomes")) by reflexivity.
  assert (Hs : dict_get "lis_result_sourcedid"
                 [("lis_outcome_service_url", VStr "http://localhost:9/outcomes");
                  ("lis_result_sourcedid", VStr "NzpybC0xOjQy")]
               = Some (VStr "NzpybC0xOjQy")) by reflexivity.
  assert (Fu : falsy (Some (VStr "http://localhost:9/outcomes")) = false)
    by reflexivity.
  assert (Fs : falsy (Some (VStr "NzpybC0xOjQy")) = false) by reflexivity.
  apply (proj1 (grade_push_failure Z decimal (fun z => inr z)
                  (fun _ => PostRaises "All connection attempts failed")
                  _ "launch-1" 85 "msg-1" _ _ _ Hl Hu Hs Fu Fs)).
  reflexivity.
Defined.

(** C9.  The failing case.  For a stored launch with an outcomes URL and a
    sourced id and a score for which [int(score * 100)] raises (a NaN or an
    infinity, which the form field accepts), the request is sent once, and
    whatever response comes back, with whatever status, the endpoint
    answers with the [HTTPException] of status 500 that carries the message
    of the conversion: the status and the text of the response are lost. *)
Theorem unrenderable_score_loses_the_response
  (score_t : Type) (score_repr : score_t -> string)
  (score_percent : score_t -> string + Z) (post : request -> post_result)
  (launches : dict (dict value)) (launch_id : string) (score : score_t)
  (message_id : string) (params : dict value) (url sid : value)
  (e : string) (status : Z) (text : string) :
  dict_get launch_id launches = Some params ->
  dict_get "lis_outcome_service_url" params = Some url ->
  dict_get "lis_result_sourcedid" params = Some sid ->
  falsy (Some url) = false ->
  falsy (Some sid) = false ->
  score_percent score = inl e ->
  let req := {| req_url := str url;
                req_content := xml_payload message_id (str sid) (score_repr score);
                req_content_type := "application/xml" |} in
  post req = PostResponse status text ->
  send_grade score_t score_repr score_percent post launches launch_id score
    message_id
  = (HTTPException 500 ("Failed to send grade: " ++ e), [req]).
Proof.
  intros Hl Hu Hs Fu Fs He req Hp.
  unfold send_grade. rewrite Hl, Hu, Hs, Fu, Fs. cbn [orb].
  fold req. now rewrite Hp, He.
Qed.

Lemma unrenderable_score_loses_the_response_witness :
  send_grade form_score form_score_repr form_score_percent
    (fun _ => PostResponse 503 "Service Unavailable: outcomes store is down")
    [("launch-1",
      [("lis_outcome_service_url", VStr "http://localhost:8000/outcomes");
       ("lis_result_sourcedid", VStr "NzpybC0xOjQy")])]
    "launch-1" NaN "msg-1"
  = (HTTPException 500 "Failed to send grade: cannot convert float NaN to integer",
     [{| req_url := "http://localhost:8000/outcomes";
         req_content := xml_payload "msg-1" "NzpybC0xOjQy" "nan";
         req_content_type := "application/xml" |}]).
Proof.
  apply (unrenderable_score_loses_the_response form_score form_score_repr
           form_score_percent
           (fun _ => PostResponse 503 "Service Unavailable: outcomes store is down")
           [("launch-1",
             [("lis_outcome_service_url", VStr "http://localhost:8000/outcomes");
              ("lis_result_sourcedid", VStr "NzpybC0xOjQy")])]
           "launch-1" NaN "msg-1"
           [("lis_outcome_service_url", VStr "http://localhost:8000/outcomes");
            ("lis_result_sourcedid", VStr "NzpybC0xOjQy")]
           (VStr "http://localhost:8000/outcomes") (VStr "NzpybC0xOjQy")
           "cannot convert float NaN to integer" 503
           "Service Unavailable: outcomes store is down");
    reflexivity.
Defined.

(* ================================================================== *)
(** * The signature and the order of the parameters *)

Lemma string_leb_trans (s t u : string) :
  String.leb s t = true -> String.leb t u = true -> String.leb s u = true.
Proof.
  unfold String.leb. revert t u.
  induction s as [|a s IH]; intros [|b t] [|c u]; cbn [String.compare];
    try discriminate; try reflexivity.
  unfold Ascii.compare.
  destruct (N.compare_spec (N_of_ascii a) (N_of_ascii b));
    destruct (N.compare_spec (N_of_ascii b) (N_of_ascii c));
    destruct (N.compare_spec (N_of_ascii a) (N_of_ascii c));
    try lia; try discriminate; try reflexivity.
  apply IH.
Qed.

Lemma sorted_items_strongly (d : dict value) :
  StronglySorted (fun a b => String.leb (fst a) (fst b) = true) (sorted_items d).
Proof.
  apply Sorted_StronglySorted; [|apply sorted_items_sorted].
  intros a b c. apply string_leb_trans.
Qed.

Lemma perm_keys {V : Type} (p q : dict V) : Permutation p q -> Permutation (keys p) (keys q).
Proof. apply Permutation_map. Qed.

Lemma wf_dict_perm {V : Type} (p q : dict V) : Permutation p q -> wf_dict p -> wf_dict q.
Proof.
  unfold wf_dict. intros H. apply Permutation_NoDup. now apply perm_keys.
Qed.

(** Two sorted lists of items with distinct keys that hold the same items
    are the same list. *)
Lemma sorted_perm_eq (l1 : list (string * value)) :
  forall l2,
    StronglySorted (fun a b => String.leb (fst a) (fst b) = true) l1 ->
    StronglySorted (fun a b => String.leb (fst a) (fst b) = true) l2 ->
    wf_dict l1 ->
    Permutation l1 l2 ->
    l1 = l2.
Proof.
  induction l1 as [|a l1 IH]; intros l2 S1 S2 Hwf Hp.
  - apply Permutation_nil in Hp. now subst.
  - destruct l2 as [|b l2].
    { apply Permutation_sym, Permutation_nil in Hp. discriminate. }
    inversion S1 as [|? ? S1' F1]; subst.
    inversion S2 as [|? ? S2' F2]; subst.
    assert (Hab : a = b).
    { assert (Ha : In a (b :: l2)) by (apply (Permutation_in _ Hp); now left).
      assert (Hb : In b (a :: l1))
        by (apply (Permutation_in _ (Permutation_sym Hp)); now left).
      destruct Ha as [Ha | Ha]; [now subst|].
      destruct Hb as [Hb | Hb]; [now subst|].
      rewrite Forall_forall in F1, F2.
      pose proof (F1 b Hb) as L1. pose proof (F2 a Ha) as L2.
      pose proof (String.leb_antisym _ _ L1 L2) as Hk.
      exfalso. unfold wf_dict in Hwf. cbn in Hwf.
      inversion Hwf as [|? ? Hnotin _]; subst. apply Hnotin.
      rewrite Hk. apply in_map_iff. now exists b. }
    subst b. f_equal.
    apply IH; try assumption.
    + unfold wf_dict in *. cbn in Hwf. now inversion Hwf.
    + now apply Permutation_cons_inv in Hp.
Qed.

Lemma sorted_items_perm_eq (p q : dict value) :
  wf_dict p -> Permutation p q -> sorted_items p = sorted_items q.
Proof.
  intros Hwf Hp. apply sorted_perm_eq; try apply sorted_items_strongly.
  - apply (wf_dict_perm p); [|assumption].
    apply Permutation_sym, sorted_items_perm.
  - rewrite sorted_items_perm, Hp. apply Permutation_sym, sorted_items_perm.
Qed.

(** X1.  The signature does not depend on the order in which the
    parameters were put into the dictionary. *)
Theorem signature_ignores_insertion_order
  (method url : string) (p q : dict value) (consumer_secret : string) :
  wf_dict p ->
  Permutation p q ->
  generate_oauth_signature method url p consumer_secret
  = generate_oauth_signature method url q consumer_secret.
Proof.
  intros Hwf Hp.
  unfold generate_oauth_signature, signature_base, param_string.
  now rewrite (sorted_items_perm_eq p q Hwf Hp).
Qed.

Lemma signature_ignores_insertion_order_witness :
  generate_oauth_signature "POST" "http://localhost:8080/lti/launch"
    [("b", VStr "2"); ("a", VStr "1")] "s3cr&t"
  = generate_oauth_signature "POST" "http://localhost:8080/lti/launch"
      [("a", VStr "1"); ("b", VStr "2")] "s3cr&t".
Proof.
  apply (signature_ignores_insertion_order "POST"
           "http://localhost:8080/lti/launch"
           [("b", VStr "2"); ("a", VStr "1")] [("a", VStr "1"); ("b", VStr "2")]
           "s3cr&t").
  - apply distinct_wf. reflexivity.
  - apply perm_swap.
Defined.

Lemma encode_item_norm (a b : string * value) :
  encode_item a = encode_item b -> norm_item a = norm_item b.
Proof.
  intros H. apply encode_item_inj in H. destruct H as [H1 H2].
  unfold norm_item. now rewrite H1, H2.
Qed.

Lemma map_encode_norm (l1 : list (string * value)) :
  forall l2,
    map encode_item l1 = map encode_item l2 -> map norm_item l1 = map norm_item l2.
Proof.
  induction l1 as [|a l1 IH]; intros [|b l2] H; cbn [map] in *;
    try discriminate; [reflexivity|].
  inversion H as [[Hh Ht]]. f_equal; [now apply encode_item_norm | now apply IH].
Qed.

(** X2.  The signature base string determines what is signed: two
    requests with the same base string have the same upper-cased method, the
    same URL and the same parameters, up to their order and up to [str] of
    the values. *)
Theorem base_string_determines_request
  (method url method' url' : string) (p p' : dict value) :
  signature_base method' url' p' = signature_base method url p ->
  upper method' = upper method /\
  url' = url /\
  Permutation (map norm_item p') (map norm_item p).
Proof.
  intros H. apply signature_base_inj in H. destruct H as [Hm [Hu Hp]].
  repeat split; try assumption.
  apply param_string_inj, map_encode_norm in Hp.
  rewrite <- (Permutation_map norm_item (sorted_items_perm p')).
  rewrite Hp. apply Permutation_map, sorted_items_perm.
Qed.

Lemma base_string_determines_request_witness :
  upper "post" = upper "POST" /\
  "http://localhost:8080/lti/launch" = "http://localhost:8080/lti/launch" /\
  Permutation (map norm_item [("b", VInt 2); ("a", VStr "1")])
              (map norm_item [("a", VStr "1"); ("b", VStr "2")]).
Proof.
  apply (base_string_determines_request "POST" "http://localhost:8080/lti/launch"
           "post" "http://localhost:8080/lti/launch"
           [("a", VStr "1"); ("b", VStr "2")] [("b", VInt 2); ("a", VStr "1")]).
  vm_compute. reflexivity.
Defined.

(** X3.  What the verifier accepts: for an ASCII received signature, it
    returns [True] exactly when the received signature is the one generated
    over the parameters other than [oauth_signature], and [False] otherwise;
    for a received signature with a non-ASCII character it raises
    [TypeError]. *)
Theorem verifier_accepts_exactly_the_generated_signature
  (method url : string) (params : dict value)
  (consumer_secret received : string) :
  let expected :=
    generate_oauth_signature method url (strip_signature params) consumer_secret in
  (is_ascii received = true ->
   (received = expected ->
    verify_oauth_signature method url params consumer_secret received = inr true) /\
   (received <> expected ->
    verify_oauth_signature method url params consumer_secret received = inr false)) /\
  (is_ascii received = false ->
   verify_oauth_signature method url params consumer_secret received
   = inl TypeError).
Proof.
  intros expected. split.
  - intros Ha. rewrite verify_result by assumption. fold expected. split.
    + intros ->. now rewrite String.eqb_refl.
    + intros Hne. f_equal. apply String.eqb_neq. congruence.
  - intros Ha. rewrite verify_unfold. unfold compare_digest.
    rewrite Ha. now rewrite andb_false_r.
Qed.

Lemma verifier_accepts_exactly_the_generated_signature_witness :
  verify_oauth_signature "POST" "http://localhost:8080/lti/launch"
    sample_params "s3cr&t" "AAAAAAAAAAAAAAAAAAAAAAAAAAA="
  = inr false.
Proof.
  apply (proj1 (verifier_accepts_exactly_the_generated_signature
                  "POST" "http://localhost:8080/lti/launch" sample_params
                  "s3cr&t" "AAAAAAAAAAAAAAAAAAAAAAAAAAA=")).
  - reflexivity.
  - vm_compute. discriminate.
Defined.

(* ================================================================== *)
(** * More on the launch parameter builder *)

Lemma decimal_uint_chars (d : Decimal.uint) :
  all_chars decimal_char (NilEmpty.string_of_uint d) = true.
Proof.
  induction d; cbn [NilEmpty.string_of_uint all_chars]; try rewrite IHd;
    reflexivity.
Qed.

Lemma decimal_chars (z : Z) : all_chars decimal_char (decimal z) = true.
Proof.
  unfold decimal, NilZero.string_of_int, NilZero.string_of_uint.
  destruct (Z.to_int z) as [d|d]; destruct d; cbn [all_chars];
    try reflexivity;
    rewrite ?(decimal_uint_chars (Decimal.D0 _)), ?(decimal_uint_chars (Decimal.D1 _)),
      ?(decimal_uint_chars (Decimal.D2 _)), ?(decimal_uint_chars (Decimal.D3 _)),
      ?(decimal_uint_chars (Decimal.D4 _)), ?(decimal_uint_chars (Decimal.D5 _)),
      ?(decimal_uint_chars (Decimal.D6 _)), ?(decimal_uint_chars (Decimal.D7 _)),
      ?(decimal_uint_chars (Decimal.D8 _)), ?(decimal_uint_chars (Decimal.D9 _));
    reflexivity.
Qed.

Lemma decimal_char_plain (c : ascii) :
  decimal_char c = true ->
  (code c <? 128) = true /\ negb (Ascii.eqb c ":") = true.
Proof.
  unfold decimal_char, is_digit, in_range. intros H.
  apply orb_true_iff in H. destruct H as [H | H].
  - split.
    + bool_arith.
    + apply negb_true_iff, Ascii.eqb_neq. intros ->. vm_compute in H. discriminate.
  - apply Ascii.eqb_eq in H. subst c. split; reflexivity.
Qed.

Lemma decimal_ascii (z : Z) : is_ascii (decimal z) = true.
Proof.
  apply (all_chars_impl decimal_char); [|apply decimal_chars].
  intros c Hc. now apply decimal_char_plain.
Qed.

Lemma decimal_no_colon (z : Z) : no_char ":" (decimal z) = true.
Proof.
  apply (all_chars_impl decimal_char); [|apply decimal_chars].
  intros c Hc. now apply decimal_char_plain.
Qed.

Lemma fold_custom_untouched (cs : list (string * value)) (params : dict value)
  (x : string) :
  ~ In x (map (fun kv => custom_key (fst kv)) cs) ->
  dict_get x (fold_left add_custom cs params) = dict_get x params.
Proof.
  revert params. induction cs as [|kv cs IH]; intros params Hx; [reflexivity|].
  cbn [fold_left]. rewrite IH.
  - unfold add_custom. apply dict_get_set_other.
    intros ->. apply Hx. now left.
  - intros Hin. apply Hx. now right.
Qed.

Lemma fold_custom_stored (cs : list (string * value)) (params : dict value)
  (k : string) (v : value) :
  NoDup (map (fun kv => custom_key (fst kv)) cs) ->
  In (k, v) cs ->
  dict_get (custom_key k) (fold_left add_custom cs params) = Some v.
Proof.
  revert params. induction cs as [|kv cs IH]; intros params Hnd Hin; [contradiction|].
  cbn [map] in Hnd. inversion Hnd as [|? ? Hnotin Hnd']; subst.
  cbn [fold_left]. destruct Hin as [-> | Hin].
  - rewrite fold_custom_untouched by exact Hnotin.
    unfold add_custom. cbn [fst snd]. apply dict_get_set_same.
  - now apply IH.
Qed.

Lemma merge_custom_stored (cs params : dict value) (k : string) (v : value) :
  NoDup (map (fun kv => custom_key (fst kv)) cs) ->
  In (k, v) cs ->
  dict_get (custom_key k) (merge_custom (Some cs) params) = Some v.
Proof.
  intros Hnd Hin. unfold merge_custom.
  destruct cs as [|kv cs]; [contradiction|].
  now apply fold_custom_stored.
Qed.

Lemma merged_has_no_signature (cp : option (dict value)) (f : launch_fields) :
  dict_get "oauth_signature" (merge_custom cp (fixed_params f)) = None.
Proof. rewrite merge_custom_get; reflexivity. Qed.

Section BuilderResult.

Variables tool course user : dict value.
Variables resource_link_id resource_link_title launch_url outcomes_url : string.
Variable custom_params : option (dict value).
Variable now : Z.
Variable uuid : string.

Let fields := eval_fields tool course user resource_link_id resource_link_title
                outcomes_url now uuid.
Let built := build_lti_launch_params tool course user resource_link_id
               resource_link_title launch_url outcomes_url custom_params now uuid.

(** The fields that do not come from the name of the user. *)
Lemma eval_fields_rest (f : launch_fields) :
  fields = inr f ->
  exists role : value,
    dict_get "role" user = Some role /\
    f_lti_role f
    = (if value_eqb role (VStr "teacher") then "Instructor" else "Learner") /\
    f_sourced_id f
    = encode_sourced_id (str (f_context_id f)) resource_link_id (str (f_user_id f)) /\
    f_timestamp f = decimal now /\
    f_nonce f = uuid /\
    f_resource_link_id f = resource_link_id /\
    f_resource_link_title f = resource_link_title /\
    f_outcomes_url f = outcomes_url.
Proof.
  unfold fields, eval_fields, getitem. intros H.
  destruct (dict_get "role" user) as [role|] eqn:Hrole; [|discriminate].
  destruct (dict_get "id" course) as [cid|] eqn:Hcid; [|discriminate].
  destruct (dict_get "id" user) as [uid|] eqn:Huid; [|discriminate].
  destruct (dict_get "consumer_key" tool) as [ck|] eqn:Hck; [|discriminate].
  destruct (dict_get "code" course) as [cc|] eqn:Hcc; [|discriminate].
  destruct (dict_get "name" course) as [cn|] eqn:Hcn; [|discriminate].
  destruct (dict_get "name" user) as [[n| |]|] eqn:Hn; try discriminate.
  cbn [bind ret raise split_value] in H.
  destruct (split n) as [|t rest] eqn:Hsplit; [discriminate|].
  cbn [bind ret raise first tl] in H.
  destruct (dict_get "email" user) as [em|] eqn:Hem;
    cbn [bind ret raise] in H; [|discriminate].
  inversion H; subst f; clear H. cbn.
  exists role. repeat split; reflexivity.
Qed.

(** The result is the merged parameters followed by the signature over
    them. *)
Lemma build_shape (params : dict value) :
  built = inr params ->
  exists (f : launch_fields) (secret : string),
    fields = inr f /\
    dict_get "consumer_secret" tool = Some (VStr secret) /\
    params
    = (merge_custom custom_params (fixed_params f)
       ++ [("oauth_signature",
            VStr (generate_oauth_signature "POST" launch_url
                    (merge_custom custom_params (fixed_params f)) secret))])%list.
Proof.
  intros Hb. destruct (build_inv _ _ _ _ _ _ _ _ _ _ params Hb)
    as [f [secret [Hf [Hsec ->]]]].
  exists f, secret. repeat split; try assumption.
  apply keys_dict_set_absent, merged_has_no_signature.
Qed.

End BuilderResult.

(** X4.  In the parameters the builder returns, [oauth_signature] is the
    last item, the items before it hold no [oauth_signature], and its value
    is the signature of exactly those items for the method POST, the launch
    URL and the consumer secret of the tool. *)
Theorem signature_is_last_and_covers_the_rest
  (tool course user : dict value)
  (resource_link_id resource_link_title launch_url outcomes_url : string)
  (custom_params : option (dict value)) (now : Z) (uuid : string)
  (params : dict value) (secret : string) :
  build_lti_launch_params tool course user resource_link_id
    resource_link_title launch_url outcomes_url custom_params now uuid
  = inr params ->
  dict_get "consumer_secret" tool = Some (VStr secret) ->
  exists signed : dict value,
    params
    = (signed ++ [("oauth_signature",
                   VStr (generate_oauth_signature "POST" launch_url signed secret))])%list /\
    dict_get "oauth_signature" signed = None /\
    strip_signature params = signed.
Proof.
  intros Hb Hsec.
  destruct (build_shape _ _ _ _ _ _ _ _ _ _ params Hb)
    as [f [secret' [Hf [Hsec' ->]]]].
  rewrite Hsec in Hsec'. injection Hsec' as <-.
  exists (merge_custom custom_params (fixed_params f)).
  split; [reflexivity|]. split; [apply merged_has_no_signature|].
  rewrite strip_signature_app, strip_signature_absent
    by apply merged_has_no_signature.
  cbn. apply app_nil_r.
Qed.

(** X5.  A launch the builder returns verifies: the verifier of the tool,
    given the method POST (in any letter case), the launch URL, the returned
    parameters, the consumer secret of the tool and the [oauth_signature]
    parameter, returns [True]. *)
Theorem built_launch_verifies
  (tool course user : dict value)
  (resource_link_id resource_link_title launch_url outcomes_url : string)
  (custom_params : option (dict value)) (now : Z) (uuid : string)
  (params : dict value) (secret method : string) :
  build_lti_launch_params tool course user resource_link_id
    resource_link_title launch_url outcomes_url custom_params now uuid
  = inr params ->
  dict_get "consumer_secret" tool = Some (VStr secret) ->
  upper method = "POST" ->
  exists signature : string,
    dict_get "oauth_signature" params = Some (VStr signature) /\
    verify_oauth_signature method launch_url params secret signature = inr true.
Proof.
  intros Hb Hsec Hm.
  destruct (build_inv _ _ _ _ _ _ _ _ _ _ params Hb)
    as [f [secret' [Hf [Hsec' ->]]]].
  rewrite Hsec in Hsec'. injection Hsec' as <-.
  eexists. split; [apply dict_get_set_same|].
  rewrite verify_result by apply b64encode_ascii.
  rewrite strip_signature_set by apply merged_has_no_signature.
  rewrite generate_eqb. unfold signature_base. rewrite Hm.
  change (upper "POST") with "POST". now rewrite String.eqb_refl.
Qed.

Lemma demo_launch_returns (custom_params : option (dict value)) :
  exists params : dict value, demo_launch custom_params = inr params.
Proof.
  unfold demo_launch.
  destruct (build_returns demo_tool demo_course
              (demo_user "Diana Prince" "diana.prince@example.edu")
              "rl-1" "Quiz" "http://localhost:8080/lti/launch"
              "http://localhost:8000/outcomes" custom_params
              1700000000 "0b0e6f5c-7d0a-4c36-9a55-3f0f3c1d2e4a"
              (VStr "student") (VInt 7) (VInt 42) (VStr "test_key")
              (VStr "WEB201") (VStr "Web Development")
              (VStr "diana.prince@example.edu") "Diana Prince" "test_secret"
              "Diana" ["Prince"])
    as [f [params [Hf Hb]]]; try reflexivity.
  now exists params.
Qed.

Lemma signature_is_last_and_covers_the_rest_witness :
  exists params signed : dict value,
    demo_launch None = inr params /\
    params
    = (signed ++ [("oauth_signature",
                   VStr (generate_oauth_signature "POST"
                           "http://localhost:8080/lti/launch" signed
                           "test_secret"))])%list /\
    dict_get "oauth_signature" signed = None /\
    strip_signature params = signed.
Proof.
  destruct (demo_launch_returns None) as [params Hb].
  destruct (signature_is_last_and_covers_the_rest _ _ _ _ _ _ _ _ _ _
              params "test_secret" Hb) as [signed H]; [reflexivity|].
  exists params, signed. split; [exact Hb | exact H].
Defined.

Lemma built_launch_verifies_witness :
  exists (params : dict value) (signature : string),
    demo_launch None = inr params /\
    dict_get "oauth_signature" params = Some (VStr signature) /\
    verify_oauth_signature "POST" "http://localhost:8080/lti/launch" params
      "test_secret" signature = inr true.
Proof.
  destruct (demo_launch_returns None) as [params Hb].
  destruct (built_launch_verifies _ _ _ _ _ _ _ _ _ _
              params "test_secret" "POST" Hb) as [signature H];
    [reflexivity | reflexivity |].
  exists params, signature. split; [exact Hb | exact H].
Defined.

Lemma fixed_roles (f : launch_fields) :
  In "roles" (keys (fixed_params f)) /\
  dict_get "roles" (fixed_params f) = Some (VStr (f_lti_role f)).
Proof. split; [cbn; tauto | reflexivity]. Qed.

Lemma fixed_sourced_id (f : launch_fields) :
  In "lis_result_sourcedid" (keys (fixed_params f)) /\
  dict_get "lis_result_sourcedid" (fixed_params f) = Some (VStr (f_sourced_id f)).
Proof. split; [cbn; tauto | reflexivity]. Qed.

(** X6.  The role of the launch: [Instructor] for a user whose role is
    [teacher], [Learner] for every other role. *)
Theorem role_is_instructor_for_teachers_only
  (tool course user : dict value)
  (resource_link_id resource_link_title launch_url outcomes_url : string)
  (custom_params : option (dict value)) (now : Z) (uuid : string)
  (params : dict value) (role : value) :
  build_lti_launch_params tool course user resource_link_id
    resource_link_title launch_url outcomes_url custom_params now uuid
  = inr params ->
  dict_get "role" user = Some role ->
  (role = VStr "teacher" -> dict_get "roles" params = Some (VStr "Instructor")) /\
  (role <> VStr "teacher" -> dict_get "roles" params = Some (VStr "Learner")).
Proof.
  intros Hb Hrole.
  destruct (build_inv _ _ _ _ _ _ _ _ _ _ params Hb) as [f [secret [Hf _]]].
  destruct (eval_fields_rest _ _ _ _ _ _ _ _ f Hf) as [role' [Hrole' [Hl _]]].
  rewrite Hrole in Hrole'. injection Hrole' as <-.
  rewrite (build_fixed_get _ _ _ _ _ _ _ _ _ _ params f _ Hf Hb
             (proj1 (fixed_roles f))).
  rewrite (proj2 (fixed_roles f)), Hl. split.
  - intros ->. reflexivity.
  - intros Hne. destruct (value_eqb role (VStr "teacher")) eqn:E; [|reflexivity].
    exfalso. apply Hne. destruct role as [s| |]; try discriminate.
    cbn in E. apply String.eqb_eq in E. now subst.
Qed.

Lemma role_is_instructor_for_teachers_only_witness :
  exists params : dict value,
    demo_launch None = inr params /\
    dict_get "roles" params = Some (VStr "Learner").
Proof.
  destruct (demo_launch_returns None) as [params Hb].
  exists params. split; [exact Hb|].
  apply (proj2 (role_is_instructor_for_teachers_only _ _ _ _ _ _ _ _ _ _
                  params (VStr "student") Hb eq_refl)).
  discriminate.
Defined.

(** The sourced id of a launch decodes to the three texts it was made of. *)
Lemma decode_encode_sourced_id (c r u : string) :
  is_ascii c = true -> is_ascii r = true -> is_ascii u = true ->
  no_char ":" c = true -> no_char ":" r = true -> no_char ":" u = true ->
  decode_sourced_id (encode_sourced_id c r u) = inr [c; r; u].
Proof.
  intros Ac Ar Au Nc Nr Nu.
  unfold decode_sourced_id, encode_sourced_id.
  rewrite b64decode_b64encode. cbn [bind].
  unfold decode_utf8. rewrite utf8_valid_ascii.
  - cbn [bind ret]. f_equal.
    change (":" ++ r ++ ":" ++ u) with (String ":" (r ++ String ":" u)).
    rewrite !split_on_field by assumption.
    now rewrite split_on_whole by assumption.
  - unfold is_ascii in *. rewrite !all_chars_app, Ac, Ar, Au. reflexivity.
Qed.

(** X7.  For a course and a user with integer ids, as the tables have
    them, and an ASCII resource link id without a colon, the
    [lis_result_sourcedid] of the launch decodes, the way the outcomes
    endpoint decodes it, to the course id, the resource link id and the user
    id in decimal. *)
Theorem launch_sourced_id_names_course_link_and_user
  (tool course user : dict value)
  (resource_link_id resource_link_title launch_url outcomes_url : string)
  (custom_params : option (dict value)) (now : Z) (uuid : string)
  (params : dict value) (course_id user_id : Z) :
  build_lti_launch_params tool course user resource_link_id
    resource_link_title launch_url outcomes_url custom_params now uuid
  = inr params ->
  dict_get "id" course = Some (VInt course_id) ->
  dict_get "id" user = Some (VInt user_id) ->
  is_ascii resource_link_id = true ->
  no_char ":" resource_link_id = true ->
  exists sourced_id : string,
    dict_get "lis_result_sourcedid" params = Some (VStr sourced_id) /\
    decode_sourced_id sourced_id
    = inr [decimal course_id; resource_link_id; decimal user_id].
Proof.
  intros Hb Hc Hu Ha Hn.
  destruct (build_inv _ _ _ _ _ _ _ _ _ _ params Hb) as [f [secret [Hf _]]].
  destruct (eval_fields_rest _ _ _ _ _ _ _ _ f Hf) as [role [_ [_ [Hsid _]]]].
  destruct (eval_fields_inv _ _ _ _ _ _ _ _ f Hf)
    as [n [t [rest [_ [Hcid [Huid _]]]]]].
  rewrite Hc in Hcid. injection Hcid as Hcid.
  rewrite Hu in Huid. injection Huid as Huid.
  exists (f_sourced_id f). split.
  - rewrite (build_fixed_get _ _ _ _ _ _ _ _ _ _ params f _ Hf Hb
               (proj1 (fixed_sourced_id f))).
    apply (proj2 (fixed_sourced_id f)).
  - rewrite Hsid, <- Hcid, <- Huid. cbn [str].
    apply decode_encode_sourced_id;
      auto using decimal_ascii, decimal_no_colon.
Qed.

Lemma launch_sourced_id_names_course_link_and_user_witness :
  exists (params : dict value) (sourced_id : string),
    demo_launch None = inr params /\
    dict_get "lis_result_sourcedid" params = Some (VStr sourced_id) /\
    decode_sourced_id sourced_id = inr ["7"; "rl-1"; "42"].
Proof.
  destruct (demo_launch_returns None) as [params Hb].
  destruct (launch_sourced_id_names_course_link_and_user _ _ _ _ _ _ _ _ _ _
              params 7 42 Hb) as [sid H]; try reflexivity.
  exists params, sid. split; [exact Hb | exact H].
Defined.

(** X8.  Custom parameters whose names stay pairwise distinct once the
    prefix [custom_] is put before those that lack it are all in the
    launch, each under its prefixed name and with its own value. *)
Theorem custom_params_are_emitted
  (tool course user : dict value)
  (resource_link_id resource_link_title launch_url outcomes_url : string)
  (custom : dict value) (now : Z) (uuid : string)
  (params : dict value) (k : string) (v : value) :
  build_lti_launch_params tool course user resource_link_id
    resource_link_title launch_url outcomes_url (Some custom) now uuid
  = inr params ->
  NoDup (map (fun kv => custom_key (fst kv)) custom) ->
  In (k, v) custom ->
  dict_get (custom_key k) params = Some v.
Proof.
  intros Hb Hnd Hin.
  destruct (build_inv _ _ _ _ _ _ _ _ _ _ params Hb) as [f [secret [_ [_ ->]]]].
  rewrite dict_get_set_other.
  - now apply merge_custom_stored.
  - intros Heq. pose proof (custom_key_prefix k) as Hp.
    rewrite Heq in Hp. discriminate.
Qed.

Lemma custom_params_are_emitted_witness :
  exists params : dict value,
    demo_launch (Some [("level", VStr "3"); ("custom_mode", VStr "exam")])
    = inr params /\
    dict_get "custom_level" params = Some (VStr "3").
Proof.
  destruct (demo_launch_returns
              (Some [("level", VStr "3"); ("custom_mode", VStr "exam")]))
    as [params Hb].
  exists params. split; [exact Hb|].
  apply (custom_params_are_emitted _ _ _ _ _ _ _ _ _ _ params "level" (VStr "3") Hb).
  - apply distinct_NoDup. reflexivity.
  - now left.
Defined.

Lemma keys_dict_set {V : Type} (k x : string) (v : V) (d : dict V) :
  In x (keys (dict_set k v d)) -> x = k \/ In x (keys d).
Proof.
  unfold keys. induction d as [|[k' v'] d IH]; cbn [dict_set map fst In].
  - intros [H | []]. now left.
  - destruct (String.eqb k' k) eqn:E; cbn [map fst In].
    + intros [H | H]; auto.
    + intros [H | H]; auto. destruct (IH H); auto.
Qed.

Lemma keys_merge_custom (cp : option (dict value)) (params : dict value) (x : string) :
  In x (keys (merge_custom cp params)) ->
  In x (keys params) \/ startswith x "custom_" = true.
Proof.
  unfold merge_custom.
  assert (H : forall cs ps, In x (keys (fold_left add_custom cs ps)) ->
                            In x (keys ps) \/ startswith x "custom_" = true).
  { induction cs as [|kv cs IH]; intros ps Hin; cbn [fold_left] in Hin; [now left|].
    destruct (IH _ Hin) as [Hk | Hk]; [|now right].
    unfold add_custom in Hk. apply keys_dict_set in Hk.
    destruct Hk as [-> | Hk]; [right; apply custom_key_prefix | now left]. }
  destruct cp as [[|kv cs]|]; intros Hin; try (now left).
  now apply (H (kv :: cs)).
Qed.

(** X9.  The names in a launch: every parameter the builder returns is
    one of the 29 names of its dictionary literal, [oauth_signature], or a
    name that begins with [custom_]. *)
Theorem launch_has_no_other_names
  (tool course user : dict value)
  (resource_link_id resource_link_title launch_url outcomes_url : string)
  (custom_params : option (dict value)) (now : Z) (uuid : string)
  (params : dict value) (k : string) :
  build_lti_launch_params tool course user resource_link_id
    resource_link_title launch_url outcomes_url custom_params now uuid
  = inr params ->
  In k (keys params) ->
  In k fixed_names \/ k = "oauth_signature" \/ startswith k "custom_" = true.
Proof.
  intros Hb Hin.
  destruct (build_inv _ _ _ _ _ _ _ _ _ _ params Hb) as [f [secret [_ [_ ->]]]].
  apply keys_dict_set in Hin. destruct Hin as [-> | Hin]; [auto|].
  apply keys_merge_custom in Hin. destruct Hin as [Hin | Hin]; auto.
Qed.

Lemma demo_launch_signed (custom_params : option (dict value)) (params : dict value) :
  demo_launch custom_params = inr params -> In "oauth_signature" (keys params).
Proof.
  intros Hb. unfold demo_launch in Hb.
  destruct (build_inv _ _ _ _ _ _ _ _ _ _ params Hb) as [f [secret [_ [_ ->]]]].
  unfold keys. apply in_map_iff. eexists. split; [|apply dict_get_in, dict_get_set_same].
  reflexivity.
Qed.

Lemma launch_has_no_other_names_witness :
  exists params : dict value,
    demo_launch (Some [("roles", VStr "Administrator")]) = inr params /\
    (In "oauth_signature" fixed_names \/ "oauth_signature" = "oauth_signature" \/
     startswith "oauth_signature" "custom_" = true).
Proof.
  destruct (demo_launch_returns (Some [("roles", VStr "Administrator")]))
    as [params Hb].
  exists params. split; [exact Hb|].
  apply (launch_has_no_other_names _ _ _ _ _ _ _ _ _ _ params "oauth_signature" Hb).
  now apply (demo_launch_signed (Some [("roles", VStr "Administrator")])).
Defined.

(* ================================================================== *)
(** * More on the outcomes endpoint *)

Lemma float_error (t : string) (e : exn) : float t = inl e -> e = ValueError.
Proof.
  unfold float. destruct (split_ws float_space1 EmptyString t) as [|x [|y l]];
    try (intros H; now inversion H).
  destruct (float_token x); intros H; now inversion H.
Qed.

Section OutcomesMore.

Variable int_column_eq : Z -> string -> bool.

(** The endpoint when the body is well-formed UTF-8 and the score text, if
    there is one, is accepted by [float]. *)
Lemma receive_outcome_scored (db : database) (uuid body t : string) (x : pyfloat) :
  utf8_valid body = true ->
  score_text_of body = Some t ->
  float t = inr x ->
  receive_outcome int_column_eq db uuid body
  = inr (match sourced_id_of body with
         | Some (String c r) =>
             try_except (store_grade int_column_eq db (String c r) x body) db
         | _ => db
         end,
         response_xml (match message_id_of body with
                       | Some m => m
                       | None => uuid
                       end)).
Proof.
  intros Hu Ht Hf. unfold receive_outcome, decode_utf8. rewrite Hu. cbn [bind ret].
  rewrite Ht, Hf. cbn [bind ret].
  destruct (sourced_id_of body) as [[|c r]|]; reflexivity.
Qed.

Lemma receive_outcome_unscored (db : database) (uuid body : string) :
  utf8_valid body = true ->
  score_text_of body = None ->
  receive_outcome int_column_eq db uuid body
  = inr (db, response_xml (match message_id_of body with
                           | Some m => m
                           | None => uuid
                           end)).
Proof.
  intros Hu Ht. unfold receive_outcome, decode_utf8. rewrite Hu. cbn [bind ret].
  rewrite Ht. cbn [bind ret].
  destruct (sourced_id_of body) as [[|c r]|]; reflexivity.
Qed.

Lemma store_grade_valid (db : database) (sid : string) (x : pyfloat) (body : string)
  (c r u : string) (ct : course_tool) :
  decode_sourced_id sid = inr [c; r; u] ->
  select_course_tool int_column_eq db c r = Some ct ->
  store_grade int_column_eq db sid x body
  = inr (insert_grade db {| gr_course_tool_id := ct_id ct;
                            gr_user_id := u;
                            gr_sourced_id := sid;
                            gr_score := x;
                            gr_raw_xml := body |}).
Proof.
  intros Hd Hsel. unfold store_grade. rewrite Hd. cbn [bind]. now rewrite Hsel.
Qed.

Lemma sourced_id_nonempty (body sid : string) :
  sourced_id_of body = Some sid -> exists a s, sid = String a s.
Proof.
  intros H. destruct (re_search_group_spec _ _ _ _ H) as [Hne _].
  destruct sid as [|a s]; [discriminate|]. eauto.
Qed.

(** X10.  A request with a sourced id that decodes to a course, a resource
    link and a user, with a score text [float] accepts and with a row of
    [course_tools] for that course and resource link, adds one grade record
    at the end of [grade_results]: the id of that row, the user id of the
    sourced id, the sourced id, the score and the whole body.  The response
    is the success response. *)
Theorem valid_outcome_is_stored
  (db : database) (uuid body sid t : string) (x : pyfloat)
  (c r u : string) (ct : course_tool) :
  utf8_valid body = true ->
  sourced_id_of body = Some sid ->
  score_text_of body = Some t ->
  float t = inr x ->
  decode_sourced_id sid = inr [c; r; u] ->
  select_course_tool int_column_eq db c r = Some ct ->
  receive_outcome int_column_eq db uuid body
  = inr (insert_grade db {| gr_course_tool_id := ct_id ct;
                            gr_user_id := u;
                            gr_sourced_id := sid;
                            gr_score := x;
                            gr_raw_xml := body |},
         response_xml (match message_id_of body with
                       | Some m => m
                       | None => uuid
                       end)).
Proof.
  intros Hu Hsid Ht Hf Hd Hsel.
  rewrite (receive_outcome_scored db uuid body t x Hu Ht Hf), Hsid.
  destruct (sourced_id_nonempty body sid Hsid) as [a [s ->]].
  now rewrite (store_grade_valid db _ x body c r u ct Hd Hsel).
Qed.

(** X11.  The endpoint does not recognise a repeated delivery: the same
    valid request received twice leaves two equal records after the ones
    that were there. *)
Theorem repeated_delivery_is_stored_twice
  (db : database) (uuid uuid' body sid t : string) (x : pyfloat)
  (c r u : string) (ct : course_tool) :
  utf8_valid body = true ->
  sourced_id_of body = Some sid ->
  score_text_of body = Some t ->
  float t = inr x ->
  decode_sourced_id sid = inr [c; r; u] ->
  select_course_tool int_column_eq db c r = Some ct ->
  exists (db1 db2 : database) (response response' : string) (g : grade_result),
    receive_outcome int_column_eq db uuid body = inr (db1, response) /\
    receive_outcome int_column_eq db1 uuid' body = inr (db2, response') /\
    grade_results db2 = (grade_results db ++ [g; g])%list.
Proof.
  intros Hu Hsid Ht Hf Hd Hsel.
  destruct (sourced_id_nonempty body sid Hsid) as [a [s Esid]].
  pose (g := {| gr_course_tool_id := ct_id ct; gr_user_id := u;
                gr_sourced_id := sid; gr_score := x; gr_raw_xml := body |}).
  exists (insert_grade db g), (insert_grade (insert_grade db g) g).
  do 2 eexists. exists g. split; [|split].
  - rewrite (receive_outcome_scored db uuid body t x Hu Ht Hf), Hsid, Esid.
    rewrite <- Esid.
    now rewrite (store_grade_valid db sid x body c r u ct Hd Hsel).
  - rewrite (receive_outcome_scored _ uuid' body t x Hu Ht Hf), Hsid, Esid.
    rewrite <- Esid.
    now rewrite (store_grade_valid (insert_grade db g) sid x body c r u ct Hd Hsel).
  - cbn. now rewrite <- app_assoc.
Qed.

(** X12.  Whatever the request, the endpoint leaves [course_tools] and the
    grade records that were there as they are; it adds at most one record,
    at the end, and that record holds the request body and the sourced id
    found in it. *)
Theorem outcome_only_appends
  (db db' : database) (uuid body response : string) :
  receive_outcome int_column_eq db uuid body = inr (db', response) ->
  course_tools db' = course_tools db /\
  (grade_results db' = grade_results db \/
   exists g : grade_result,
     grade_results db' = (grade_results db ++ [g])%list /\
     gr_raw_xml g = body /\
     sourced_id_of body = Some (gr_sourced_id g)).
Proof.
  unfold receive_outcome, decode_utf8.
  destruct (utf8_valid body); [|discriminate]. cbn [bind ret].
  destruct (score_text_of body) as [t|].
  - destruct (float t) as [e|x]; [discriminate|]. cbn [bind ret].
    destruct (sourced_id_of body) as [[|a s]|] eqn:Hsid;
      try (intros H; inversion H; subst; auto).
    unfold store_grade.
    destruct (decode_sourced_id (String a s)) as [e|parts]; cbn [bind try_except];
      [auto|].
    destruct parts as [|c [|r [|u [|y parts]]]]; cbn [try_except ret]; auto.
    destruct (select_course_tool int_column_eq db c r) as [ct|];
      cbn [try_except ret]; auto.
    split; [reflexivity|]. right. eexists. split; [reflexivity|]. auto.
  - cbn [bind ret]. intros H.
    destruct (sourced_id_of body) as [[|a s]|]; inversion H; subst; auto.
Qed.

(** X13.  The only exceptions that leave the endpoint are the
    [UnicodeDecodeError] of a body that is not UTF-8 and the [ValueError] of a
    score text that [float] rejects; nothing in the sourced id or in the
    tables makes it raise. *)
Theorem outcome_raises_only_on_body_or_score
  (db : database) (uuid body : string) (e : exn) :
  receive_outcome int_column_eq db uuid body = inl e ->
  (utf8_valid body = false /\ e = UnicodeDecodeError) \/
  (exists t : string,
      score_text_of body = Some t /\ float t = inl ValueError /\ e = ValueError).
Proof.
  unfold receive_outcome, decode_utf8.
  destruct (utf8_valid body).
  - cbn [bind ret]. destruct (score_text_of body) as [t|]; [|discriminate].
    destruct (float t) as [e'|x] eqn:Hf; [|discriminate].
    cbn [bind]. intros H. inversion H; subst e'.
    right. exists t. pose proof (float_error t e Hf). subst e. auto.
  - cbn [bind raise]. intros H. inversion H. auto.
Qed.

(** X14.  Every response of the endpoint reports [success] as
    [imsx_codeMajor] and carries, as [imsx_messageRefIdentifier], the message
    identifier of the request, or the fresh UUID when the request has none
    (a UUID has no [<]). *)
Theorem outcome_response_echoes_or_invents_the_id
  (db db' : database) (uuid body response : string) :
  element_text uuid = true ->
  receive_outcome int_column_eq db uuid body = inr (db', response) ->
  code_major_of response = Some "success" /\
  message_ref_of response
  = Some (match message_id_of body with
          | Some m => m
          | None => uuid
          end).
Proof.
  intros Hid H.
  assert (Hr : response = response_xml (match message_id_of body with
                                        | Some m => m
                                        | None => uuid
                                        end)).
  { revert H. unfold receive_outcome, decode_utf8.
    destruct (utf8_valid body); [|discriminate]. cbn [bind ret].
    destruct (score_text_of body) as [t|].
    - destruct (float t) as [e|x]; [discriminate|]. cbn [bind ret].
      intros H. now inversion H.
    - cbn [bind ret]. intros H. now inversion H. }
  subst response.
  assert (Hm : element_text (match message_id_of body with
                             | Some m => m
                             | None => uuid
                             end) = true).
  { destruct (message_id_of body) as [m|] eqn:E; [|assumption].
    apply re_search_group_spec in E. unfold element_text.
    now apply andb_true_iff. }
  unfold element_text in Hm. apply andb_true_iff in Hm. destruct Hm as [Hne Hlt].
  destruct (response_xml_reads_back _ Hne Hlt). auto.
Qed.

End OutcomesMore.

Lemma valid_outcome_is_stored_witness :
  receive_outcome decimal_column_eq demo_db "fresh" demo_body
  = inr (insert_grade demo_db demo_grade, response_xml "m1").
Proof.
  apply (valid_outcome_is_stored decimal_column_eq demo_db "fresh" demo_body
           "NzpybC0xOjQy" "0.85" "0.85" "7" "rl-1" "42"
           {| ct_id := 5; ct_course_id := 7; ct_tool_id := 1;
              ct_resource_link_id := "rl-1" |});
    reflexivity.
Defined.

Lemma repeated_delivery_is_stored_twice_witness :
  exists (db1 db2 : database) (response response' : string) (g : grade_result),
    receive_outcome decimal_column_eq demo_db "fresh" demo_body
    = inr (db1, response) /\
    receive_outcome decimal_column_eq db1 "fresh2" demo_body
    = inr (db2, response') /\
    grade_results db2 = (grade_results demo_db ++ [g; g])%list.
Proof.
  apply (repeated_delivery_is_stored_twice decimal_column_eq demo_db
           "fresh" "fresh2" demo_body "NzpybC0xOjQy" "0.85" "0.85"
           "7" "rl-1" "42"
           {| ct_id := 5; ct_course_id := 7; ct_tool_id := 1;
              ct_resource_link_id := "rl-1" |});
    reflexivity.
Defined.

Lemma outcome_only_appends_witness :
  course_tools (insert_grade demo_db demo_grade) = course_tools demo_db /\
  (grade_results (insert_grade demo_db demo_grade) = grade_results demo_db \/
   exists g : grade_result,
     grade_results (insert_grade demo_db demo_grade)
     = (grade_results demo_db ++ [g])%list /\
     gr_raw_xml g = demo_body /\
     sourced_id_of demo_body = Some (gr_sourced_id g)).
Proof.
  apply (outcome_only_appends decimal_column_eq demo_db
           (insert_grade demo_db demo_grade) "fresh" demo_body (response_xml "m1")).
  reflexivity.
Defined.

Lemma outcome_raises_only_on_body_or_score_witness :
  (utf8_valid "<textString>abc</textString>" = false /\ ValueError = UnicodeDecodeError) \/
  (exists t : string,
      score_text_of "<textString>abc</textString>" = Some t /\
      float t = inl ValueError /\ ValueError = ValueError).
Proof.
  apply (outcome_raises_only_on_body_or_score decimal_column_eq demo_db "fresh"
           "<textString>abc</textString>" ValueError).
  reflexivity.
Defined.

Lemma outcome_response_echoes_or_invents_the_id_witness :
  code_major_of (response_xml "0b0e6f5c-7d0a-4c36-9a55-3f0f3c1d2e4a") = Some "success" /\
  message_ref_of (response_xml "0b0e6f5c-7d0a-4c36-9a55-3f0f3c1d2e4a")
  = Some "0b0e6f5c-7d0a-4c36-9a55-3f0f3c1d2e4a".
Proof.
  apply (outcome_response_echoes_or_invents_the_id decimal_column_eq demo_db demo_db
           "0b0e6f5c-7d0a-4c36-9a55-3f0f3c1d2e4a"
           "<sourcedId>BAD</sourcedId><textString>0.9</textString>"
           (response_xml "0b0e6f5c-7d0a-4c36-9a55-3f0f3c1d2e4a"));
    reflexivity.
Defined.

(* ================================================================== *)
(** * The launch endpoint of the tool *)

Lemma lti_launch_checked (launches : dict (dict value)) (request_url : string)
  (params : dict value) (launch_id : string) :
  get_is "lti_message_type" "basic-lti-launch-request" params = true ->
  get_is "lti_version" "LTI-1p0" params = true ->
  get_is "oauth_consumer_key" EXPECTED_KEY params = true ->
  lti_launch launches request_url params launch_id
  = (url <- first (split_on "?" request_url) ;;
     received_signature <- received_signature_of params ;;
     ok <- verify_oauth_signature "POST" url params EXPECTED_SECRET
             received_signature ;;
     ret (LaunchPage
            {| page_user_name := get_or "lis_person_name_full" "Unknown User" params;
               page_user_role := get_or "roles" "Unknown" params;
               page_course_name := get_or "context_title" "Unknown Course" params;
               page_resource_title := get_or "resource_link_title" "Activity" params;
               page_grade_form :=
                 if negb (falsy (dict_get "lis_outcome_service_url" params))
                    && negb (falsy (dict_get "lis_result_sourcedid" params))
                 then Some launch_id else None;
               page_params := sorted_items params |},
          dict_set launch_id params launches,
          if ok then []
          else ["WARNING: OAuth signature mismatch. URL: " ++ url])).
Proof.
  intros H1 H2 H3. unfold lti_launch. now rewrite H1, H2, H3.
Qed.


(** X15.  The tool shows and stores a launch only when its message type,
    its LTI version and its consumer key are the expected ones; a launch it
    answers with an exception leaves the store as it was and prints
    nothing, and the status is 400 or 401. *)
Theorem launch_is_stored_only_when_well_formed
  (launches launches' : dict (dict value)) (request_url : string)
  (params : dict value) (launch_id : string)
  (answer : launch_result) (printed : list string) :
  lti_launch launches request_url params launch_id
  = inr (answer, launches', printed) ->
  match answer with
  | LaunchPage _ =>
      dict_get "lti_message_type" params = Some (VStr "basic-lti-launch-request") /\
      dict_get "lti_version" params = Some (VStr "LTI-1p0") /\
      dict_get "oauth_consumer_key" params = Some (VStr "test_key") /\
      launches' = dict_set launch_id params launches
  | LaunchException status _ =>
      launches' = launches /\ printed = [] /\ (status = 400 \/ status = 401)
  end.
Proof.
  assert (Hget : forall k lit, get_is k lit params = true ->
                               dict_get k params = Some (VStr lit)).
  { intros k lit. unfold get_is.
    destruct (dict_get k params) as [[s| |]|]; try discriminate.
    cbn. intros E. apply String.eqb_eq in E. now subst. }
  unfold lti_launch.
  destruct (get_is "lti_message_type" "basic-lti-launch-request" params) eqn:H1;
    cbn [negb]; [|intros H; inversion H; subst; auto].
  destruct (get_is "lti_version" "LTI-1p0" params) eqn:H2;
    cbn [negb]; [|intros H; inversion H; subst; auto].
  destruct (get_is "oauth_consumer_key" EXPECTED_KEY params) eqn:H3;
    cbn [negb]; [|intros H; inversion H; subst; auto].
  destruct (first (split_on "?" request_url)) as [e|url]; [discriminate|].
  cbn [bind]. destruct (received_signature_of params) as [e|sg]; [discriminate|].
  cbn [bind].
  destruct (verify_oauth_signature "POST" url params EXPECTED_SECRET sg)
    as [e|ok]; [discriminate|].
  cbn [bind ret]. intros H. inversion H; subst. auto.
Qed.



Lemma launch_is_stored_only_when_well_formed_witness :
  [("launch-0", [("roles", VStr "Learner")])]
  = [("launch-0", [("roles", VStr "Learner")])] /\
  @nil string = [] /\ (401 = 400 \/ 401 = 401).
Proof.
  apply (launch_is_stored_only_when_well_formed
           [("launch-0", [("roles", VStr "Learner")])]
           [("launch-0", [("roles", VStr "Learner")])]
           "http://localhost:8080/lti/launch"
           [("lti_message_type", VStr "basic-lti-launch-request");
            ("lti_version", VStr "LTI-1p0");
            ("oauth_consumer_key", VStr "someone_else")]
           "launch-1" (LaunchException 401 "Invalid consumer key") []).
  reflexivity.
Defined.

Lemma b64encode_nonempty (s : string) : nonempty s = true -> nonempty (b64encode s) = true.
Proof.
  destruct s as [|a s]; [discriminate|]. intros _.
  unfold b64encode, bytes_of. cbn [list_ascii_of_string map].
  destruct (map code (list_ascii_of_string s)) as [|b [|c r]]; reflexivity.
Qed.

Lemma encode_sourced_id_nonempty (c r u : string) :
  nonempty (encode_sourced_id c r u) = true.
Proof.
  unfold encode_sourced_id. apply b64encode_nonempty.
  destruct c; reflexivity.
Qed.

Lemma fixed_message_type (f : launch_fields) :
  In "lti_message_type" (keys (fixed_params f)) /\
  dict_get "lti_message_type" (fixed_params f) = Some (VStr "basic-lti-launch-request").
Proof. split; [cbn; tauto | reflexivity]. Qed.

Lemma fixed_version (f : launch_fields) :
  In "lti_version" (keys (fixed_params f)) /\
  dict_get "lti_version" (fixed_params f) = Some (VStr "LTI-1p0").
Proof. split; [cbn; tauto | reflexivity]. Qed.

Lemma fixed_outcomes_url (f : launch_fields) :
  In "lis_outcome_service_url" (keys (fixed_params f)) /\
  dict_get "lis_outcome_service_url" (fixed_params f) = Some (VStr (f_outcomes_url f)).
Proof. split; [cbn; tauto | reflexivity]. Qed.

Lemma falsy_str (s : string) : falsy (Some (VStr s)) = negb (nonempty s).
Proof. destruct s; reflexivity. Qed.

(** X17.  A launch built by the platform for a tool registered with the
    key and secret the sample tool expects, and posted to the launch URL it
    was signed for, is accepted by the tool without any warning: the launch
    is shown and stored, and the grade form is offered whenever the
    platform gave an outcomes URL. *)
Theorem built_launch_is_accepted_by_the_tool
  (tool course user : dict value)
  (resource_link_id resource_link_title launch_url outcomes_url : string)
  (custom_params : option (dict value)) (now : Z) (uuid : string)
  (params : dict value) (launches : dict (dict value)) (launch_id : string) :
  build_lti_launch_params tool course user resource_link_id
    resource_link_title launch_url outcomes_url custom_params now uuid
  = inr params ->
  dict_get "consumer_key" tool = Some (VStr "test_key") ->
  dict_get "consumer_secret" tool = Some (VStr "test_secret") ->
  no_char "?" launch_url = true ->
  nonempty outcomes_url = true ->
  exists page : launch_page,
    lti_launch launches launch_url params launch_id
    = inr (LaunchPage page, dict_set launch_id params launches, []) /\
    page_grade_form page = Some launch_id.
Proof.
  intros Hb Hkey Hsec Hq Hout.
  destruct (build_inv _ _ _ _ _ _ _ _ _ _ params Hb) as [f [secret [Hf [Hsec' Hp]]]].
  rewrite Hsec in Hsec'. injection Hsec' as <-.
  pose proof (fun k => build_fixed_get _ _ _ _ _ _ _ _ _ _ params f k Hf Hb) as Hget.
  destruct (eval_fields_inv _ _ _ _ _ _ _ _ f Hf)
    as [n [t [rest [_ [_ [_ [Hck _]]]]]]].
  rewrite Hkey in Hck. injection Hck as Hck.
  destruct (eval_fields_rest _ _ _ _ _ _ _ _ f Hf)
    as [role [_ [_ [Hsid [_ [_ [_ [_ Hurl]]]]]]]].
  assert (H1 : get_is "lti_message_type" "basic-lti-launch-request" params = true).
  { unfold get_is.
    now rewrite (Hget _ (proj1 (fixed_message_type f))), (proj2 (fixed_message_type f)). }
  assert (H2 : get_is "lti_version" "LTI-1p0" params = true).
  { unfold get_is.
    now rewrite (Hget _ (proj1 (fixed_version f))), (proj2 (fixed_version f)). }
  assert (H3 : get_is "oauth_consumer_key" EXPECTED_KEY params = true).
  { unfold get_is.
    now rewrite (Hget _ (proj1 (fixed_consumer_key f))), (proj2 (fixed_consumer_key f)),
      <- Hck. }
  rewrite (lti_launch_checked launches launch_url params launch_id H1 H2 H3).
  rewrite split_on_whole by assumption. cbn [first bind ret].
  rewrite (Hget _ (proj1 (fixed_outcomes_url f))), (proj2 (fixed_outcomes_url f)).
  rewrite (Hget _ (proj1 (fixed_sourced_id f))), (proj2 (fixed_sourced_id f)).
  rewrite !falsy_str, Hurl, Hout, Hsid, encode_sourced_id_nonempty. cbn [negb andb].
  assert (Hsig : dict_get "oauth_signature" params
                 = Some (VStr (generate_oauth_signature "POST" launch_url
                                 (merge_custom custom_params (fixed_params f))
                                 "test_secret")))
    by (rewrite Hp; apply dict_get_set_same).
  assert (Hstrip : strip_signature params
                   = merge_custom custom_params (fixed_params f))
    by (rewrite Hp; apply strip_signature_set, merged_has_no_signature).
  unfold received_signature_of. rewrite Hsig. cbn [bind ret].
  rewrite verify_result by apply b64encode_ascii.
  rewrite Hstrip. unfold EXPECTED_SECRET. rewrite String.eqb_refl. cbn [bind ret].
  eexists. split; reflexivity.
Qed.

Lemma built_launch_is_accepted_by_the_tool_witness :
  exists (params : dict value) (page : launch_page),
    demo_launch None = inr params /\
    lti_launch [] "http://localhost:8080/lti/launch" params "launch-1"
    = inr (LaunchPage page, dict_set "launch-1" params [], []) /\
    page_grade_form page = Some "launch-1".
Proof.
  destruct (demo_launch_returns None) as [params Hb].
  destruct (built_launch_is_accepted_by_the_tool _ _ _ _ _ _ _ _ _ _
              params [] "launch-1" Hb) as [page H]; try reflexivity.
  exists params, page. split; [exact Hb | exact H].
Defined.

Section GradeForm.

Variable score_t : Type.
Variable score_repr : score_t -> string.
Variable score_percent : score_t -> string + Z.
Variable post : request -> post_result.

Lemma send_grade_sent (launches : dict (dict value)) (launch_id : string)
  (score : score_t) (message_id : string) (params : dict value) (url sid : value) :
  dict_get launch_id launches = Some params ->
  dict_get "lis_outcome_service_url" params = Some url ->
  dict_get "lis_result_sourcedid" params = Some sid ->
  falsy (Some url) = false ->
  falsy (Some sid) = false ->
  snd (send_grade score_t score_repr score_percent post launches launch_id score
         message_id)
  = [{| req_url := str url;
        req_content := xml_payload message_id (str sid) (score_repr score);
        req_content_type := "application/xml" |}].
Proof.
  intros Hl Hu Hs Fu Fs. unfold send_grade. rewrite Hl, Hu, Hs, Fu, Fs. cbn [orb].
  destruct (post _) as [e|status text]; [reflexivity|].
  destruct (score_percent score); reflexivity.
Qed.

(** X18.  A grade form the tool has offered can be submitted: when a launch
    was shown with the grade form, the launch id of the form is found in the
    store, and submitting a score sends one request, to the outcomes URL of
    that launch and with its sourced id. *)
Theorem offered_grade_form_can_be_submitted
  (launches launches' : dict (dict value)) (request_url : string)
  (params : dict value) (launch_id form_id : string) (page : launch_page)
  (printed : list string) (score : score_t) (message_id : string) :
  lti_launch launches request_url params launch_id
  = inr (LaunchPage page, launches', printed) ->
  page_grade_form page = Some form_id ->
  exists url sid : value,
    dict_get form_id launches' = Some params /\
    dict_get "lis_outcome_service_url" params = Some url /\
    dict_get "lis_result_sourcedid" params = Some sid /\
    snd (send_grade score_t score_repr score_percent post launches' form_id
           score message_id)
    = [{| req_url := str url;
          req_content := xml_payload message_id (str sid) (score_repr score);
          req_content_type := "application/xml" |}].
Proof.
  unfold lti_launch.
  destruct (get_is "lti_message_type" "basic-lti-launch-request" params);
    cbn [negb]; [|discriminate].
  destruct (get_is "lti_version" "LTI-1p0" params); cbn [negb]; [|discriminate].
  destruct (get_is "oauth_consumer_key" EXPECTED_KEY params);
    cbn [negb]; [|discriminate].
  destruct (first (split_on "?" request_url)) as [e|url0]; [discriminate|].
  cbn [bind]. destruct (received_signature_of params) as [e|sg]; [discriminate|].
  cbn [bind].
  destruct (verify_oauth_signature "POST" url0 params EXPECTED_SECRET sg)
    as [e|ok]; [discriminate|].
  cbn [bind ret]. intros H Hform. inversion H; subst; clear H.
  cbn [page_grade_form] in Hform.
  destruct (falsy (dict_get "lis_outcome_service_url" params)) eqn:Fu;
    [discriminate|].
  destruct (falsy (dict_get "lis_result_sourcedid" params)) eqn:Fs;
    [discriminate|].
  cbn [negb andb] in Hform. injection Hform as <-.
  destruct (dict_get "lis_outcome_service_url" params) as [url|] eqn:Hu;
    [|discriminate].
  destruct (dict_get "lis_result_sourcedid" params) as [sid|] eqn:Hs;
    [|discriminate].
  exists url, sid.
  assert (Hl : dict_get launch_id (dict_set launch_id params launches) = Some params)
    by apply dict_get_set_same.
  repeat split; try assumption.
  now apply (send_grade_sent _ launch_id score message_id params url sid).
Qed.

(** X19.  What the tool sends, in three cases that exclude each other:
    for an unknown launch id it answers 404; for a launch whose outcomes
    URL or sourced id is missing or falsy (empty) it answers 400; in both
    cases nothing is sent.  For a launch whose outcomes URL and sourced id
    are both present and truthy, exactly one request is sent, to the
    outcomes URL stored with the launch, with content type
    [application/xml]. *)
Theorem grade_push_requests
  (launches : dict (dict value)) (launch_id : string) (score : score_t)
  (message_id : string) :
  let answer :=
    send_grade score_t score_repr score_percent post launches launch_id score
      message_id in
  (dict_get launch_id launches = None /\
   answer = (HTTPException 404 "Launch not found", [])) \/
  (exists params : dict value,
      dict_get launch_id launches = Some params /\
      (falsy (dict_get "lis_outcome_service_url" params)
       || falsy (dict_get "lis_result_sourcedid" params)) = true /\
      answer = (HTTPException 400 "Outcomes not supported", [])) \/
  (exists (params : dict value) (url sid : value),
      dict_get launch_id launches = Some params /\
      dict_get "lis_outcome_service_url" params = Some url /\
      dict_get "lis_result_sourcedid" params = Some sid /\
      (falsy (Some url) || falsy (Some sid)) = false /\
      snd answer
      = [{| req_url := str url;
            req_content := xml_payload message_id (str sid) (score_repr score);
            req_content_type := "application/xml" |}]).
Proof.
  cbv zeta.
  destruct (dict_get launch_id launches) as [params|] eqn:Hl.
  - right.
    destruct (falsy (dict_get "lis_outcome_service_url" params)
              || falsy (dict_get "lis_result_sourcedid" params)) eqn:F.
    + left. exists params.
      split; [first [assumption | reflexivity]|].
      split; [first [assumption | reflexivity]|].
      unfold send_grade. rewrite Hl.
      destruct (dict_get "lis_outcome_service_url" params) as [url|];
        destruct (dict_get "lis_result_sourcedid" params) as [sid|];
        try reflexivity.
      now rewrite F.
    + right. apply orb_false_iff in F. destruct F as [Fu Fs].
      destruct (dict_get "lis_outcome_service_url" params) as [url|] eqn:Hu;
        [|discriminate].
      destruct (dict_get "lis_result_sourcedid" params) as [sid|] eqn:Hs;
        [|discriminate].
      exists params, url, sid.
      split; [first [assumption | reflexivity]|].
      split; [first [assumption | reflexivity]|].
      split; [first [assumption | reflexivity]|].
      split; [now rewrite Fu, Fs|].
      now apply (send_grade_sent launches launch_id score message_id params url sid).
  - left. split; [first [assumption | reflexivity]|].
    unfold send_grade. now rewrite Hl.
Qed.

End GradeForm.

Lemma offered_grade_form_can_be_submitted_witness :
  exists url sid : value,
    dict_get "launch-1"
      (dict_set "launch-1"
         [("lti_message_type", VStr "basic-lti-launch-request");
          ("lti_version", VStr "LTI-1p0");
          ("oauth_consumer_key", VStr "test_key");
          ("lis_outcome_service_url", VStr "http://localhost:8000/outcomes");
          ("lis_result_sourcedid", VStr "NzpybC0xOjQy")] [])
    = Some [("lti_message_type", VStr "basic-lti-launch-request");
            ("lti_version", VStr "LTI-1p0");
            ("oauth_consumer_key", VStr "test_key");
            ("lis_outcome_service_url", VStr "http://localhost:8000/outcomes");
            ("lis_result_sourcedid", VStr "NzpybC0xOjQy")] /\
    dict_get "lis_outcome_service_url"
      [("lti_message_type", VStr "basic-lti-launch-request");
       ("lti_version", VStr "LTI-1p0");
       ("oauth_consumer_key", VStr "test_key");
       ("lis_outcome_service_url", VStr "http://localhost:8000/outcomes");
       ("lis_result_sourcedid", VStr "NzpybC0xOjQy")] = Some url /\
    dict_get "lis_result_sourcedid"
      [("lti_message_type", VStr "basic-lti-launch-request");
       ("lti_version", VStr "LTI-1p0");
       ("oauth_consumer_key", VStr "test_key");
       ("lis_outcome_service_url", VStr "http://localhost:8000/outcomes");
       ("lis_result_sourcedid", VStr "NzpybC0xOjQy")] = Some sid /\
    snd (send_grade Z decimal (fun z => inr z)
           (fun _ => PostRaises "All connection attempts failed")
           (dict_set "launch-1"
              [("lti_message_type", VStr "basic-lti-launch-request");
               ("lti_version", VStr "LTI-1p0");
               ("oauth_consumer_key", VStr "test_key");
               ("lis_outcome_service_url", VStr "http://localhost:8000/outcomes");
               ("lis_result_sourcedid", VStr "NzpybC0xOjQy")] [])
           "launch-1" 85 "msg-1")
    = [{| req_url := str url;
          req_content := xml_payload "msg-1" (str sid) (decimal 85);
          req_content_type := "application/xml" |}].
Proof.
  eapply (offered_grade_form_can_be_submitted Z decimal (fun z => inr z)
            (fun _ => PostRaises "All connection attempts failed")
            [] _ "http://localhost:8080/lti/launch" _ "launch-1" "launch-1").
  - vm_compute. reflexivity.
  - reflexivity.
Defined.

(* ================================================================== *)
(** * The grade request of the tool, read by the platform *)

Lemma xml_payload_parts (message_id sourced_id score : string) :
  xml_payload message_id sourced_id score
  = payload_part1
    ++ "<imsx_messageIdentifier>" ++ message_id ++ "</imsx_messageIdentifier>"
    ++ payload_part2
    ++ "<sourcedId>" ++ sourced_id ++ "</sourcedId>"
    ++ payload_part3
    ++ "<textString>" ++ score ++ "</textString>"
    ++ payload_part4.
Proof. reflexivity. Qed.

Lemma element_text_split (s : string) :
  element_text s = true -> nonempty s = true /\ no_char "<" s = true.
Proof. unfold element_text. apply andb_true_iff. Qed.

Lemma grade_request_parts (message_id sourced_id score : string) :
  element_text message_id = true ->
  element_text sourced_id = true ->
  element_text score = true ->
  message_id_of (xml_payload message_id sourced_id score) = Some message_id /\
  sourced_id_of (xml_payload message_id sourced_id score) = Some sourced_id /\
  score_text_of (xml_payload message_id sourced_id score) = Some score.
Proof.
  intros Hm Hs Hx.
  apply element_text_split in Hm, Hs, Hx.
  destruct Hm as [Hm1 Hm2], Hs as [Hs1 Hs2], Hx as [Hx1 Hx2].
  rewrite xml_payload_parts.
  unfold message_id_of, sourced_id_of, score_text_of. split; [|split].
  - rewrite search_skip by (vm_compute; reflexivity).
    now apply (search_hit "<imsx_messageIdentifier>" "/imsx_messageIdentifier>").
  - rewrite search_skip by (vm_compute; reflexivity).
    rewrite search_skip by (vm_compute; reflexivity).
    rewrite search_skip_run by assumption.
    rewrite search_skip by (vm_compute; reflexivity).
    rewrite search_skip by (vm_compute; reflexivity).
    now apply (search_hit "<sourcedId>" "/sourcedId>").
  - rewrite search_skip by (vm_compute; reflexivity).
    rewrite search_skip by (vm_compute; reflexivity).
    rewrite search_skip_run by assumption.
    rewrite search_skip by (vm_compute; reflexivity).
    rewrite search_skip by (vm_compute; reflexivity).
    rewrite search_skip by (vm_compute; reflexivity).
    rewrite search_skip_run by assumption.
    rewrite search_skip by (vm_compute; reflexivity).
    rewrite search_skip by (vm_compute; reflexivity).
    now apply (search_hit "<textString>" "/textString>").
Qed.

(** X20.  What the tool writes into its grade request is what the platform
    reads out of it: for a message id, a sourced id and a score text that are
    non-empty and have no [<], the three extractions of the outcomes endpoint
    applied to the request of the tool give back exactly these three. *)
Theorem grade_request_reads_back (message_id sourced_id score : string) :
  element_text message_id = true ->
  element_text sourced_id = true ->
  element_text score = true ->
  message_id_of (xml_payload message_id sourced_id score) = Some message_id /\
  sourced_id_of (xml_payload message_id sourced_id score) = Some sourced_id /\
  score_text_of (xml_payload message_id sourced_id score) = Some score.
Proof. exact (grade_request_parts message_id sourced_id score). Qed.

Lemma grade_request_reads_back_witness :
  message_id_of (xml_payload "msg-1" "NzpybC0xOjQy" "0.85") = Some "msg-1" /\
  sourced_id_of (xml_payload "msg-1" "NzpybC0xOjQy" "0.85") = Some "NzpybC0xOjQy" /\
  score_text_of (xml_payload "msg-1" "NzpybC0xOjQy" "0.85") = Some "0.85".
Proof.
  apply (grade_request_reads_back "msg-1" "NzpybC0xOjQy" "0.85"); reflexivity.
Defined.

Lemma xml_payload_ascii (message_id sourced_id score : string) :
  is_ascii message_id = true -> is_ascii sourced_id = true ->
  is_ascii score = true ->
  is_ascii (xml_payload message_id sourced_id score) = true.
Proof.
  intros Hm Hs Hx. rewrite xml_payload_parts. unfold is_ascii in *.
  rewrite !all_chars_app, Hm, Hs, Hx. reflexivity.
Qed.

Lemma b64encode_bytes_all (p : ascii -> bool) (bs : list Z) :
  all_chars p b64_alphabet = true -> p "="%char = true ->
  all_chars p (b64encode_bytes bs) = true.
Proof.
  intros Ha He.
  assert (Hc : forall i, p (b64_char i) = true).
  { intros i. unfold b64_char.
    destruct (String.get (Z.to_nat i) b64_alphabet) as [c|] eqn:E; [|exact He].
    exact (all_chars_get p b64_alphabet (Z.to_nat i) c Ha E). }
  assert (H : forall n bs, (List.length bs <= n)%nat ->
                           all_chars p (b64encode_bytes bs) = true).
  { clear bs. induction n as [|n IH]; intros bs Hlen.
    - destruct bs; [reflexivity | simpl in Hlen; lia].
    - destruct bs as [|a [|b [|c r]]]; cbn [b64encode_bytes all_chars];
        rewrite ?Hc, ?He; cbn [andb]; try reflexivity.
      apply IH. simpl in Hlen. lia. }
  apply (H (List.length bs)). lia.
Qed.

Lemma sourced_id_element_text (c r u : string) :
  element_text (encode_sourced_id c r u) = true.
Proof.
  unfold element_text. rewrite encode_sourced_id_nonempty. cbn [andb].
  unfold encode_sourced_id, b64encode, no_char.
  apply b64encode_bytes_all; reflexivity.
Qed.

Lemma map_string_app (f : ascii -> ascii) (a b : string) :
  map_string f (a ++ b) = map_string f a ++ map_string f b.
Proof.
  induction a as [|c a IH]; cbn [append map_string]; [reflexivity|].
  now rewrite IH.
Qed.

Lemma contains_skip (needle p x : string) :
  contains needle x = true -> contains needle (p ++ x) = true.
Proof.
  intros H. induction p as [|a p IH]; cbn [append]; [assumption|].
  cbn [contains]. rewrite IH. apply orb_true_r.
Qed.

Lemma contains_here (needle x : string) : contains needle (needle ++ x) = true.
Proof.
  assert (H : startswith (needle ++ x) needle = true)
    by (unfold startswith; now rewrite strip_prefix_self).
  destruct (needle ++ x); cbn [contains]; now rewrite H.
Qed.

(** The response of the platform has the word the tool looks for. *)
Lemma response_has_success (msg_id : string) :
  contains "success" (lower (response_xml msg_id)) = true.
Proof.
  rewrite response_xml_parts. unfold lower. rewrite !map_string_app.
  do 4 apply contains_skip.
  change (map_string lower_char "success") with "success".
  apply contains_here.
Qed.

(** X21.  The grade passback from end to end.  The tool submits a score
    for a stored launch whose sourced id is the one the platform made for a
    course, a resource link and a user (ASCII, without colons); the request
    reaches the outcomes endpoint of a platform that has the resource link in
    that course.  When the message id and the rendered score are ASCII texts
    without [<] and the rendered score is accepted by [float], the platform
    stores one grade record for that user, with that sourced id and score,
    and the tool shows the success page with the response of the platform. *)
Theorem grade_passback_end_to_end
  (int_column_eq : Z -> string -> bool) (db : database) (uuid : string)
  (score_t : Type) (score_repr : score_t -> string)
  (score_percent : score_t -> string + Z)
  (launches : dict (dict value)) (launch_id : string) (score : score_t)
  (message_id : string) (params : dict value) (url c r u : string)
  (ct : course_tool) (x : pyfloat) (pct : Z) :
  dict_get launch_id launches = Some params ->
  dict_get "lis_outcome_service_url" params = Some (VStr url) ->
  nonempty url = true ->
  dict_get "lis_result_sourcedid" params = Some (VStr (encode_sourced_id c r u)) ->
  is_ascii c = true -> is_ascii r = true -> is_ascii u = true ->
  no_char ":" c = true -> no_char ":" r = true -> no_char ":" u = true ->
  select_course_tool int_column_eq db c r = Some ct ->
  is_ascii message_id = true -> element_text message_id = true ->
  is_ascii (score_repr score) = true -> element_text (score_repr score) = true ->
  float (score_repr score) = inr x ->
  score_percent score = inr pct ->
  let payload :=
    xml_payload message_id (encode_sourced_id c r u) (score_repr score) in
  receive_outcome int_column_eq db uuid payload
  = inr (insert_grade db {| gr_course_tool_id := ct_id ct;
                            gr_user_id := u;
                            gr_sourced_id := encode_sourced_id c r u;
                            gr_score := x;
                            gr_raw_xml := payload |},
         response_xml message_id) /\
  send_grade score_t score_repr score_percent
    (platform_post int_column_eq db uuid) launches launch_id score message_id
  = (GradePage true (score_repr score) pct url (response_xml message_id),
     [{| req_url := url; req_content := payload;
         req_content_type := "application/xml" |}]).
Proof.
  intros Hl Hu Hne Hs Ac Ar Au Nc Nr Nu Hsel Am Em Ax Ex Hf Hp payload.
  destruct (grade_request_parts message_id (encode_sourced_id c r u)
              (score_repr score) Em (sourced_id_element_text c r u) Ex)
    as [Hmid [Hsid Hsc]].
  fold payload in Hmid, Hsid, Hsc.
  assert (Hvalid : utf8_valid payload = true).
  { apply utf8_valid_ascii, xml_payload_ascii; try assumption.
    apply b64encode_ascii. }
  assert (Hrecv :
    receive_outcome int_column_eq db uuid payload
    = inr (insert_grade db {| gr_course_tool_id := ct_id ct;
                              gr_user_id := u;
                              gr_sourced_id := encode_sourced_id c r u;
                              gr_score := x;
                              gr_raw_xml := payload |},
           response_xml message_id)).
  { rewrite (receive_outcome_scored int_column_eq db uuid payload _ x Hvalid Hsc Hf).
    rewrite Hsid, Hmid.
    destruct (sourced_id_nonempty payload _ Hsid) as [a [s Es]].
    rewrite Es. rewrite <- Es.
    now rewrite (store_grade_valid int_column_eq db _ x payload c r u ct
                   (decode_encode_sourced_id c r u Ac Ar Au Nc Nr Nu) Hsel). }
  split; [exact Hrecv|].
  unfold send_grade. rewrite Hl, Hu, Hs, !falsy_str, Hne.
  rewrite encode_sourced_id_nonempty. cbn [negb orb str].
  fold payload. unfold platform_post. cbn [req_content].
  rewrite Hrecv. cbn [Z.eqb Pos.eqb andb]. rewrite response_has_success, Hp.
  reflexivity.
Qed.

Lemma grade_passback_end_to_end_witness :
  let launches : dict (dict value) :=
    [("launch-1",
      [("lis_outcome_service_url", VStr "http://localhost:8000/outcomes");
       ("lis_result_sourcedid", VStr (encode_sourced_id "7" "rl-1" "42"))])] in
  let payload := xml_payload "msg-1" (encode_sourced_id "7" "rl-1" "42") "0.85" in
  receive_outcome decimal_column_eq demo_db "fresh" payload
  = inr (insert_grade demo_db {| gr_course_tool_id := 5;
                                 gr_user_id := "42";
                                 gr_sourced_id := encode_sourced_id "7" "rl-1" "42";
                                 gr_score := "0.85";
                                 gr_raw_xml := payload |},
         response_xml "msg-1") /\
  send_grade string (fun s => s) (fun _ => inr 85)
    (platform_post decimal_column_eq demo_db "fresh") launches "launch-1"
    "0.85" "msg-1"
  = (GradePage true "0.85" 85 "http://localhost:8000/outcomes"
       (response_xml "msg-1"),
     [{| req_url := "http://localhost:8000/outcomes"; req_content := payload;
         req_content_type := "application/xml" |}]).
Proof.
  intros launches payload.
  apply (grade_passback_end_to_end decimal_column_eq demo_db "fresh"
           string (fun s => s) (fun _ => inr 85) launches "launch-1" "0.85"
           "msg-1"
           [("lis_outcome_service_url", VStr "http://localhost:8000/outcomes");
            ("lis_result_sourcedid", VStr (encode_sourced_id "7" "rl-1" "42"))]
           "http://localhost:8000/outcomes" "7" "rl-1" "42"
           {| ct_id := 5; ct_course_id := 7; ct_tool_id := 1;
              ct_resource_link_id := "rl-1" |} "0.85" 85);
    reflexivity.
Defined.

(* ================================================================== *)
(** * The demo data *)

Lemma insert_user_rows (t t' : table user_row) (nre : string * string * string) :
  insert_user t nre = inr t' -> exists u, rows t' = (rows t ++ [u])%list.
Proof.
  destruct nre as [[name email] role]. unfold insert_user.
  destruct (negb _); [discriminate|].
  destruct (existsb _ _); [discriminate|].
  intros H. injection H as <-. cbn [rows]. now eexists.
Qed.


Lemma insert_enrollment_rows (course_id user_id : Z) (t t' : table enrollment_row) :
  insert_enrollment course_id t user_id = inr t' ->
  exists i, rows t' = (rows t ++ [{| e_id := i; e_course_id := course_id;
                                     e_user_id := user_id |}])%list.
Proof.
  unfold insert_enrollment. destruct (existsb _ _); [discriminate|].
  intros H. injection H as <-. cbn [rows]. now eexists.
Qed.

(** A loop of inserts only appends rows, one for each item. *)
Lemma for_each_appends {A R : Type} (insert : table R -> A -> db_result (table R))
  (Hins : forall t t' x, insert t x = inr t' -> exists r, rows t' = (rows t ++ [r])%list)
  (l : list A) :
  forall t t', for_each insert l t = inr t' ->
    exists added, rows t' = (rows t ++ added)%list /\
                  List.length added = List.length l.
Proof.
  induction l as [|x l IH]; intros t t' H; cbn [for_each] in H.
  - injection H as <-. exists []. now rewrite app_nil_r.
  - unfold db_bind in H. destruct (insert t x) as [e|t1] eqn:E; [discriminate|].
    destruct (Hins _ _ _ E) as [r Hr].
    destruct (IH _ _ H) as [added [Ha Hl]].
    exists (r :: added). split; [|cbn [List.length]; now rewrite Hl].
    rewrite Ha, Hr, <- app_assoc. reflexivity.
Qed.

Lemma enroll_users (course_id : Z) (user_ids : list Z) :
  forall t t', for_each (insert_enrollment course_id) user_ids t = inr t' ->
    (forall e, In e (rows t) -> In e (rows t')) /\
    (forall user_id, In user_id user_ids -> enrolled (rows t') course_id user_id).
Proof.
  induction user_ids as [|u l IH]; intros t t' H; cbn [for_each] in H.
  - injection H as <-. split; [auto | intros ? []].
  - unfold db_bind in H.
    destruct (insert_enrollment course_id t u) as [e|t1] eqn:E; [discriminate|].
    destruct (insert_enrollment_rows _ _ _ _ E) as [i Hi].
    destruct (IH _ _ H) as [Hkeep Hall]. split.
    + intros e He. apply Hkeep. rewrite Hi. apply in_or_app. now left.
    + intros user_id [<- | Hin]; [|now apply Hall].
      eexists. split; [apply Hkeep; rewrite Hi; apply in_or_app; right; now left|].
      now split.
Qed.

Lemma enroll_all_enrolls (course_ids user_ids : list Z) :
  forall t t', enroll_all course_ids user_ids t = inr t' ->
    (forall e, In e (rows t) -> In e (rows t')) /\
    (forall course_id user_id, In course_id course_ids -> In user_id user_ids ->
       enrolled (rows t') course_id user_id).
Proof.
  unfold enroll_all.
  induction course_ids as [|c l IH]; intros t t' H; cbn [for_each] in H.
  - injection H as <-. split; [auto | intros ? ? []].
  - unfold db_bind in H.
    destruct (for_each (insert_enrollment c) user_ids t) as [e|t1] eqn:E;
      [discriminate|].
    destruct (enroll_users _ _ _ _ E) as [Hkeep1 Hall1].
    destruct (IH _ _ H) as [Hkeep Hall]. split.
    + intros e He. now apply Hkeep, Hkeep1.
    + intros course_id user_id [<- | Hc] Hu; [|now apply Hall].
      destruct (Hall1 _ Hu) as [e [He Heq]]. exists e. split; [|exact Heq].
      now apply Hkeep.
Qed.

(** The loop over the demo users stops at an email that is taken. *)
Lemma insert_users_taken (l : list (string * string * string)) :
  Forall (fun nre => snd nre = "student" \/ snd nre = "teacher") l ->
  forall (t : table user_row) (u : user_row),
    In u (rows t) -> In (u_email u) (map (fun nre => snd (fst nre)) l) ->
    for_each insert_user l t
    = inl (IntegrityError "UNIQUE constraint failed: users.email").
Proof.
  induction 1 as [|[[name email] role] l Hrole Hl IH]; intros t u Hu Hin.
  - destruct Hin.
  - cbn [for_each]. unfold db_bind, insert_user at 1. cbn [snd] in Hrole.
    assert (Hr : negb (String.eqb role "student" || String.eqb role "teacher") = false).
    { destruct Hrole as [-> | ->]; reflexivity. }
    rewrite Hr.
    destruct (existsb (fun u0 => String.eqb (u_email u0) email) (rows t)) eqn:E;
      [reflexivity|].
    destruct Hin as [Hhere | Hlater].
    + cbn [fst snd] in Hhere. exfalso.
      assert (Hex : existsb (fun u0 => String.eqb (u_email u0) email) (rows t) = true).
      { apply existsb_exists. exists u. split; [exact Hu|].
        rewrite Hhere. apply String.eqb_refl. }
      rewrite Hex in E. discriminate.
    + apply (IH _ u); [|exact Hlater].
      cbn [rows]. apply in_or_app. now left.
Qed.

Section SeedFacts.

Variable user_id_order : list Z -> list Z.
Variable course_id_order : list Z -> list Z.

Lemma seed_steps (db db1 : school) :
  rows (courses db) = [] ->
  seed_demo_data user_id_order course_id_order db = inr db1 ->
  for_each insert_user (demo_teachers ++ demo_students)%list (users db)
  = inr (users db1) /\
  for_each insert_course demo_courses (courses db) = inr (courses db1) /\
  enroll_all (course_id_order (map c_id (rows (courses db1))))
             (user_id_order (map u_id (rows (users db1)))) (enrollments db)
  = inr (enrollments db1).
Proof.
  intros Hempty. unfold seed_demo_data. rewrite Hempty. unfold db_bind.
  destruct (for_each insert_user _ _) as [e|us]; [discriminate|].
  destruct (for_each insert_course _ _) as [e|cs]; [discriminate|].
  destruct (enroll_all _ _ _) as [e|es] eqn:E; [discriminate|].
  intros H. injection H as <-. cbn [users courses enrollments]. now rewrite E.
Qed.


(** X23.  When the database has no course and [seed_demo_data] goes
    through, every user of the database is enrolled in every course of it,
    the users that were there before as well, whatever the order in which
    the database gives the ids. *)
Theorem seed_enrolls_everyone (db db1 : school) (u : user_row) (c : course_row) :
  (forall l x, In x l -> In x (user_id_order l)) ->
  (forall l x, In x l -> In x (course_id_order l)) ->
  rows (courses db) = [] ->
  seed_demo_data user_id_order course_id_order db = inr db1 ->
  In u (rows (users db1)) -> In c (rows (courses db1)) ->
  enrolled (rows (enrollments db1)) (c_id c) (u_id u).
Proof.
  intros Hu Hc Hempty H Inu Inc.
  destruct (seed_steps db db1 Hempty H) as [_ [_ He]].
  destruct (enroll_all_enrolls _ _ _ _ He) as [_ Hall].
  apply Hall; [apply Hc | apply Hu]; now apply in_map.
Qed.

(** X24.  When the database has no course but has a user with the email
    of one of the demo users, [seed_demo_data] raises the integrity error of
    the unique email, and nothing of the demo data is committed. *)
Theorem seed_fails_on_taken_email (db : school) (u : user_row) :
  rows (courses db) = [] ->
  In u (rows (users db)) ->
  In (u_email u) demo_emails ->
  seed_demo_data user_id_order course_id_order db = inl (IntegrityError "UNIQUE constraint failed: users.email").
Proof.
  intros Hempty Hu Hin. unfold seed_demo_data. rewrite Hempty.
  assert (Hroles : Forall (fun nre : string * string * string =>
                             snd nre = "student" \/ snd nre = "teacher")
                          (demo_teachers ++ demo_students)%list)
    by (repeat constructor; cbn [snd]; auto).
  rewrite (insert_users_taken _ Hroles (users db) u Hu Hin).
  reflexivity.
Qed.

(** X25.  [seed_demo_data] deletes nothing: when it goes through, the users
    and the enrollments of the database are still there, in front of the
    rows it has added. *)
Theorem seed_keeps_rows (db db1 : school) :
  seed_demo_data user_id_order course_id_order db = inr db1 ->
  (exists added, rows (users db1) = (rows (users db) ++ added)%list) /\
  (exists added, rows (enrollments db1) = (rows (enrollments db) ++ added)%list).
Proof.
  intros H. destruct (rows (courses db)) as [|c0 cs0] eqn:Hempty.
  - destruct (seed_steps db db1 Hempty H) as [Hus [_ Hes]]. split.
    + destruct (for_each_appends insert_user insert_user_rows _ _ _ Hus)
        as [added [Hrows _]]. now exists added.
    + revert Hes. unfold enroll_all.
      generalize (enrollments db) as t.
      induction (course_id_order (map c_id (rows (courses db1)))) as [|x l IH];
        intros t Hes; cbn [for_each] in Hes.
      * injection Hes as <-. exists []. now rewrite app_nil_r.
      * unfold db_bind in Hes.
        destruct (for_each (insert_enrollment x) _ t) as [e|t1] eqn:E;
          [discriminate|].
        destruct (for_each_appends (insert_enrollment x)
                    (fun t t' y => ltac:(intros Hy;
                       destruct (insert_enrollment_rows _ _ _ _ Hy) as [i Hi];
                       eexists; exact Hi)) _ _ _ E) as [a1 [H1 _]].
        destruct (IH _ Hes) as [a2 H2].
        exists (a1 ++ a2)%list. now rewrite H2, H1, <- app_assoc.
  - unfold seed_demo_data in H. rewrite Hempty in H. injection H as <-.
    split; exists []; now rewrite app_nil_r.
Qed.

End SeedFacts.


Lemma seed_enrolls_everyone_witness :
  exists db1 : school,
    seed_demo_data by_key by_key empty_school = inr db1 /\
    enrolled (rows (enrollments db1)) 3 6.
Proof.
  eexists. split; [vm_compute; reflexivity|].
  apply (seed_enrolls_everyone by_key by_key empty_school _
           {| u_id := 6; u_name := "Fiona Green";
              u_email := "fiona.green@example.edu"; u_role := "student" |}
           {| c_id := 3; c_name := "Data Science Fundamentals"; c_code := "DS301";
              c_description := "Introduction to data analysis and machine learning" |}).
  - intros l x Hx. exact Hx.
  - intros l x Hx. exact Hx.
  - reflexivity.
  - vm_compute. reflexivity.
  - cbn. tauto.
  - cbn. tauto.
Defined.

Lemma seed_fails_on_taken_email_witness :
  seed_demo_data by_key by_key
    {| users := {| rows := [{| u_id := 1; u_name := "Diana";
                               u_email := "diana.prince@example.edu";
                               u_role := "teacher" |}];
                   last_id := 1 |};
       courses := {| rows := []; last_id := 0 |};
       enrollments := {| rows := []; last_id := 0 |} |}
  = inl (IntegrityError "UNIQUE constraint failed: users.email").
Proof.
  apply (seed_fails_on_taken_email by_key by_key _
           {| u_id := 1; u_name := "Diana"; u_email := "diana.prince@example.edu";
              u_role := "teacher" |}).
  - reflexivity.
  - cbn. tauto.
  - cbn. tauto.
Defined.

Lemma seed_keeps_rows_witness :
  exists db1 : school,
    seed_demo_data by_key by_key school_without_courses = inr db1 /\
    (exists added,
       rows (users db1)
       = ([{| u_id := 1; u_name := "Zoe Young";
              u_email := "zoe.young@example.edu"; u_role := "teacher" |}]
          ++ added)%list) /\
    (exists added,
       rows (enrollments db1)
       = ([{| e_id := 1; e_course_id := 4; e_user_id := 1 |}] ++ added)%list).
Proof.
  eexists. split; [vm_compute; reflexivity|].
  apply (seed_keeps_rows by_key by_key school_without_courses).
  vm_compute. reflexivity.
Defined.
